(** * The news agent's dialogue orchestrator (backend/app/main.py)

    A shallow embedding of [exa_news_fetch], [summarize_news],
    [openai_chat_with_tools] and [chat], with the properties of the
    orchestration loop stated over it.

    Conventions.
    - A Python [str] is a Rocq [string] holding its UTF-8 bytes.
    - A Python [dict] is an association list in insertion order, as
      CPython keeps it (this is the order [json.dumps] prints).
    - A JSON-shaped Python value ([Any]) is a [pyval].
    - Library code ([json.dumps], [json.loads], [repr], the text of an
      exception, the network behind [requests.post]) is not re-implemented:
      it is a field of the environment [env], over which every statement
      is quantified. *)

From Stdlib Require Import ZArith String Ascii List Bool Lia.
From Stdlib Require Import DecimalString Floats.PrimFloat.
Import ListNotations.
Local Open Scope string_scope.
Local Open Scope Z_scope.

Set Warnings "-register-all".

(** ** Python values *)

Inductive pyval : Type :=
| PNone
| PBool (b : bool)
| PInt (z : Z)
| PFloat (f : float)
| PStr (s : string)
| PList (l : list pyval)
| PDict (d : list (string * pyval)).

Definition dict : Type := list (string * pyval).

(** [bool(v)], the test behind [if v], [not v] and [a or b]. *)
Definition truthy (v : pyval) : bool :=
  match v with
  | PNone => false
  | PBool b => b
  | PInt z => negb (z =? 0)
  | PFloat f => negb (PrimFloat.eqb f PrimFloat.zero)
  | PStr s => negb (String.eqb s "")
  | PList l => match l with [] => false | _ :: _ => true end
  | PDict d => match d with [] => false | _ :: _ => true end
  end.

(** [a or b] *)
Definition py_or (a b : pyval) : pyval := if truthy a then a else b.

Definition type_name (v : pyval) : string :=
  match v with
  | PNone => "NoneType"
  | PBool _ => "bool"
  | PInt _ => "int"
  | PFloat _ => "float"
  | PStr _ => "str"
  | PList _ => "list"
  | PDict _ => "dict"
  end.

(** ** Dictionaries *)

Fixpoint dict_get (k : string) (d : dict) : option pyval :=
  match d with
  | [] => None
  | (k', v) :: d' => if String.eqb k k' then Some v else dict_get k d'
  end.

(** [k in d] *)
Definition dict_mem (k : string) (d : dict) : bool :=
  match dict_get k d with Some _ => true | None => false end.

(** [d.get(k, dflt)] *)
Definition dict_get_or (k : string) (d : dict) (dflt : pyval) : pyval :=
  match dict_get k d with Some v => v | None => dflt end.

(** [d[k] = v]: an existing key keeps its place, a new one goes last. *)
Fixpoint dict_set (k : string) (v : pyval) (d : dict) : dict :=
  match d with
  | [] => [(k, v)]
  | (k', v') :: d' =>
      if String.eqb k k' then (k', v) :: d' else (k', v') :: dict_set k v d'
  end.

(** [d.setdefault(k, v)] *)
Definition dict_setdefault (k : string) (v : pyval) (d : dict) : dict :=
  if dict_mem k d then d else dict_set k v d.

(** ** Text *)

Definition byte (n : nat) : ascii := ascii_of_nat n.
Definition bytes (l : list nat) : string := string_of_list_ascii (map byte l).

Definition newline : string := bytes [10%nat].
Definition dquote : string := bytes [34%nat].

(** [sep.join(l)] *)
Definition join (sep : string) (l : list string) : string := String.concat sep l.

(** [s.split(",")] *)
Fixpoint split_comma (s : string) : list string :=
  match s with
  | EmptyString => [EmptyString]
  | String c rest =>
      if Ascii.eqb c "," then EmptyString :: split_comma rest
      else match split_comma rest with
           | tok :: toks => String c tok :: toks
           | [] => [String c EmptyString]
           end
  end.

(** A byte [10xxxxxx] continues the code point begun before it. *)
Definition is_continuation (c : ascii) : bool :=
  let n := nat_of_ascii c in ((128 <=? n) && (n <? 192))%nat.

Definition starts_with_continuation (s : string) : bool :=
  match s with
  | EmptyString => false
  | String c _ => is_continuation c
  end.

(** The characters (code points) of a text, each as the text of its bytes. *)
Fixpoint utf8_chars (s : string) : list string :=
  match s with
  | EmptyString => []
  | String c rest =>
      if starts_with_continuation rest then
        match utf8_chars rest with
        | ch :: chs => String c ch :: chs
        | [] => [String c EmptyString]
        end
      else String c EmptyString :: utf8_chars rest
  end.

(** The characters for which [str.isspace] holds: U+0009..U+000D,
    U+001C..U+0020, U+0085, U+00A0, U+1680, U+2000..U+200A, U+2028,
    U+2029, U+202F, U+205F, U+3000. *)
Definition whitespace : list string :=
  map bytes
    [ [9]; [10]; [11]; [12]; [13]; [28]; [29]; [30]; [31]; [32];
      [194; 133]; [194; 160]; [225; 154; 128];
      [226; 128; 128]; [226; 128; 129]; [226; 128; 130]; [226; 128; 131];
      [226; 128; 132]; [226; 128; 133]; [226; 128; 134]; [226; 128; 135];
      [226; 128; 136]; [226; 128; 137]; [226; 128; 138];
      [226; 128; 168]; [226; 128; 169]; [226; 128; 175];
      [226; 129; 159]; [227; 128; 128] ]%nat.

Definition is_space (ch : string) : bool := existsb (String.eqb ch) whitespace.

Fixpoint drop_spaces (chs : list string) : list string :=
  match chs with
  | [] => []
  | ch :: rest => if is_space ch then drop_spaces rest else chs
  end.

(** [s.strip()] *)
Definition strip (s : string) : string :=
  String.concat "" (rev (drop_spaces (rev (drop_spaces (utf8_chars s))))).

(** Decimal text of an integer, as [str] prints an [int]. *)
Definition decimal (z : Z) : string := NilZero.string_of_int (Z.to_int z).

(** ** Exceptions and results *)

Inductive exn : Type :=
| AttributeError (type attr : string)
| TypeError (what : string)
| KeyError (key : pyval)
| IndexError
| JSONDecodeError (doc : string)
| HTTPError (status : Z)
| TransportError (msg : string)
| ValidationError (field : string).

(** What running a piece of code yields: a value, a raised exception, or
    [Fuel] when the model's loop budget ran out before the code finished. *)
Inductive res (A : Type) : Type :=
| Ok (a : A)
| Raise (e : exn)
| Fuel.
Arguments Ok {A} a.
Arguments Raise {A} e.
Arguments Fuel {A}.

Definition res_bind {A B} (r : res A) (k : A -> res B) : res B :=
  match r with
  | Ok a => k a
  | Raise e => Raise e
  | Fuel => Fuel
  end.

(** ** Operations on values whose Python type is only known at run time *)

(** [o.get(k, dflt)] *)
Definition py_get (o : pyval) (k : string) (dflt : pyval) : res pyval :=
  match o with
  | PDict d => Ok (dict_get_or k d dflt)
  | _ => Raise (AttributeError (type_name o) "get")
  end.

(** [o[k]] for a text key [k] *)
Definition py_getitem (o : pyval) (k : string) : res pyval :=
  match o with
  | PDict d =>
      match dict_get k d with
      | Some v => Ok v
      | None => Raise (KeyError (PStr k))
      end
  | PStr _ | PList _ => Raise (TypeError "indices must be integers")
  | _ => Raise (TypeError "object is not subscriptable")
  end.

(** [o[0]] *)
Definition py_first (o : pyval) : res pyval :=
  match o with
  | PList (x :: _) => Ok x
  | PList [] => Raise IndexError
  | PStr s =>
      match utf8_chars s with
      | ch :: _ => Ok (PStr ch)
      | [] => Raise IndexError
      end
  | PDict _ => Raise (KeyError (PInt 0))
  | _ => Raise (TypeError "object is not subscriptable")
  end.

(** The items a [for] loop over [o] visits. *)
Definition py_iter (o : pyval) : res (list pyval) :=
  match o with
  | PList l => Ok l
  | PStr s => Ok (map PStr (utf8_chars s))
  | PDict d => Ok (map (fun kv => PStr (fst kv)) d)
  | _ => Raise (TypeError "object is not iterable")
  end.

(** [l[:n]] on a list *)
Definition slice_to {A} (n : Z) (l : list A) : list A :=
  if 0 <=? n then firstn (Z.to_nat n) l
  else firstn (Z.to_nat (Z.of_nat (length l) + n)) l.

(** [o[:n]] *)
Definition py_slice_to (o n : pyval) : res pyval :=
  let bound (k : list pyval -> res pyval) (l : list pyval) :=
    match n with
    | PNone => k l
    | PInt z => k (slice_to z l)
    | PBool b => k (slice_to (if b then 1 else 0) l)
    | _ => Raise (TypeError "slice indices must be integers or None")
    end in
  match o with
  | PList l => bound (fun l' => Ok (PList l')) l
  | PStr s =>
      bound (fun l' => Ok (PStr (String.concat "" (map (fun v => match v with PStr c => c | _ => "" end) l'))))
            (map PStr (utf8_chars s))
  | _ => Raise (TypeError "object is not subscriptable")
  end.

(** [needle in hay] on two texts *)
Fixpoint contains (needle hay : string) : bool :=
  String.prefix needle hay
  || match hay with
     | EmptyString => false
     | String _ rest => contains needle rest
     end.

(** [k in o] for a text key [k] *)
Definition py_contains (o : pyval) (k : string) : res bool :=
  match o with
  | PDict d => Ok (dict_mem k d)
  | PList l =>
      Ok (existsb (fun x => match x with PStr s => String.eqb s k | _ => false end) l)
  | PStr s => Ok (contains k s)
  | _ => Raise (TypeError "argument is not iterable")
  end.

(** ** The environment of a run *)

(** One outbound [requests.post] call. [payload] is the value the code
    passes through [json.dumps] as the request body. *)
Record request : Type := {
  url : string;
  headers : list (string * string);
  payload : pyval;
  timeout : Z
}.

Record response : Type := {
  status_code : Z;
  text : string
}.

(** [requests.post] either returns a response or raises (time-out,
    refused connection, ...). *)
Inductive http_result : Type :=
| Responded (r : response)
| Failed (msg : string).

(** Process configuration, library functions and the network.
    [requests_post log r] is what the call [r] yields after the calls
    [log] (oldest first) were made earlier in the same turn, so a provider
    may answer by request content and by history. *)
Record env : Type := {
  OPENAI_API_KEY : string;
  EXA_API_KEY : string;
  json_dumps : pyval -> string;
  json_loads : string -> option pyval;
  py_repr : pyval -> string;
  exn_str : exn -> string;
  requests_post : list request -> request -> http_result
}.

(** ** Code that calls out and may raise *)

(** A computation reads and extends the log of calls made so far. A
    raised exception keeps the log: the calls were made. *)
Definition M (A : Type) : Type := list request -> res A * list request.

Definition ret {A} (a : A) : M A := fun log => (Ok a, log).

Definition bind {A B} (m : M A) (k : A -> M B) : M B :=
  fun log =>
    match m log with
    | (Ok a, log') => k a log'
    | (Raise e, log') => (Raise e, log')
    | (Fuel, log') => (Fuel, log')
    end.

Definition lift {A} (r : res A) : M A := fun log => (r, log).

Definition raise {A} (e : exn) : M A := lift (Raise e).

(** [try: m except Exception as e: h e] *)
Definition try_except {A} (m : M A) (h : exn -> M A) : M A :=
  fun log =>
    match m log with
    | (Raise e, log') => h e log'
    | other => other
    end.

Declare Scope py_scope.
Delimit Scope py_scope with py.
Notation "x <- m ;; k" := (bind m (fun x => k))
  (at level 61, m at next level, right associativity) : py_scope.
Notation "m ;;; k" := (bind m (fun _ => k))
  (at level 61, right associativity) : py_scope.
Local Open Scope py_scope.

(** A [for] loop that collects one value per item. *)
Fixpoint for_each {A B} (l : list A) (body : A -> M B) : M (list B) :=
  match l with
  | [] => ret []
  | a :: rest =>
      b <- body a ;;
      bs <- for_each rest body ;;
      ret (b :: bs)
  end.

(** ** The program *)

Record Message : Type := {
  role : string;
  content : string
}.

Record ChatRequest : Type := {
  req_messages : list Message;
  req_preferences : option dict
}.

Record ChatResponse : Type := {
  resp_messages : list Message;
  updatedPreferences : dict
}.

(** The dictionary [openai_chat_with_tools] returns, with its two keys. *)
Record turn_result : Type := {
  assistant_message : pyval;
  preferences : dict
}.

Section Program.

Variable E : env.

(** [f"{v}"] *)
Definition fstr (v : pyval) : string :=
  match v with
  | PStr s => s
  | PNone => "None"
  | PBool true => "True"
  | PBool false => "False"
  | PInt z => decimal z
  | _ => py_repr E v
  end.

(** [requests.post(url, headers=..., data=json.dumps(payload), timeout=...)] *)
Definition post (u : string) (h : list (string * string)) (p : pyval) (t : Z)
  : M response :=
  fun log =>
    let r := {| url := u; headers := h; payload := p; timeout := t |} in
    match requests_post E log r with
    | Responded resp => (Ok resp, (log ++ [r])%list)
    | Failed msg => (Raise (TransportError msg), (log ++ [r])%list)
    end.

(** [resp.raise_for_status()] *)
Definition raise_for_status (r : response) : M unit :=
  if (400 <=? status_code r) && (status_code r <? 600)
  then raise (HTTPError (status_code r))
  else ret tt.

(** [json.loads(s)] *)
Definition loads (s : string) : res pyval :=
  match json_loads E s with
  | Some v => Ok v
  | None => Raise (JSONDecodeError s)
  end.

(** [resp.json()] *)
Definition resp_json (r : response) : M pyval := lift (loads (text r)).

(** A call that passes the entries of [fargs] as keyword arguments, to a
    function with the parameters [allowed], of which [required] have no
    default. *)
Definition bind_kwargs (allowed required : list string) (fargs : pyval) : res dict :=
  match fargs with
  | PDict d =>
      if forallb (fun kv => existsb (String.eqb (fst kv)) allowed) d
         && forallb (fun k => dict_mem k d) required
      then Ok d
      else Raise (TypeError "unexpected or missing keyword argument")
  | _ => Raise (TypeError "argument after ** must be a mapping")
  end.

Definition exa_url : string := "https://api.exa.ai/search".

Definition exa_news_fetch (topic num_results : pyval) : M dict :=
  if String.eqb (EXA_API_KEY E) "" then
    ret [("error", PStr "Missing EXA_API_KEY")]
  else
    let payload :=
      PDict [("query", PStr ("latest news about " ++ fstr topic));
             ("numResults", num_results);
             ("text", PBool true);
             ("summary", PDict [("query", PStr "Summarize the article in 3 bullet points")])] in
    let headers :=
      [("x-api-key", EXA_API_KEY E); ("Content-Type", "application/json")] in
    try_except
      (r <- post exa_url headers payload 20 ;;
       raise_for_status r ;;;
       data <- resp_json r ;;
       found <- lift (py_get data "results" (PList [])) ;;
       cut <- lift (py_slice_to found num_results) ;;
       items <- lift (py_iter cut) ;;
       results <- for_each items (fun item =>
         title <- lift (py_get item "title" PNone) ;;
         link <- lift (py_get item "url" PNone) ;;
         summary <- lift (py_get item "summary" PNone) ;;
         published <- lift (py_get item "publishedDate" PNone) ;;
         ret (PDict [("title", title); ("url", link);
                     ("summary", summary); ("publishedDate", published)])) ;;
       ret [("results", PList results)])
      (fun e => ret [("error", PStr (exn_str E e))]).

(** The bullet list built at lines 77-79 and again at lines 111-113. *)
Definition bullets (items : pyval) : M (list string) :=
  its <- lift (py_iter items) ;;
  for_each its (fun it =>
    title <- lift (py_get it "title" PNone) ;;
    summary <- lift (py_get it "summary" PNone) ;;
    ret ("- " ++ fstr title ++ ": "
         ++ fstr (py_or summary (PStr "No summary available")))).

Definition responses_url : string := "https://api.openai.com/v1/responses".

Definition openai_headers : list (string * string) :=
  [("Authorization", "Bearer " ++ OPENAI_API_KEY E);
   ("Content-Type", "application/json")].

Definition summarize_news (items style format_ language tone : pyval) : M dict :=
  if String.eqb (OPENAI_API_KEY E) "" then
    bs <- bullets items ;;
    ret [("summary", PStr (join newline bs))]
  else
    let prompt :=
      PDict [("type", PStr "text");
             ("text", PStr ("You are a helpful assistant summarizing news articles." ++ newline
                ++ "Tone: " ++ fstr tone ++ ". Interaction style: " ++ fstr style
                ++ ". Format: " ++ fstr format_ ++ ". Language: " ++ fstr language ++ "." ++ newline
                ++ "Summarize the following news items with citations to their URLs. Keep it factual and recent." ++ newline
                ++ json_dumps E items))] in
    try_except
      (let payload := PDict [("model", PStr "gpt-4o-mini"); ("input", PList [prompt])] in
       resp <- post responses_url openai_headers payload 30 ;;
       raise_for_status resp ;;;
       data <- resp_json resp ;;
       output <- lift (py_get data "output" (PList [PDict []])) ;;
       output0 <- lift (py_first output) ;;
       parts <- lift (py_get output0 "content" (PList [PDict []])) ;;
       part0 <- lift (py_first parts) ;;
       text_out <- lift (py_get part0 "text" PNone) ;;
       text_out <-
         (if truthy text_out then ret text_out
          else
            choices <- lift (py_get data "choices" (PList [PDict []])) ;;
            choice <- lift (py_first choices) ;;
            message <- lift (py_get choice "message" (PDict [])) ;;
            lift (py_get message "content" PNone)) ;;
       ret [("summary", py_or text_out (PStr ""))])
      (fun e =>
         bs <- bullets items ;;
         ret [("summary", PStr (join newline bs)); ("warning", PStr (exn_str E e))]).

(** *** The orchestrator without a reasoning model (lines 123-156) *)

Definition questions : list (string * string) :=
  [("tone", "Preferred Tone of Voice (e.g., formal, casual, enthusiastic)?");
   ("format", "Preferred Response Format (e.g., bullet points, paragraphs)?");
   ("language", "Language Preference (e.g., English, Spanish)?");
   ("interaction", "Interaction Style (e.g., concise, detailed)?");
   ("topics", "Preferred News Topics (e.g., technology, sports, politics)?")].

(** The loop of lines 133-138: the question of the first key for which
    [not updated.get(key)] holds. *)
Fixpoint first_question (qs : list (string * string)) (updated : dict) : option string :=
  match qs with
  | [] => None
  | (key, q) :: rest =>
      if negb (truthy (dict_get_or key updated PNone)) then Some q
      else first_question rest updated
  end.

(** The body of the loop of lines 146-152 for one topic. *)
Definition topic_section (updated : dict) (topic : pyval) : M string :=
  exa <- exa_news_fetch topic (PInt 5) ;;
  match dict_get "results" exa with
  | Some items =>
      summ <- summarize_news items
                (dict_get_or "interaction" updated (PStr "concise"))
                (dict_get_or "format" updated (PStr "bullet points"))
                (dict_get_or "language" updated (PStr "English"))
                (dict_get_or "tone" updated (PStr "neutral")) ;;
      ret ("Topic: " ++ fstr topic ++ newline ++ fstr (dict_get_or "summary" summ PNone))
  | None =>
      ret ("Topic: " ++ fstr topic ++ newline ++ "Exa error: "
           ++ fstr (dict_get_or "error" exa PNone))
  end.

Definition offline_bot (prefs : dict) : M turn_result :=
  let updated := prefs in
  match first_question questions updated with
  | Some q => ret {| assistant_message := PStr q; preferences := updated |}
  | None =>
      let topics := dict_get_or "topics" updated PNone in
      let tlist := match topics with PList l => l | _ => [topics] end in
      result_texts <- for_each tlist (topic_section updated) ;;
      ret {| assistant_message := PStr (join (newline ++ newline) result_texts);
             preferences := updated |}
  end.

(** *** The orchestrator with a reasoning model (lines 158-312) *)

Definition tools : pyval :=
  let str := PDict [("type", PStr "string")] in
  let nullable := PDict [("type", PList [PStr "string"; PStr "null"])] in
  let func (name description : string) (parameters : pyval) :=
    PDict [("type", PStr "function");
           ("function", PDict [("name", PStr name);
                               ("description", PStr description);
                               ("parameters", parameters)])] in
  PList
    [func "exa_news_fetch" "Fetch latest news articles for a topic using Exa API"
       (PDict [("type", PStr "object");
               ("properties",
                PDict [("topic", str);
                       ("num_results",
                        PDict [("type", PStr "integer"); ("minimum", PInt 1);
                               ("maximum", PInt 10)])]);
               ("required", PList [PStr "topic"])]);
     func "summarize_news"
       "Summarize a list of news items using OpenAI, respecting preferences"
       (PDict [("type", PStr "object");
               ("properties",
                PDict [("items",
                        PDict [("type", PStr "array");
                               ("items",
                                PDict [("type", PStr "object");
                                       ("properties",
                                        PDict [("title", nullable); ("url", nullable);
                                               ("summary", nullable);
                                               ("publishedDate", nullable)]);
                                       ("additionalProperties", PBool true)])]);
                       ("style", str); ("format_", str); ("language", str);
                       ("tone", str)]);
               ("required", PList [PStr "items"])]);
     func "save_preferences"
       "Save user preferences (tone, format, language, interaction, topics)."
       (PDict [("type", PStr "object");
               ("properties",
                PDict [("tone", str); ("format", str); ("language", str);
                       ("interaction", str);
                       ("topics",
                        PDict [("anyOf",
                                PList [str;
                                       PDict [("type", PStr "array"); ("items", str)]])])]);
               ("additionalProperties", PBool false)])].

Definition sys_prompt : string :=
  "You are a Latest News Agent. First, ensure the following preferences are collected: "
  ++ "tone, format, language, interaction, topics. Ask one question at a time until all are collected. "
  ++ "When the user supplies a preference, call save_preferences with the structured values. "
  ++ "After preferences are set, if the user requests news or summaries, use exa_news_fetch followed by summarize_news. "
  ++ "Always return answers in the user's preferred language, tone, interaction style, and format.".

Definition chat_url : string := "https://api.openai.com/v1/chat/completions".

Definition chat_message (r c : string) : pyval :=
  PDict [("role", PStr r); ("content", PStr c)].

(** Lines 234-238. *)
Definition initial_messages (messages : list Message) (prefs : dict) : list pyval :=
  (chat_message "system" sys_prompt
   :: map (fun m => chat_message (role m) (content m)) messages
   ++ [chat_message "system" ("Current preferences JSON: " ++ json_dumps E (PDict prefs))])%list.

Definition chat_payload (oai_messages : list pyval) : pyval :=
  PDict [("model", PStr "gpt-4o"); ("messages", PList oai_messages);
         ("tools", tools); ("tool_choice", PStr "auto")].

Definition recognized : list string :=
  ["tone"; "format"; "language"; "interaction"; "topics"].

(** The comprehension of line 289. *)
Definition split_topics (s : string) : list pyval :=
  map (fun tok => PStr (strip tok))
      (filter (fun tok => truthy (PStr (strip tok))) (split_comma s)).

(** Lines 287-291, for one key [k]. *)
Definition save_key (fargs : pyval) (prefs : dict) (k : string) : res dict :=
  res_bind (py_contains fargs k) (fun present =>
    if present then
      res_bind (py_getitem fargs k) (fun v =>
        match v with
        | PNone => Ok prefs
        | PStr s =>
            if String.eqb k "topics" then Ok (dict_set k (PList (split_topics s)) prefs)
            else Ok (dict_set k v prefs)
        | _ => Ok (dict_set k v prefs)
        end)
    else Ok prefs).

Fixpoint save_keys (ks : list string) (fargs : pyval) (prefs : dict) : res dict :=
  match ks with
  | [] => Ok prefs
  | k :: rest => res_bind (save_key fargs prefs k) (save_keys rest fargs)
  end.

(** The [save_preferences] branch, lines 285-291: the preferences after
    the updates [fargs] are applied. *)
Definition save_preferences (fargs : pyval) (prefs : dict) : res dict :=
  save_keys recognized fargs prefs.

Definition is_name (v : pyval) (name : string) : bool :=
  match v with PStr s => String.eqb s name | _ => false end.

(** Lines 275-294: the result of one tool call and the preferences after it. *)
Definition dispatch (fname fargs : pyval) (prefs : dict) : M (pyval * dict) :=
  if is_name fname "exa_news_fetch" then
    kw <- lift (bind_kwargs ["topic"; "num_results"] ["topic"] fargs) ;;
    result <- exa_news_fetch (dict_get_or "topic" kw PNone)
                             (dict_get_or "num_results" kw (PInt 5)) ;;
    ret (PDict result, prefs)
  else if is_name fname "summarize_news" then
    match fargs with
    | PDict d =>
        let d := dict_setdefault "style" (dict_get_or "interaction" prefs (PStr "concise")) d in
        let d := dict_setdefault "format_" (dict_get_or "format" prefs (PStr "bullet points")) d in
        let d := dict_setdefault "language" (dict_get_or "language" prefs (PStr "English")) d in
        let d := dict_setdefault "tone" (dict_get_or "tone" prefs (PStr "neutral")) d in
        kw <- lift (bind_kwargs ["items"; "style"; "format_"; "language"; "tone"]
                                ["items"] (PDict d)) ;;
        result <- summarize_news (dict_get_or "items" kw PNone)
                                 (dict_get_or "style" kw (PStr "concise"))
                                 (dict_get_or "format_" kw (PStr "bullet points"))
                                 (dict_get_or "language" kw (PStr "English"))
                                 (dict_get_or "tone" kw (PStr "neutral")) ;;
        ret (PDict result, prefs)
    | _ => raise (AttributeError (type_name fargs) "setdefault")
    end
  else if is_name fname "save_preferences" then
    prefs' <- lift (save_preferences fargs prefs) ;;
    ret (PDict [("ok", PBool true); ("preferences", PDict prefs')], prefs')
  else
    ret (PDict [("error", PStr ("Unknown tool " ++ fstr fname))], prefs).

(** Lines 272-301: one tool call [tc], on the transcript and preferences
    the loop holds. *)
Definition run_tool (tc : pyval) (oai_messages : list pyval) (prefs : dict)
  : M (list pyval * dict) :=
  fn <- lift (py_getitem tc "function") ;;
  fname <- lift (py_getitem fn "name") ;;
  raw <- lift (py_get fn "arguments" (PStr "{}")) ;;
  fargs <- lift (match raw with
                 | PStr s => loads s
                 | _ => Raise (TypeError "the JSON object must be str, bytes or bytearray")
                 end) ;;
  out <- dispatch fname fargs prefs ;;
  call_id <- lift (py_get tc "id" (PStr "")) ;;
  ret ((oai_messages
        ++ [PDict [("role", PStr "tool");
                   ("content", PStr (json_dumps E (fst out)));
                   ("tool_call_id", call_id)]])%list,
       snd out).

(** The [for] loop of line 271. *)
Fixpoint run_tools (tcs : list pyval) (oai_messages : list pyval) (prefs : dict)
  : M (list pyval * dict) :=
  match tcs with
  | [] => ret (oai_messages, prefs)
  | tc :: rest =>
      st <- run_tool tc oai_messages prefs ;;
      run_tools rest (fst st) (snd st)
  end.

(** The [while True] loop of lines 248-312; [fuel] bounds the number of
    calls to the reasoning model. *)
Fixpoint tool_loop (fuel : nat) (oai_messages : list pyval) (prefs : dict)
  : M turn_result :=
  match fuel with
  | O => lift Fuel
  | S fuel' =>
      resp <- post chat_url openai_headers (chat_payload oai_messages) 60 ;;
      if 400 <=? status_code resp then
        let detail :=
          match json_loads E (text resp) with
          | Some body => body
          | None => PDict [("error", PStr (text resp))]
          end in
        ret {| assistant_message :=
                 PStr ("OpenAI error " ++ decimal (status_code resp) ++ ": " ++ fstr detail);
               preferences := prefs |}
      else
        data <- resp_json resp ;;
        choices <- lift (py_get data "choices" (PList [PDict []])) ;;
        choice <- lift (py_first choices) ;;
        message <- lift (py_get choice "message" (PDict [])) ;;
        tool_calls <- lift (py_get message "tool_calls" PNone) ;;
        if truthy tool_calls then
          tcs <- lift (py_iter tool_calls) ;;
          st <- run_tools tcs oai_messages prefs ;;
          tool_loop fuel'
            (fst st ++ [chat_message "system"
                          ("Updated preferences JSON: " ++ json_dumps E (PDict (snd st)))])%list
            (snd st)
        else
          assistant_content <- lift (py_get message "content" (PStr "")) ;;
          ret {| assistant_message := assistant_content; preferences := prefs |}
  end.

Definition openai_chat_with_tools (fuel : nat) (messages : list Message) (prefs : dict)
  : M turn_result :=
  if String.eqb (OPENAI_API_KEY E) "" then offline_bot prefs
  else tool_loop fuel (initial_messages messages prefs) prefs.

(** [Message(role="assistant", content=v)]: the [content] field is a [str]. *)
Definition assistant_Message (v : pyval) : res Message :=
  match v with
  | PStr s => Ok {| role := "assistant"; content := s |}
  | _ => Raise (ValidationError "content")
  end.

Definition chat (fuel : nat) (req : ChatRequest) : M ChatResponse :=
  let prefs := match req_preferences req with Some p => p | None => [] end in
  let updated := prefs in
  result <- openai_chat_with_tools fuel (req_messages req) updated ;;
  let assistant_msg := assistant_message result in
  let updated := preferences result in
  msg <- lift (assistant_Message assistant_msg) ;;
  ret {| resp_messages := (req_messages req ++ [msg])%list;
         updatedPreferences := updated |}.

End Program.

(** ** Vocabulary of the specification *)

Fixpoint assoc (k : string) (l : list (string * string)) : option string :=
  match l with
  | [] => None
  | (k', v) :: rest => if String.eqb k k' then Some v else assoc k rest
  end.

(** The onboarding question of a key. *)
Definition question_for (k : string) : option string := assoc k questions.

(** A key is set when it is present with a value that is not empty or falsy. *)
Definition is_set (prefs : dict) (k : string) : bool :=
  truthy (dict_get_or k prefs PNone).

(** [isComplete]: all five recognized keys are set. *)
Definition is_complete (prefs : dict) : bool := forallb (is_set prefs) recognized.

(** A token that is empty or made of whitespace only. *)
Definition blank (tok : string) : bool := forallb is_space (utf8_chars tok).

(** The Preference Store's [apply], one key at a time, in the
    specification's words: an update that is present and not null replaces
    the stored value; a text given for [topics] is split on commas, its
    tokens trimmed and the empty ones dropped. *)
Definition store_apply_key (updates prefs : dict) (k : string) : dict :=
  match dict_get k updates with
  | None | Some PNone => prefs
  | Some (PStr s) =>
      if String.eqb k "topics"
      then dict_set k
             (PList (map PStr (filter (fun tok => negb (String.eqb tok ""))
                                      (map strip (split_comma s))))) prefs
      else dict_set k (PStr s) prefs
  | Some v => dict_set k v prefs
  end.

Definition store_apply (prefs updates : dict) : dict :=
  fold_left (store_apply_key updates) recognized prefs.

(** The snapshot a request carries; none counts as the empty one. *)
Definition request_preferences (req : ChatRequest) : dict :=
  match req_preferences req with Some p => p | None => [] end.

(** Every key of [before] is still a key of [after], and a key outside the
    five recognized ones has kept its value. *)
Definition keeps_keys (before after : dict) : Prop :=
  forall k v, dict_get k before = Some v ->
    exists v', dict_get k after = Some v'
               /\ (~ In k recognized -> v' = v).

(** ** Concrete environments *)

Fixpoint escape (s : string) : string :=
  match s with
  | EmptyString => EmptyString
  | String c rest =>
      if Ascii.eqb c (byte 34) || Ascii.eqb c (byte 92)
      then String (byte 92) (String c (escape rest))
      else String c (escape rest)
  end.

(** A serialiser that prints as [json.dumps] does on values without floats
    whose texts are printable ASCII. *)
Fixpoint demo_dumps (v : pyval) : string :=
  match v with
  | PNone => "null"
  | PBool true => "true"
  | PBool false => "false"
  | PInt z => decimal z
  | PFloat _ => "NaN"
  | PStr s => dquote ++ escape s ++ dquote
  | PList l => "[" ++ join ", " (map demo_dumps l) ++ "]"
  | PDict d =>
      "{" ++ join ", " (map (fun kv => match kv with
                                       | (k, x) => dquote ++ escape k ++ dquote ++ ": " ++ demo_dumps x
                                       end) d) ++ "}"
  end.

(** A decoder that knows the documents [known] by their text. *)
Definition demo_loads (known : list pyval) (s : string) : option pyval :=
  find (fun v => String.eqb (demo_dumps v) s) known.

Definition demo_exn_str (e : exn) : string :=
  match e with
  | AttributeError t a => "'" ++ t ++ "' object has no attribute '" ++ a ++ "'"
  | TypeError what => what
  | KeyError _ => "key"
  | IndexError => "index out of range"
  | JSONDecodeError _ => "Expecting value"
  | HTTPError s => decimal s ++ " Error"
  | TransportError msg => msg
  | ValidationError f => "validation error for " ++ f
  end.

Definition demo_env (openai_key exa_key : string) (known : list pyval)
  (net : list request -> request -> http_result) : env :=
  {| OPENAI_API_KEY := openai_key;
     EXA_API_KEY := exa_key;
     json_dumps := demo_dumps;
     json_loads := demo_loads known;
     py_repr := demo_dumps;
     exn_str := demo_exn_str;
     requests_post := net |}.

Definition no_network : list request -> request -> http_result :=
  fun _ _ => Failed "Connection refused".

(** No credential at all. *)
Definition offline_env : env := demo_env "" "" [] no_network.

Definition user_says (c : string) : Message := {| role := "user"; content := c |}.

Definition four_styles : dict :=
  [("tone", PStr "formal"); ("format", PStr "bullet points");
   ("language", PStr "English"); ("interaction", PStr "concise")].

(** ** Reasoning about computations *)

(** Whenever [m] returns a value, the value satisfies [P]. *)
Definition ensures {A} (m : M A) (P : A -> Prop) : Prop :=
  forall log a log', m log = (Ok a, log') -> P a.

(** [m] finishes within the model's budget: it returns or raises. *)
Definition halts {A} (m : M A) : Prop :=
  forall log, fst (m log) <> Fuel.

(** Whatever [m] yields without running out of budget, [m'] yields too. *)
Definition extends {A} (m m' : M A) : Prop :=
  forall log, fst (m log) <> Fuel -> m' log = m log.

(** What the retrieval adapter returns: an error text, or a list of article
    dictionaries. *)
Definition fetch_shape (d : dict) : Prop :=
  (exists msg, d = [("error", PStr msg)])
  \/ (exists records, d = [("results", PList (map PDict records))]).

(** The line the fallback summary prints for one article. *)
Definition bullet_line (E : env) (article : dict) : string :=
  "- " ++ fstr E (dict_get_or "title" article PNone) ++ ": "
  ++ fstr E (py_or (dict_get_or "summary" article PNone) (PStr "No summary available")).

(** The topics the offline reply covers: a value that is not a sequence
    counts as the single topic it is. *)
Definition topic_list (prefs : dict) : list pyval :=
  let topics := dict_get_or "topics" prefs PNone in
  match topics with
  | PList l => l
  | _ => [topics]
  end.

(** [sections E prefs topics log texts log']: starting with the call log
    [log], handling [topics] in order yields the reply sections [texts] and
    the call log [log']. Each topic is fetched with count 5; a fetch with
    results is summarised under the style of [prefs], a fetch without
    reports its error. *)
Inductive sections (E : env) (prefs : dict)
  : list pyval -> list request -> list string -> list request -> Prop :=
| sections_done : forall log, sections E prefs [] log [] log
| sections_fetched : forall topic rest log fetched items summ log1 log2 texts log',
    exa_news_fetch E topic (PInt 5) log = (Ok fetched, log1) ->
    dict_get "results" fetched = Some items ->
    summarize_news E items (dict_get_or "interaction" prefs PNone)
      (dict_get_or "format" prefs PNone) (dict_get_or "language" prefs PNone)
      (dict_get_or "tone" prefs PNone) log1 = (Ok summ, log2) ->
    sections E prefs rest log2 texts log' ->
    sections E prefs (topic :: rest) log
      (("Topic: " ++ fstr E topic ++ newline ++ fstr E (dict_get_or "summary" summ PNone))
       :: texts) log'
| sections_failed : forall topic rest log fetched log1 texts log',
    exa_news_fetch E topic (PInt 5) log = (Ok fetched, log1) ->
    dict_get "results" fetched = None ->
    sections E prefs rest log1 texts log' ->
    sections E prefs (topic :: rest) log
      (("Topic: " ++ fstr E topic ++ newline ++ "Exa error: "
        ++ fstr E (dict_get_or "error" fetched PNone)) :: texts) log'.

(** *** A retrieval provider that knows one topic

    The provider answers a query about "ai" with one article and times
    out on every other query. No reasoning-model credential is configured. *)

Definition ai_results : pyval :=
  PDict [("results",
          PList [PDict [("title", PStr "Chips"); ("url", PStr "https://example.org/chips");
                        ("summary", PStr "New chips ship."); ("publishedDate", PNone);
                        ("score", PInt 1)]])].

Definition ai_only (log : list request) (r : request) : http_result :=
  match payload r with
  | PDict (("query", PStr q) :: _) =>
      if String.eqb q "latest news about ai"
      then Responded {| status_code := 200; text := demo_dumps ai_results |}
      else Failed "Read timed out."
  | _ => Failed "Read timed out."
  end.

Definition retrieval_env : env := demo_env "" "exa-key" [ai_results] ai_only.

Definition complete_prefs : dict :=
  (four_styles ++ [("topics", PList [PStr "ai"; PStr "climate"])])%list.

(** ** Vocabulary for the loop with a reasoning model *)

(** The request that carries the transcript [oai_messages] to the
    reasoning model. *)
Definition chat_request (E : env) (oai_messages : list pyval) : request :=
  {| url := chat_url; headers := openai_headers E;
     payload := chat_payload oai_messages; timeout := 60 |}.

(** The message of the first choice of a provider reply. *)
Definition first_message (body : pyval) : option dict :=
  match body with
  | PDict d =>
      match dict_get "choices" d with
      | Some (PList (PDict c :: _)) =>
          match dict_get "message" c with
          | Some (PDict m) => Some m
          | _ => None
          end
      | _ => None
      end
  | _ => None
  end.

(** [tc] asks for the tool [name] with the JSON text [args], under the
    call token [id]. *)
Definition is_call (tc : pyval) (name args : string) (id : pyval) : Prop :=
  exists t f,
    tc = PDict t
    /\ dict_get "function" t = Some (PDict f)
    /\ dict_get "name" f = Some (PStr name)
    /\ dict_get "arguments" f = Some (PStr args)
    /\ dict_get_or "id" t (PStr "") = id.

(** The transcript entry that reports a tool's result. *)
Definition tool_message (E : env) (result id : pyval) : pyval :=
  PDict [("role", PStr "tool"); ("content", PStr (json_dumps E result));
         ("tool_call_id", id)].

(** What [save_preferences] reports back to the model. *)
Definition saved (prefs : dict) : pyval :=
  PDict [("ok", PBool true); ("preferences", PDict prefs)].

(** The synthetic system entry that closes a batch of tool calls. *)
Definition updated_note (E : env) (prefs : dict) : pyval :=
  chat_message "system" ("Updated preferences JSON: " ++ json_dumps E (PDict prefs)).

(** The reply to a provider response with an error status: the status code
    and the body, parsed when it is JSON. *)
Definition diagnostic (E : env) (r : response) : string :=
  "OpenAI error " ++ decimal (status_code r) ++ ": "
  ++ fstr E (match json_loads E (text r) with
             | Some body => body
             | None => PDict [("error", PStr (text r))]
             end).

(** *** Reasoning-model providers that follow a script *)

(** The n-th call of a turn gets the n-th entry of [script]; the calls
    after the script's end time out. *)
Definition scripted (script : list http_result) : list request -> request -> http_result :=
  fun log _ => nth (length log) script (Failed "Read timed out.").

Definition answer (status : Z) (body : pyval) : http_result :=
  Responded {| status_code := status; text := demo_dumps body |}.

Definition call (id name : string) (args : pyval) : pyval :=
  PDict [("id", PStr id); ("type", PStr "function");
         ("function", PDict [("name", PStr name);
                             ("arguments", PStr (demo_dumps args))])].

Definition reply_with (message : dict) : pyval :=
  PDict [("id", PStr "chatcmpl-1");
         ("choices", PList [PDict [("index", PInt 0); ("message", PDict message)]])].

Definition tone_update : pyval := PDict [("tone", PStr "formal")].
Definition topics_update : pyval := PDict [("topics", PStr "tech,sports")].

(** The model asks for two saves in one batch. *)
Definition two_saves : pyval :=
  reply_with [("role", PStr "assistant"); ("content", PNone);
              ("tool_calls", PList [call "call_1" "save_preferences" tone_update;
                                    call "call_2" "save_preferences" topics_update])].

Definition one_save : pyval :=
  reply_with [("role", PStr "assistant"); ("content", PNone);
              ("tool_calls", PList [call "call_1" "save_preferences" tone_update])].

Definition final_text : pyval :=
  reply_with [("role", PStr "assistant"); ("content", PStr "Saved. Which language?")].

(** The model asks for a tool the orchestrator does not have. *)
Definition unknown_call : pyval :=
  reply_with [("role", PStr "assistant"); ("content", PNone);
              ("tool_calls", PList [call "call_1" "noop" (PDict [])])].

Definition documents : list pyval :=
  [tone_update; topics_update; two_saves; one_save; final_text; unknown_call; PDict []].

Definition model_env (net : list request -> request -> http_result) : env :=
  demo_env "sk-test" "" documents net.

(** Two saves in one batch, then text. *)
Definition batch_env : env := model_env (scripted [answer 200 two_saves; answer 200 final_text]).

(** A server error on the first call. *)
Definition failing_env : env :=
  model_env (scripted [Responded {| status_code := 500; text := "Internal Server Error" |}]).

(** A 300 status on a reply that asks for a save, then text. *)
Definition redirect_env : env := model_env (scripted [answer 300 one_save; answer 200 final_text]).

(** A model that asks for a tool on every call. *)
Definition looping_env : env := model_env (fun _ _ => answer 200 unknown_call).

(** The provider cannot be reached. *)
Definition unreachable_env : env := model_env (scripted []).

Definition hello : ChatRequest :=
  {| req_messages := [user_says "formal tone, tech and sports please"];
     req_preferences := Some [("theme", PStr "dark"); ("tone", PStr "casual")] |}.

(** ** Vocabulary for outbound calls *)

(** [m] makes no outbound call. *)
Definition quiet {A} (m : M A) : Prop := forall log, snd (m log) = log.

(** [m] only adds calls to the log, and every call it adds satisfies [P]. *)
Definition logs {A} (m : M A) (P : request -> Prop) : Prop :=
  forall log, exists new, snd (m log) = (log ++ new)%list /\ Forall P new.

(** [m] adds at most [n] calls, all satisfying [P]. *)
Definition calls {A} (m : M A) (n : nat) (P : request -> Prop) : Prop :=
  forall log, exists new,
    snd (m log) = (log ++ new)%list /\ (length new <= n)%nat /\ Forall P new.

(** The one request [exa_news_fetch] sends (lines 45-57). *)
Definition exa_request (E : env) (topic num_results : pyval) : request :=
  {| url := exa_url;
     headers := [("x-api-key", EXA_API_KEY E); ("Content-Type", "application/json")];
     payload :=
       PDict [("query", PStr ("latest news about " ++ fstr E topic));
              ("numResults", num_results);
              ("text", PBool true);
              ("summary", PDict [("query", PStr "Summarize the article in 3 bullet points")])];
     timeout := 20 |}.

(** The record kept of one provider result (lines 62-67): its four
    fields, absent ones as [None], and nothing else. *)
Definition article (item : dict) : pyval :=
  PDict [("title", dict_get_or "title" item PNone);
         ("url", dict_get_or "url" item PNone);
         ("summary", dict_get_or "summary" item PNone);
         ("publishedDate", dict_get_or "publishedDate" item PNone)].

Definition is_dict (v : pyval) : bool :=
  match v with PDict _ => true | _ => false end.

(** The one request [summarize_news] sends when a credential is
    configured (lines 82-102). *)
Definition summary_request (E : env) (items style format_ language tone : pyval) : request :=
  {| url := responses_url;
     headers := openai_headers E;
     payload :=
       PDict [("model", PStr "gpt-4o-mini");
              ("input",
               PList [PDict [("type", PStr "text");
                             ("text", PStr ("You are a helpful assistant summarizing news articles." ++ newline
                                ++ "Tone: " ++ fstr E tone ++ ". Interaction style: " ++ fstr E style
                                ++ ". Format: " ++ fstr E format_ ++ ". Language: " ++ fstr E language ++ "." ++ newline
                                ++ "Summarize the following news items with citations to their URLs. Keep it factual and recent." ++ newline
                                ++ json_dumps E items))]])];
     timeout := 30 |}.

(** *** A retrieval provider with a malformed result *)

Definition mixed_results : pyval :=
  PDict [("results", PList [PDict [("title", PStr "Chips")]; PStr "oops"])].

Definition mixed_env : env :=
  demo_env "" "exa-key" [mixed_results] (scripted [answer 200 mixed_results]).

(** *** Summarization providers *)

Definition responses_reply : pyval :=
  PDict [("output", PList [PDict [("content", PList [PDict [("type", PStr "output_text");
                                                            ("text", PStr "Chips are shipping.")]])]])].

Definition summarizer_env (script : list http_result) : env :=
  demo_env "sk-test" "" [responses_reply; final_text; PDict []] (scripted script).

(** ** Vocabulary for the preference store *)

(** What lines 287-291 write for the key [k] under the updates
    [updates], if anything. *)
Definition stored_value (updates : dict) (k : string) : option pyval :=
  match dict_get k updates with
  | None | Some PNone => None
  | Some (PStr s) =>
      if String.eqb k "topics" then Some (PList (split_topics s)) else Some (PStr s)
  | Some v => Some v
  end.

Definition is_recognized (k : string) : bool := existsb (String.eqb k) recognized.

Definition is_text (v : pyval) : bool :=
  match v with PStr _ => true | _ => false end.

Definition no_comma (t : string) : bool :=
  negb (existsb (Ascii.eqb ",") (list_ascii_of_string t)).

(** The number of commas of a text. *)
Definition commas (s : string) : nat :=
  length (filter (Ascii.eqb ",") (list_ascii_of_string s)).

(** A JSON null, boolean or number. *)
Definition is_scalar (v : pyval) : bool :=
  match v with
  | PNone | PBool _ | PInt _ | PFloat _ => true
  | _ => false
  end.

(** [k] is an element of the list [l]. *)
Definition has_name (l : list pyval) (k : string) : bool :=
  existsb (fun x => match x with PStr s => String.eqb s k | _ => false end) l.

(** ** Vocabulary for turns *)

(** The section of the offline reply for a topic that could not be
    fetched for want of a credential. *)
Definition unfetched (E : env) (topic : pyval) : string :=
  "Topic: " ++ fstr E topic ++ newline ++ "Exa error: Missing EXA_API_KEY".

(** The transcript entry [entry] reports on the tool call [tc] under the
    call's token (the empty text when the call has none). *)
Definition answers_call (tc entry : pyval) : Prop :=
  exists t result_text,
    tc = PDict t
    /\ entry = PDict [("role", PStr "tool"); ("content", PStr result_text);
                      ("tool_call_id", dict_get_or "id" t (PStr ""))].

(** A request of a turn with a reasoning model: to the model, with a
    transcript that begins with [history], or to one of the two adapters'
    endpoints. *)
Definition turn_request (history : list pyval) (r : request) : Prop :=
  (url r = chat_url
   /\ exists rest, payload r = chat_payload (history ++ rest)%list)
  \/ url r = exa_url
  \/ url r = responses_url.

Definition adapter_request (r : request) : Prop :=
  url r = exa_url \/ url r = responses_url.

(** *** Replies the orchestrator cannot use *)

(** A reply without tool calls whose content is null. *)
Definition null_reply : pyval :=
  reply_with [("role", PStr "assistant"); ("content", PNone)].

Definition null_env : env :=
  demo_env "sk-test" "" [null_reply] (scripted [answer 200 null_reply]).

(** The style argument a summarize_news tool call ends up with: the one
    it gives (also when that is null), else the stored preference, else the
    default. *)
Definition style_argument (fargs prefs : dict) (arg pref dflt : string) : pyval :=
  match dict_get arg fargs with
  | Some v => v
  | None => dict_get_or pref prefs (PStr dflt)
  end.

(** [tc] names the tool [save_preferences] (lines 272 and 284). *)
Definition asks_save (tc : pyval) : bool :=
  match py_getitem tc "function" with
  | Ok fn =>
      match py_getitem fn "name" with
      | Ok fname => is_name fname "save_preferences"
      | _ => false
      end
  | _ => false
  end.

(** *** An environment for single tool calls *)

Definition fetch_args : pyval := PDict [("topic", PStr "ai")].

Definition tools_env : env := demo_env "sk-test" "" [fetch_args; PDict []] no_network.

(** ** Requests to the reasoning model, spelled out *)

(** The instruction every transcript opens with. *)
Definition instruction : string :=
  "You are a Latest News Agent. First, ensure the following preferences are collected: tone, format, language, interaction, topics. Ask one question at a time until all are collected. When the user supplies a preference, call save_preferences with the structured values. After preferences are set, if the user requests news or summaries, use exa_news_fetch followed by summarize_news. Always return answers in the user's preferred language, tone, interaction style, and format.".

(** A transcript entry with a role and a text. *)
Definition entry (r c : string) : pyval :=
  PDict [("role", PStr r); ("content", PStr c)].

(** The transcript a turn starts from: the instruction, the caller's
    messages in order, and the note on the caller's preferences. *)
Definition opening (E : env) (msgs : list Message) (prefs : dict) : list pyval :=
  (entry "system" instruction
   :: map (fun m => entry (role m) (content m)) msgs
   ++ [entry "system" ("Current preferences JSON: " ++ json_dumps E (PDict prefs))])%list.

(** The system entry that follows a batch of tool calls. *)
Definition system_note (E : env) (prefs : dict) : pyval :=
  entry "system" ("Updated preferences JSON: " ++ json_dumps E (PDict prefs)).

(** The three tools the model is offered, as JSON. *)
Definition schema_fetch : pyval :=
  PDict
    [("type", PStr "function");
     ("function",
      PDict
        [("name", PStr "exa_news_fetch");
         ("description", PStr "Fetch latest news articles for a topic using Exa API");
         ("parameters",
          PDict
            [("type", PStr "object");
             ("properties",
              PDict
                [("topic", PDict [("type", PStr "string")]);
                 ("num_results",
                  PDict [("type", PStr "integer"); ("minimum", PInt 1);
                         ("maximum", PInt 10)])]);
             ("required", PList [PStr "topic"])])])].

Definition schema_summarize : pyval :=
  PDict
    [("type", PStr "function");
     ("function",
      PDict
        [("name", PStr "summarize_news");
         ("description",
          PStr "Summarize a list of news items using OpenAI, respecting preferences");
         ("parameters",
          PDict
            [("type", PStr "object");
             ("properties",
              PDict
                [("items",
                  PDict
                    [("type", PStr "array");
                     ("items",
                      PDict
                        [("type", PStr "object");
                         ("properties",
                          PDict
                            [("title", PDict [("type", PList [PStr "string"; PStr "null"])]);
                             ("url", PDict [("type", PList [PStr "string"; PStr "null"])]);
                             ("summary",
                              PDict [("type", PList [PStr "string"; PStr "null"])]);
                             ("publishedDate",
                              PDict [("type", PList [PStr "string"; PStr "null"])])]);
                         ("additionalProperties", PBool true)])]);
                 ("style", PDict [("type", PStr "string")]);
                 ("format_", PDict [("type", PStr "string")]);
                 ("language", PDict [("type", PStr "string")]);
                 ("tone", PDict [("type", PStr "string")])]);
             ("required", PList [PStr "items"])])])].

Definition schema_save : pyval :=
  PDict
    [("type", PStr "function");
     ("function",
      PDict
        [("name", PStr "save_preferences");
         ("description",
          PStr "Save user preferences (tone, format, language, interaction, topics).");
         ("parameters",
          PDict
            [("type", PStr "object");
             ("properties",
              PDict
                [("tone", PDict [("type", PStr "string")]);
                 ("format", PDict [("type", PStr "string")]);
                 ("language", PDict [("type", PStr "string")]);
                 ("interaction", PDict [("type", PStr "string")]);
                 ("topics",
                  PDict
                    [("anyOf",
                      PList [PDict [("type", PStr "string")];
                             PDict [("type", PStr "array");
                                    ("items", PDict [("type", PStr "string")])]])])]);
             ("additionalProperties", PBool false)])])].

(** The request that carries [transcript] to the reasoning model. *)
Definition model_request (E : env) (transcript : list pyval) : request :=
  {| url := "https://api.openai.com/v1/chat/completions";
     headers := [("Authorization", "Bearer " ++ OPENAI_API_KEY E);
                 ("Content-Type", "application/json")];
     payload := PDict [("model", PStr "gpt-4o"); ("messages", PList transcript);
                       ("tools", PList [schema_fetch; schema_summarize; schema_save]);
                       ("tool_choice", PStr "auto")];
     timeout := 60 |}.

(** [m] only adds calls to the log, and the calls it adds satisfy [T]. *)
Definition traces {A} (m : M A) (T : list request -> Prop) : Prop :=
  forall log, exists new, snd (m log) = (log ++ new)%list /\ T new.

(** [grows E last calls]: in [calls], every request to the model carries
    a transcript that strictly extends the transcript of the request to the
    model before it ([last] for the first); the other requests go to the
    adapters' endpoints. *)
Inductive grows (E : env) : list pyval -> list request -> Prop :=
| grows_done : forall last, grows E last []
| grows_adapter : forall last r rest,
    adapter_request r -> grows E last rest -> grows E last (r :: rest)
| grows_model : forall last more rest,
    more <> [] ->
    grows E (last ++ more)%list rest ->
    grows E last (model_request E (last ++ more)%list :: rest).

(** The calls of a turn that reached the model: the request with the
    transcript [first], then calls that grow from it. *)
Definition opened (E : env) (first : list pyval) (calls : list request) : Prop :=
  exists rest, calls = model_request E first :: rest /\ grows E first rest.

(** ** Batches of tool calls, call by call *)

(** [in_order E tcs ms prefs log ms' prefs' log']: taking the calls [tcs]
    one after the other in the order given, each on the transcript,
    preferences and call log the one before it left, leads from
    [ms], [prefs], [log] to [ms'], [prefs'], [log']. One call looks up
    its tool by name, hands it the decoded arguments, and appends the
    tool's result to the transcript under the call's token. *)
Inductive in_order (E : env)
  : list pyval -> list pyval -> dict -> list request
    -> list pyval -> dict -> list request -> Prop :=
| in_order_done : forall ms prefs log, in_order E [] ms prefs log ms prefs log
| in_order_call : forall tc tcs name args id fargs result ms prefs log prefs1 log1
                         ms' prefs' log',
    is_call tc name args id ->
    json_loads E args = Some fargs ->
    dispatch E (PStr name) fargs prefs log = (Ok (result, prefs1), log1) ->
    in_order E tcs (ms ++ [tool_message E result id])%list prefs1 log1 ms' prefs' log' ->
    in_order E (tc :: tcs) ms prefs log ms' prefs' log'.

(** The transcript entries and the preferences a batch of saves leaves:
    each save, given as its call token and its updates, is applied to the
    preferences the one before it left, and reports the merged preferences. *)
Fixpoint saves (E : env) (prefs : dict) (batch : list (pyval * dict))
  : list pyval * dict :=
  match batch with
  | [] => ([], prefs)
  | (id, updates) :: rest =>
      let merged := store_apply prefs updates in
      (tool_message E (saved merged) id :: fst (saves E merged rest),
       snd (saves E merged rest))
  end.

(** [tc] is a save with the call token [fst c] and the updates [snd c]. *)
Definition is_save (E : env) (tc : pyval) (c : pyval * dict) : Prop :=
  exists args,
    is_call tc "save_preferences" args (fst c)
    /\ json_loads E args = Some (PDict (snd c)).

(** ** Writes to the preferences during a turn *)

(** [tc] names save_preferences and its arguments (the text "{}" when it
    has none) decode to the object [updates]. *)
Definition save_call (E : env) (tc : pyval) (updates : dict) : Prop :=
  exists t f args,
    tc = PDict t
    /\ dict_get "function" t = Some (PDict f)
    /\ dict_get "name" f = Some (PStr "save_preferences")
    /\ dict_get_or "arguments" f (PStr "{}") = PStr args
    /\ json_loads E args = Some (PDict updates).

(** During the turn that took the call log from [log] to [log'], the
    model answered one of the turn's requests with a batch of tool calls
    that holds a save whose updates store [v] under [k]. *)
Definition saved_during (E : env) (log log' : list request) (k : string) (v : pyval)
  : Prop :=
  exists earlier later transcript r body m tcs tc updates,
    log' = (log ++ earlier ++ model_request E transcript :: later)%list
    /\ requests_post E (log ++ earlier)%list (model_request E transcript) = Responded r
    /\ status_code r < 400
    /\ json_loads E (text r) = Some body
    /\ first_message body = Some m
    /\ dict_get "tool_calls" m = Some (PList tcs)
    /\ In tc tcs
    /\ save_call E tc updates
    /\ stored_value updates k = Some v.

(** After a turn, [k] holds what it held before, or a value a save of
    the turn stored under it. *)
Definition kept_or_saved (E : env) (log log' : list request) (before after : dict)
  (k : string) : Prop :=
  dict_get k after = dict_get k before
  \/ (In k recognized
      /\ exists v, dict_get k after = Some v /\ saved_during E log log' k v).

(** ** The two places of a summary in a reply *)

(** The first place holds no text: the reply has no output, or its first
    output has no content, or the first content part has no text or an
    empty one. *)
Definition primary_empty (d : dict) : Prop :=
  dict_get "output" d = None
  \/ exists o orest,
       dict_get "output" d = Some (PList (PDict o :: orest))
       /\ (dict_get "content" o = None
           \/ exists c crest,
                dict_get "content" o = Some (PList (PDict c :: crest))
                /\ truthy (dict_get_or "text" c PNone) = false).

(** The second place holds [v]: the content of the first choice's
    message, or [None] when the reply has no choices, its first choice no
    message, or the message no content. *)
Definition secondary_holds (d : dict) (v : pyval) : Prop :=
  (dict_get "choices" d = None /\ v = PNone)
  \/ exists c rest,
       dict_get "choices" d = Some (PList (PDict c :: rest))
       /\ ((dict_get "message" c = None /\ v = PNone)
           \/ exists m,
                dict_get "message" c = Some (PDict m)
                /\ v = dict_get_or "content" m PNone).

(** A reply with an empty text in the first place and a text in the
    second. *)
Definition empty_primary_reply : pyval :=
  PDict [("output", PList [PDict [("content", PList [PDict [("text", PStr "")]])]]);
         ("choices", PList [PDict [("message", PDict [("content", PStr "Alt text")])]])].

(** A summarization provider that answers with that reply. *)
Definition empty_primary_env : env :=
  demo_env "sk-test" "" [empty_primary_reply] (scripted [answer 200 empty_primary_reply]).

(** * Properties *)

(** ** Dictionaries *)

Lemma dict_get_set_same (k : string) (v : pyval) (d : dict) :
  dict_get k (dict_set k v d) = Some v.
Proof.
  induction d as [|[k' v'] d IH]; simpl.
  - now rewrite String.eqb_refl.
  - destruct (String.eqb k k') eqn:Hk; simpl; rewrite Hk; auto.
Qed.

Lemma dict_get_set_other (k k' : string) (v : pyval) (d : dict) :
  k <> k' -> dict_get k' (dict_set k v d) = dict_get k' d.
Proof.
  intros Hne. induction d as [|[k0 v0] d IH]; simpl.
  - destruct (String.eqb_spec k' k); congruence.
  - destruct (String.eqb_spec k k0) as [->|Hk0]; simpl.
    + destruct (String.eqb_spec k' k0); congruence.
    + destruct (String.eqb_spec k' k0); auto.
Qed.

(** ** The preference store *)

Lemma filter_map_swap {A B} (f : A -> B) (p : B -> bool) (l : list A) :
  filter p (map f l) = map f (filter (fun a => p (f a)) l).
Proof.
  induction l as [|a l IH]; simpl; [reflexivity|].
  destruct (p (f a)); simpl; now rewrite IH.
Qed.

Lemma split_topics_trimmed (s : string) :
  split_topics s
  = map PStr (filter (fun tok => negb (String.eqb tok "")) (map strip (split_comma s))).
Proof.
  unfold split_topics. rewrite (filter_map_swap strip), map_map. reflexivity.
Qed.

Lemma save_key_apply (updates prefs : dict) (k : string) :
  save_key (PDict updates) prefs k = Ok (store_apply_key updates prefs k).
Proof.
  unfold save_key, store_apply_key, py_contains, py_getitem, dict_mem; simpl.
  destruct (dict_get k updates) as [v|]; simpl; [|reflexivity].
  destruct v; try reflexivity.
  destruct (String.eqb k "topics"); [|reflexivity].
  now rewrite split_topics_trimmed.
Qed.

Lemma save_keys_apply (ks : list string) (updates prefs : dict) :
  save_keys ks (PDict updates) prefs = Ok (fold_left (store_apply_key updates) ks prefs).
Proof.
  revert prefs. induction ks as [|k ks IH]; intros prefs; simpl; [reflexivity|].
  rewrite save_key_apply. simpl. apply IH.
Qed.

(** The code's [save_preferences] branch computes the specification's
    [apply] whenever the updates are a JSON object. *)
Lemma save_preferences_apply (updates prefs : dict) :
  save_preferences (PDict updates) prefs = Ok (store_apply prefs updates).
Proof. apply save_keys_apply. Qed.

Lemma store_apply_topics_text (s : string) (updates prefs : dict) :
  dict_get "topics" updates = Some (PStr s) ->
  dict_get "topics" (store_apply prefs updates)
  = Some (PList (map PStr (filter (fun tok => negb (String.eqb tok ""))
                                  (map strip (split_comma s))))).
Proof.
  intros H. unfold store_apply, recognized. simpl.
  unfold store_apply_key at 1. rewrite H. simpl.
  apply dict_get_set_same.
Qed.

Lemma drop_spaces_blank (chs : list string) :
  forallb is_space chs = true -> drop_spaces chs = [].
Proof.
  induction chs as [|ch chs IH]; simpl; [reflexivity|].
  intros H. apply andb_true_iff in H as [Hc Hr]. rewrite Hc. auto.
Qed.

Lemma strip_blank (tok : string) : blank tok = true -> strip tok = "".
Proof.
  unfold blank, strip. intros H. now rewrite (drop_spaces_blank _ H).
Qed.

Lemma blank_tokens_dropped (toks : list string) :
  forallb blank toks = true ->
  filter (fun tok => negb (String.eqb tok "")) (map strip toks) = [].
Proof.
  induction toks as [|tok toks IH]; simpl; [reflexivity|].
  intros H. apply andb_true_iff in H as [Hb Hr].
  rewrite (strip_blank _ Hb). simpl. auto.
Qed.

Lemma split_comma_no_comma (s : string) :
  existsb (Ascii.eqb ",") (list_ascii_of_string s) = false -> split_comma s = [s].
Proof.
  induction s as [|c s IH]; cbn [split_comma list_ascii_of_string existsb];
    [reflexivity|].
  intros H. apply orb_false_iff in H as [Hc Hs].
  rewrite Ascii.eqb_sym, Hc. now rewrite (IH Hs).
Qed.

(** C8. Applying the update {topics: "tech, sports"} to empty preferences
    stores topics as the sequence ["tech", "sports"]; in general a text
    given for topics is split on commas, each token is trimmed, and the
    empty tokens are dropped. *)
Theorem save_preferences_splits_topics :
  save_preferences (PDict [("topics", PStr "tech, sports")]) []
  = Ok [("topics", PList [PStr "tech"; PStr "sports"])]
  /\ forall (s : string) (updates prefs : dict),
       dict_get "topics" updates = Some (PStr s) ->
       exists prefs',
         save_preferences (PDict updates) prefs = Ok prefs'
         /\ dict_get "topics" prefs'
            = Some (PList (map PStr (filter (fun tok => negb (String.eqb tok ""))
                                            (map strip (split_comma s))))).
Proof.
  split; [reflexivity|].
  intros s updates prefs H. exists (store_apply prefs updates). split.
  - apply save_preferences_apply.
  - now apply store_apply_topics_text.
Qed.

(** C2, as the code has it. Applying the update {topics: "tech"} to empty
    preferences stores topics as the one-element sequence ["tech"]: a text
    without a comma is trimmed and wrapped into a sequence like any other
    text (and into the empty sequence when nothing is left of it). *)
Theorem save_preferences_wraps_single_topic :
  save_preferences (PDict [("topics", PStr "tech")]) []
  = Ok [("topics", PList [PStr "tech"])]
  /\ forall (s : string) (prefs : dict),
       existsb (Ascii.eqb ",") (list_ascii_of_string s) = false ->
       exists prefs',
         save_preferences (PDict [("topics", PStr s)]) prefs = Ok prefs'
         /\ dict_get "topics" prefs'
            = Some (PList (if String.eqb (strip s) "" then [] else [PStr (strip s)])).
Proof.
  split; [reflexivity|].
  intros s prefs H. exists (store_apply prefs [("topics", PStr s)]). split.
  - apply save_preferences_apply.
  - rewrite (store_apply_topics_text s) by reflexivity.
    rewrite (split_comma_no_comma _ H). simpl.
    now destruct (String.eqb (strip s) "").
Qed.

(** C2, as the specification states it, fails: the stored value is a
    sequence, not the text "tech". *)
Lemma single_topic_is_not_passed_through :
  save_preferences (PDict [("topics", PStr "tech")]) []
  <> Ok [("topics", PStr "tech")].
Proof. discriminate. Qed.

(** C9. A topics update whose comma-separated tokens are all empty or
    whitespace stores the empty sequence, which is falsy: topics is unset
    again for the completeness check, whatever it was before. *)
Theorem blank_topics_update_unsets_topics (s : string) (updates prefs : dict) :
  dict_get "topics" updates = Some (PStr s) ->
  forallb blank (split_comma s) = true ->
  exists prefs',
    save_preferences (PDict updates) prefs = Ok prefs'
    /\ dict_get "topics" prefs' = Some (PList [])
    /\ truthy (PList []) = false
    /\ is_set prefs' "topics" = false
    /\ is_complete prefs' = false.
Proof.
  intros Hs Hb. exists (store_apply prefs updates).
  assert (Ht : dict_get "topics" (store_apply prefs updates) = Some (PList [])).
  { rewrite (store_apply_topics_text s) by assumption.
    now rewrite (blank_tokens_dropped _ Hb). }
  assert (Hu : is_set (store_apply prefs updates) "topics" = false).
  { unfold is_set, dict_get_or. now rewrite Ht. }
  repeat split; auto.
  - apply save_preferences_apply.
  - unfold is_complete, recognized. simpl. rewrite Hu.
    now rewrite !andb_false_r.
Qed.

Lemma blank_topics_update_unsets_topics_witness :
  exists prefs',
    save_preferences (PDict [("topics", PStr " , ")])
      (four_styles ++ [("topics", PList [PStr "ai"])])%list = Ok prefs'
    /\ dict_get "topics" prefs' = Some (PList [])
    /\ truthy (PList []) = false
    /\ is_set prefs' "topics" = false
    /\ is_complete prefs' = false.
Proof.
  apply (blank_topics_update_unsets_topics " , "); reflexivity.
Defined.

(** ** Rules for computations *)

Lemma bind_ok {A B} (m : M A) (k : A -> M B) (log log' : list request) (b : B) :
  bind m k log = (Ok b, log') ->
  exists a log1, m log = (Ok a, log1) /\ k a log1 = (Ok b, log').
Proof.
  unfold bind. destruct (m log) as [[a|e|] log1]; intros H; try discriminate; eauto.
Qed.

Lemma bind_assoc {A B C} (m : M A) (k : A -> M B) (k' : B -> M C) (log : list request) :
  bind (bind m k) k' log = bind m (fun a => bind (k a) k') log.
Proof. unfold bind. now destruct (m log) as [[a|e|] log1]. Qed.

Lemma bind_ext {A B} (m : M A) (k k' : A -> M B) (log : list request) :
  (forall a log1, k a log1 = k' a log1) -> bind m k log = bind m k' log.
Proof. intros H. unfold bind. destruct (m log) as [[a|e|] log1]; auto. Qed.

Lemma ensures_ret {A} (a : A) (P : A -> Prop) : P a -> ensures (ret a) P.
Proof. intros H log a' log' Heq. now inversion Heq; subst. Qed.

Lemma ensures_lift {A} (r : res A) (P : A -> Prop) :
  (forall a, r = Ok a -> P a) -> ensures (lift r) P.
Proof. intros H log a log' Heq. inversion Heq; subst. auto. Qed.

Lemma ensures_bind {A B} (m : M A) (k : A -> M B) (P : A -> Prop) (Q : B -> Prop) :
  ensures m P -> (forall a, P a -> ensures (k a) Q) -> ensures (bind m k) Q.
Proof.
  intros Hm Hk log b log' Heq.
  apply bind_ok in Heq as (a & log1 & Ha & Hb).
  exact (Hk a (Hm _ _ _ Ha) _ _ _ Hb).
Qed.

Lemma ensures_any {A} (m : M A) : ensures m (fun _ => True).
Proof. now intros log a log' _. Qed.

Lemma ensures_try_except {A} (m : M A) (h : exn -> M A) (P : A -> Prop) :
  ensures m P -> (forall e, ensures (h e) P) -> ensures (try_except m h) P.
Proof.
  intros Hm Hh log a log' Heq. unfold try_except in Heq.
  destruct (m log) as [[a0|e|] log1] eqn:Hrun.
  - inversion Heq; subst. eauto.
  - eapply Hh; eauto.
  - discriminate.
Qed.

Lemma ensures_for_each {A B} (l : list A) (body : A -> M B) (P : B -> Prop) :
  (forall a, ensures (body a) P) -> ensures (for_each l body) (Forall P).
Proof.
  intros Hb. induction l as [|a l IH]; simpl.
  - apply ensures_ret. constructor.
  - eapply ensures_bind; [apply Hb|]. intros b Pb.
    eapply ensures_bind; [apply IH|]. intros bs Pbs.
    apply ensures_ret. now constructor.
Qed.

Lemma halts_ret {A} (a : A) : halts (ret a).
Proof. intros log. discriminate. Qed.

Lemma halts_lift {A} (r : res A) : r <> Fuel -> halts (lift r).
Proof. intros H log. exact H. Qed.

Lemma halts_bind {A B} (m : M A) (k : A -> M B) :
  halts m -> (forall a, halts (k a)) -> halts (bind m k).
Proof.
  intros Hm Hk log. unfold bind. specialize (Hm log).
  destruct (m log) as [[a|e|] log1]; simpl in *; try discriminate.
  - apply Hk.
  - congruence.
Qed.

Lemma halts_try_except {A} (m : M A) (h : exn -> M A) :
  halts m -> (forall e, halts (h e)) -> halts (try_except m h).
Proof.
  intros Hm Hh log. unfold try_except. specialize (Hm log).
  destruct (m log) as [[a|e|] log1]; simpl in *; try discriminate.
  - apply Hh.
  - congruence.
Qed.

Lemma try_except_returns {A} (m : M A) (h : exn -> M A) (log : list request) :
  halts m ->
  (forall e log0, exists a log', h e log0 = (Ok a, log')) ->
  exists a log', try_except m h log = (Ok a, log').
Proof.
  intros Hm Hh. unfold try_except. specialize (Hm log).
  destruct (m log) as [[a|e|] log1]; simpl in *; eauto. congruence.
Qed.

Lemma halts_for_each {A B} (l : list A) (body : A -> M B) :
  (forall a, halts (body a)) -> halts (for_each l body).
Proof.
  intros Hb. induction l as [|a l IH]; simpl.
  - apply halts_ret.
  - apply halts_bind; [apply Hb|]. intros b.
    apply halts_bind; [apply IH|]. intros bs. apply halts_ret.
Qed.

Lemma halts_post (E : env) (u : string) (h : list (string * string)) (p : pyval) (t : Z) :
  halts (post E u h p t).
Proof. intros log. unfold post. now destruct (requests_post E log _). Qed.

Lemma halts_raise_for_status (r : response) : halts (raise_for_status r).
Proof.
  unfold raise_for_status.
  destruct (_ && _); [apply halts_lift; discriminate | apply halts_ret].
Qed.

Lemma loads_halts (E : env) (s : string) : loads E s <> Fuel.
Proof. unfold loads. now destruct (json_loads E s). Qed.

Lemma py_get_halts (o : pyval) (k : string) (dflt : pyval) : py_get o k dflt <> Fuel.
Proof. now destruct o. Qed.

Lemma py_first_halts (o : pyval) : py_first o <> Fuel.
Proof.
  destruct o as [| | | |s|l|d]; simpl; try discriminate.
  - now destruct (utf8_chars s).
  - now destruct l.
Qed.

Lemma py_iter_halts (o : pyval) : py_iter o <> Fuel.
Proof. now destruct o. Qed.

Lemma py_slice_to_halts (o n : pyval) : py_slice_to o n <> Fuel.
Proof. destruct o; simpl; try discriminate; now destruct n. Qed.

Lemma py_getitem_halts (o : pyval) (k : string) : py_getitem o k <> Fuel.
Proof.
  destruct o as [| | | | | |d]; simpl; try discriminate.
  now destruct (dict_get k d).
Qed.

Lemma py_contains_halts (o : pyval) (k : string) : py_contains o k <> Fuel.
Proof. now destruct o. Qed.

Lemma bind_kwargs_halts (allowed required : list string) (fargs : pyval) :
  bind_kwargs allowed required fargs <> Fuel.
Proof.
  destruct fargs; simpl; try discriminate. now destruct (_ && _).
Qed.

Create HintDb halts.

#[local] Hint Resolve halts_ret halts_post halts_raise_for_status loads_halts
  py_get_halts py_first_halts py_iter_halts py_slice_to_halts py_getitem_halts
  py_contains_halts bind_kwargs_halts : halts.

Ltac halts_step :=
  first [ apply halts_ret
        | apply halts_post
        | apply halts_raise_for_status
        | apply halts_lift; auto with halts
        | apply halts_bind; [|intros ?]
        | apply halts_try_except; [|intros ?]
        | apply halts_for_each; intros ? ].

Ltac halts_auto := repeat halts_step.

Lemma Forall_dicts (l : list pyval) :
  Forall (fun v => exists d, v = PDict d) l -> exists records, l = map PDict records.
Proof.
  induction 1 as [|v l [d ->] _ [records ->]].
  - now exists [].
  - now exists (d :: records).
Qed.

(** ** The retrieval adapter *)

Lemma exa_news_fetch_halts (E : env) (topic n : pyval) : halts (exa_news_fetch E topic n).
Proof.
  unfold exa_news_fetch, resp_json. destruct (String.eqb _ _); halts_auto.
Qed.

Lemma exa_news_fetch_shape (E : env) (topic n : pyval) :
  ensures (exa_news_fetch E topic n) fetch_shape.
Proof.
  unfold exa_news_fetch. destruct (String.eqb _ _).
  - apply ensures_ret. left. eauto.
  - apply ensures_try_except; [|intros e; apply ensures_ret; left; eauto].
    do 6 (eapply ensures_bind; [apply ensures_any|]; intros ? _).
    eapply ensures_bind.
    + apply ensures_for_each with (P := fun v => exists d, v = PDict d).
      intros item.
      do 4 (eapply ensures_bind; [apply ensures_any|]; intros ? _).
      apply ensures_ret. eauto.
    + intros results Hres. apply ensures_ret. right.
      apply Forall_dicts in Hres as [records ->]. eauto.
Qed.

(** The retrieval adapter always returns, with an error text or with
    article dictionaries: no failure of the provider escapes it. *)
Lemma exa_news_fetch_total (E : env) (topic n : pyval) (log : list request) :
  exists fetched log',
    exa_news_fetch E topic n log = (Ok fetched, log') /\ fetch_shape fetched.
Proof.
  assert (exists fetched log', exa_news_fetch E topic n log = (Ok fetched, log'))
    as (d & log' & Hrun).
  { unfold exa_news_fetch. destruct (String.eqb _ _); [unfold ret; eauto|].
    apply try_except_returns; [|intros e log0; unfold ret; eauto].
    unfold resp_json. halts_auto. }
  exists d, log'. split; [assumption|].
  exact (exa_news_fetch_shape E topic n _ _ _ Hrun).
Qed.

(** ** The summarization adapter without a credential *)

Lemma for_each_pure {A B} (l : list A) (body : A -> M B) (f : A -> B)
  (log : list request) :
  (forall a lg, In a l -> body a lg = (Ok (f a), lg)) ->
  for_each l body log = (Ok (map f l), log).
Proof.
  induction l as [|a l IH]; intros Hb; [reflexivity|].
  cbn [for_each map]. unfold bind.
  rewrite Hb by (left; reflexivity).
  rewrite IH by (intros; apply Hb; now right).
  reflexivity.
Qed.

Lemma bullets_of_dicts (E : env) (records : list dict) (log : list request) :
  bullets E (PList (map PDict records)) log = (Ok (map (bullet_line E) records), log).
Proof.
  unfold bullets. unfold bind at 1. cbn [py_iter lift].
  rewrite for_each_pure
    with (f := fun it => match it with PDict d => bullet_line E d | _ => "" end).
  - now rewrite map_map.
  - intros it lg Hin. apply in_map_iff in Hin as (d & <- & _). reflexivity.
Qed.

Lemma summarize_news_total
  (E : env) (records : list dict) (style format_ language tone : pyval)
  (log : list request) :
  OPENAI_API_KEY E = "" ->
  exists summ,
    summarize_news E (PList (map PDict records)) style format_ language tone log
    = (Ok summ, log).
Proof.
  intros Hkey. unfold summarize_news. rewrite Hkey. cbn [String.eqb].
  unfold bind. rewrite bullets_of_dicts. unfold ret. eauto.
Qed.

(** C7. Without a language-model credential, summarize returns, for any
    list of article dictionaries and any style, one line
    "- {title}: {summary or 'No summary available'}" per article joined by
    newlines; it raises nothing, makes no outbound call, and its output is
    the same whatever calls were made before and whatever the style is. *)
Theorem summarize_news_fallback
  (E : env) (records : list dict) (style format_ language tone : pyval)
  (log : list request) :
  OPENAI_API_KEY E = "" ->
  summarize_news E (PList (map PDict records)) style format_ language tone log
  = (Ok [("summary", PStr (join newline (map (bullet_line E) records)))], log)
  /\ forall (style' format_' language' tone' : pyval) (log2 : list request),
       fst (summarize_news E (PList (map PDict records)) style' format_' language' tone' log2)
       = fst (summarize_news E (PList (map PDict records)) style format_ language tone log).
Proof.
  intros Hkey.
  assert (Hrun : forall s f l t lg,
             summarize_news E (PList (map PDict records)) s f l t lg
             = (Ok [("summary", PStr (join newline (map (bullet_line E) records)))], lg)).
  { intros s f l t lg. unfold summarize_news. rewrite Hkey. cbn [String.eqb].
    unfold bind. now rewrite bullets_of_dicts. }
  split; [apply Hrun|].
  intros. now rewrite !Hrun.
Qed.

Lemma summarize_news_fallback_witness :
  summarize_news offline_env (PList [PDict [("title", PStr "A"); ("summary", PStr "B")]])
    (PStr "concise") (PStr "bullet points") (PStr "English") (PStr "neutral") []
  = (Ok [("summary", PStr "- A: B")], []).
Proof.
  exact (proj1 (summarize_news_fallback offline_env
                  [[("title", PStr "A"); ("summary", PStr "B")]]
                  (PStr "concise") (PStr "bullet points") (PStr "English")
                  (PStr "neutral") [] eq_refl)).
Defined.

(** ** The orchestrator without a reasoning model *)

Lemma is_set_get_or (prefs : dict) (k : string) (dflt : pyval) :
  is_set prefs k = true -> dict_get_or k prefs dflt = dict_get_or k prefs PNone.
Proof.
  unfold is_set, dict_get_or. now destruct (dict_get k prefs).
Qed.

Lemma is_complete_sets (prefs : dict) (k : string) :
  is_complete prefs = true -> In k recognized -> is_set prefs k = true.
Proof.
  unfold is_complete. rewrite forallb_forall. auto.
Qed.

Lemma first_question_complete (prefs : dict) :
  is_complete prefs = true -> first_question questions prefs = None.
Proof.
  intros H. unfold questions, first_question.
  fold (is_set prefs "tone") (is_set prefs "format") (is_set prefs "language")
       (is_set prefs "interaction") (is_set prefs "topics").
  rewrite !(is_complete_sets prefs) by (assumption || (simpl; tauto)).
  reflexivity.
Qed.

Lemma topic_sections (E : env) (prefs : dict) (topics : list pyval) (log : list request) :
  OPENAI_API_KEY E = "" -> is_complete prefs = true ->
  exists texts log',
    sections E prefs topics log texts log'
    /\ for_each topics (topic_section E prefs) log = (Ok texts, log').
Proof.
  intros Hkey Hfull. revert log.
  induction topics as [|topic rest IH]; intros log.
  - exists [], log. split; [constructor | reflexivity].
  - destruct (exa_news_fetch_total E topic (PInt 5) log)
      as (fetched & log1 & Hfetch & [[msg ->] | [records ->]]).
    + destruct (IH log1) as (texts & log' & Hsec & Hrun).
      eexists _, log'. split.
      * eapply sections_failed; [exact Hfetch | reflexivity | exact Hsec].
      * cbn [for_each]. unfold bind at 1. unfold topic_section at 1.
        unfold bind at 1. rewrite Hfetch. cbn [dict_get String.eqb Ascii.eqb Bool.eqb ret].
        unfold bind at 1. rewrite Hrun. reflexivity.
    + destruct (summarize_news_total E records
                  (dict_get_or "interaction" prefs PNone) (dict_get_or "format" prefs PNone)
                  (dict_get_or "language" prefs PNone) (dict_get_or "tone" prefs PNone)
                  log1 Hkey) as [summ Hsum].
      destruct (IH log1) as (texts & log' & Hsec & Hrun).
      eexists _, log'. split.
      * eapply sections_fetched; [exact Hfetch | reflexivity | exact Hsum | exact Hsec].
      * cbn [for_each]. unfold bind at 1. unfold topic_section at 1.
        unfold bind at 1. rewrite Hfetch. cbn [dict_get String.eqb Ascii.eqb Bool.eqb].
        rewrite (is_set_get_or prefs "interaction"), (is_set_get_or prefs "format"),
          (is_set_get_or prefs "language"), (is_set_get_or prefs "tone")
          by (apply is_complete_sets; [assumption | simpl; tauto]).
        unfold bind at 1. rewrite Hsum. cbn [ret].
        unfold bind at 1. rewrite Hrun. reflexivity.
Qed.

(** C1. Without a reasoning-model credential, when some recognized key is
    unset (absent or falsy), the reply is exactly the onboarding question of
    the first unset key in the order tone, format, language, interaction,
    topics, whatever the later keys hold; the preferences come back
    unchanged and no outbound call is made. *)
Theorem onboarding_asks_first_unset
  (E : env) (fuel : nat) (msgs : list Message) (prefs : dict) (log : list request)
  (before after : list string) (k : string) :
  OPENAI_API_KEY E = "" ->
  recognized = (before ++ k :: after)%list ->
  (forall k', In k' before -> is_set prefs k' = true) ->
  is_set prefs k = false ->
  exists q,
    question_for k = Some q
    /\ openai_chat_with_tools E fuel msgs prefs log
       = (Ok {| assistant_message := PStr q; preferences := prefs |}, log)
    /\ chat E fuel {| req_messages := msgs; req_preferences := Some prefs |} log
       = (Ok {| resp_messages := (msgs ++ [{| role := "assistant"; content := q |}])%list;
                updatedPreferences := prefs |}, log).
Proof.
  intros Hkey Hsplit Hbefore Hk.
  assert (Hq : exists q, question_for k = Some q
                         /\ first_question questions prefs = Some q).
  { unfold recognized in Hsplit.
    destruct before as [|b1 [|b2 [|b3 [|b4 [|b5 before]]]]];
      cbn [app] in Hsplit; inversion Hsplit; subst; clear Hsplit;
      try (destruct before; discriminate);
      unfold questions, first_question;
      fold (is_set prefs "tone") (is_set prefs "format") (is_set prefs "language")
           (is_set prefs "interaction") (is_set prefs "topics");
      rewrite ?Hbefore by (simpl; tauto); rewrite Hk;
      eexists; split; reflexivity. }
  destruct Hq as (q & Hq & Hfirst). exists q. split; [exact Hq|].
  assert (Hrun : openai_chat_with_tools E fuel msgs prefs log
                 = (Ok {| assistant_message := PStr q; preferences := prefs |}, log)).
  { unfold openai_chat_with_tools, offline_bot. rewrite Hkey. cbn [String.eqb].
    now rewrite Hfirst. }
  split; [exact Hrun|].
  unfold chat. cbn [req_preferences req_messages]. unfold bind. rewrite Hrun.
  reflexivity.
Qed.

Lemma onboarding_asks_first_unset_witness :
  exists q,
    question_for "format" = Some q
    /\ openai_chat_with_tools offline_env 0 [user_says "hello"]
         [("topics", PStr "ai"); ("tone", PStr "formal"); ("format", PStr "")] []
       = (Ok {| assistant_message := PStr q;
                preferences := [("topics", PStr "ai"); ("tone", PStr "formal");
                                ("format", PStr "")] |}, [])
    /\ chat offline_env 0
         {| req_messages := [user_says "hello"];
            req_preferences := Some [("topics", PStr "ai"); ("tone", PStr "formal");
                                     ("format", PStr "")] |} []
       = (Ok {| resp_messages := [user_says "hello";
                                  {| role := "assistant"; content := q |}];
                updatedPreferences := [("topics", PStr "ai"); ("tone", PStr "formal");
                                       ("format", PStr "")] |}, []).
Proof.
  apply (onboarding_asks_first_unset offline_env 0 [user_says "hello"]
           [("topics", PStr "ai"); ("tone", PStr "formal"); ("format", PStr "")] []
           ["tone"] ["language"; "interaction"; "topics"] "format").
  - reflexivity.
  - reflexivity.
  - intros k' [<-|[]]. reflexivity.
  - reflexivity.
Defined.

(** C4. Without a reasoning-model credential and with all five preferences
    set, the reply is the per-topic sections joined by a blank line, where
    the topics (a value that is not a sequence counting as one topic) are
    handled in order: each is fetched with count 5; a fetch with results
    contributes "Topic: {topic}" and, on the next line, the summary the
    summarization adapter returns under the stored style; a fetch without
    results contributes "Topic: {topic}" and, on the next line,
    "Exa error: {error}". The preferences come back unchanged. *)
Theorem offline_reply_is_topic_sections
  (E : env) (fuel : nat) (msgs : list Message) (prefs : dict) (log : list request) :
  OPENAI_API_KEY E = "" ->
  is_complete prefs = true ->
  exists texts log',
    sections E prefs (topic_list prefs) log texts log'
    /\ openai_chat_with_tools E fuel msgs prefs log
       = (Ok {| assistant_message := PStr (join (newline ++ newline) texts);
                preferences := prefs |}, log').
Proof.
  intros Hkey Hfull.
  destruct (topic_sections E prefs (topic_list prefs) log Hkey Hfull)
    as (texts & log' & Hsec & Hrun).
  exists texts, log'. split; [exact Hsec|].
  unfold openai_chat_with_tools, offline_bot. rewrite Hkey. cbn [String.eqb].
  rewrite (first_question_complete prefs Hfull).
  unfold topic_list in Hrun. cbv zeta in Hrun |- *.
  unfold bind. rewrite Hrun. reflexivity.
Qed.

Lemma offline_reply_is_topic_sections_witness :
  exists texts log',
    sections retrieval_env complete_prefs (topic_list complete_prefs) [] texts log'
    /\ openai_chat_with_tools retrieval_env 0 [user_says "news"] complete_prefs []
       = (Ok {| assistant_message := PStr (join (newline ++ newline) texts);
                preferences := complete_prefs |}, log').
Proof.
  apply (offline_reply_is_topic_sections retrieval_env 0 [user_says "news"]
           complete_prefs []); reflexivity.
Defined.

(** ** The loop with a reasoning model *)

Lemma post_responded (E : env) (oai_messages : list pyval) (log : list request)
  (r : response) :
  requests_post E log (chat_request E oai_messages) = Responded r ->
  post E chat_url (openai_headers E) (chat_payload oai_messages) 60 log
  = (Ok r, (log ++ [chat_request E oai_messages])%list).
Proof.
  intros H. unfold post. fold (chat_request E oai_messages). now rewrite H.
Qed.

(** A response with status 400 or more ends the loop at once. *)
Lemma tool_loop_error (E : env) (fuel : nat) (oai_messages : list pyval) (prefs : dict)
  (log : list request) (r : response) :
  requests_post E log (chat_request E oai_messages) = Responded r ->
  400 <= status_code r ->
  tool_loop E (S fuel) oai_messages prefs log
  = (Ok {| assistant_message := PStr (diagnostic E r); preferences := prefs |},
     (log ++ [chat_request E oai_messages])%list).
Proof.
  intros Hnet Hst. cbn [tool_loop]. unfold bind at 1.
  rewrite (post_responded _ _ _ _ Hnet).
  apply Z.leb_le in Hst. rewrite Hst. reflexivity.
Qed.

Lemma first_message_path (body : pyval) (m : dict) :
  first_message body = Some m ->
  exists d c rest,
    body = PDict d
    /\ dict_get_or "choices" d (PList [PDict []]) = PList (PDict c :: rest)
    /\ dict_get_or "message" c (PDict []) = PDict m.
Proof.
  unfold first_message, dict_get_or. intros H.
  destruct body as [| | | | | |d]; try discriminate.
  destruct (dict_get "choices" d) as [choices|] eqn:Hc; try discriminate.
  destruct choices as [| | | | |l|]; try discriminate.
  destruct l as [|choice rest]; try discriminate.
  destruct choice as [| | | | | |c]; try discriminate.
  destruct (dict_get "message" c) as [message|] eqn:Hm; try discriminate.
  destruct message as [| | | | | |m']; try discriminate.
  inversion H; subst. exists d, c, rest. now rewrite Hc, Hm.
Qed.

(** A reply without tool calls ends the loop with the reply's content. *)
Lemma tool_loop_text (E : env) (fuel : nat) (oai_messages : list pyval) (prefs : dict)
  (log : list request) (r : response) (body : pyval) (m : dict) :
  requests_post E log (chat_request E oai_messages) = Responded r ->
  status_code r < 400 ->
  json_loads E (text r) = Some body ->
  first_message body = Some m ->
  truthy (dict_get_or "tool_calls" m PNone) = false ->
  tool_loop E (S fuel) oai_messages prefs log
  = (Ok {| assistant_message := dict_get_or "content" m (PStr "");
           preferences := prefs |},
     (log ++ [chat_request E oai_messages])%list).
Proof.
  intros Hnet Hst Hbody Hmsg Hcalls.
  apply first_message_path in Hmsg as (d & c & rest & -> & Hc & Hm).
  cbn [tool_loop]. unfold bind at 1. rewrite (post_responded _ _ _ _ Hnet).
  apply Z.leb_gt in Hst. rewrite Hst.
  unfold bind at 1. unfold resp_json, lift, loads. rewrite Hbody.
  unfold bind at 1. cbn [py_get]. rewrite Hc.
  unfold bind at 1. cbn [py_first].
  unfold bind at 1. cbn [py_get]. rewrite Hm.
  unfold bind at 1. cbn [py_get]. rewrite Hcalls.
  reflexivity.
Qed.

(** A reply with tool calls runs them and calls the model again, with the
    tool results and one note on the updated preferences appended. *)
Lemma tool_loop_calls (E : env) (fuel : nat) (oai_messages : list pyval) (prefs : dict)
  (log : list request) (r : response) (body : pyval) (m : dict)
  (tc : pyval) (tcs : list pyval) (oai_messages' : list pyval) (prefs' : dict)
  (log' : list request) :
  requests_post E log (chat_request E oai_messages) = Responded r ->
  status_code r < 400 ->
  json_loads E (text r) = Some body ->
  first_message body = Some m ->
  dict_get "tool_calls" m = Some (PList (tc :: tcs)) ->
  run_tools E (tc :: tcs) oai_messages prefs (log ++ [chat_request E oai_messages])%list
  = (Ok (oai_messages', prefs'), log') ->
  tool_loop E (S fuel) oai_messages prefs log
  = tool_loop E fuel (oai_messages' ++ [updated_note E prefs'])%list prefs' log'.
Proof.
  intros Hnet Hst Hbody Hmsg Hcalls Hrun.
  apply first_message_path in Hmsg as (d & c & rest & -> & Hc & Hm).
  cbn [tool_loop]. unfold bind at 1. rewrite (post_responded _ _ _ _ Hnet).
  apply Z.leb_gt in Hst. rewrite Hst.
  unfold bind at 1. unfold resp_json, lift, loads. rewrite Hbody.
  unfold bind at 1. cbn [py_get]. rewrite Hc.
  unfold bind at 1. cbn [py_first].
  unfold bind at 1. cbn [py_get]. rewrite Hm.
  assert (Htc : dict_get_or "tool_calls" m PNone = PList (tc :: tcs))
    by (unfold dict_get_or; now rewrite Hcalls).
  unfold bind at 1. cbn [py_get]. rewrite Htc.
  cbn [truthy]. unfold bind at 1. cbn [py_iter].
  unfold bind at 1. rewrite Hrun. reflexivity.
Qed.

(** One [save_preferences] call applies its updates and reports the
    merged preferences under the call's token. *)
Lemma run_tool_save (E : env) (tc : pyval) (args : string) (id : pyval) (updates : dict)
  (oai_messages : list pyval) (prefs : dict) (log : list request) :
  is_call tc "save_preferences" args id ->
  json_loads E args = Some (PDict updates) ->
  run_tool E tc oai_messages prefs log
  = (Ok ((oai_messages ++ [tool_message E (saved (store_apply prefs updates)) id])%list,
         store_apply prefs updates), log).
Proof.
  intros (t & f & -> & Hf & Hname & Hargs & Hid) Hloads.
  assert (Hraw : dict_get_or "arguments" f (PStr "{}") = PStr args)
    by (unfold dict_get_or; now rewrite Hargs).
  unfold run_tool. cbv [bind lift ret]. cbn [py_getitem]. rewrite Hf.
  cbn [py_getitem]. rewrite Hname. cbn [py_get]. rewrite Hraw.
  unfold loads. rewrite Hloads.
  unfold dispatch. cbn [is_name String.eqb Ascii.eqb Bool.eqb].
  cbv [bind lift ret]. rewrite save_preferences_apply. rewrite Hid. reflexivity.
Qed.

(** A call to a tool the orchestrator does not have is answered with an
    error result and changes nothing else. *)
Lemma run_tool_unknown (E : env) (tc : pyval) (name args : string) (id fargs : pyval)
  (oai_messages : list pyval) (prefs : dict) (log : list request) :
  is_call tc name args id ->
  json_loads E args = Some fargs ->
  String.eqb name "exa_news_fetch" = false ->
  String.eqb name "summarize_news" = false ->
  String.eqb name "save_preferences" = false ->
  run_tool E tc oai_messages prefs log
  = (Ok ((oai_messages
          ++ [tool_message E (PDict [("error", PStr ("Unknown tool " ++ name))]) id])%list,
         prefs), log).
Proof.
  intros (t & f & -> & Hf & Hname & Hargs & Hid) Hloads H1 H2 H3.
  assert (Hraw : dict_get_or "arguments" f (PStr "{}") = PStr args)
    by (unfold dict_get_or; now rewrite Hargs).
  unfold run_tool. cbv [bind lift ret]. cbn [py_getitem]. rewrite Hf.
  cbn [py_getitem]. rewrite Hname. cbn [py_get]. rewrite Hraw.
  unfold loads. rewrite Hloads.
  unfold dispatch. cbn [is_name]. rewrite H1, H2, H3.
  cbv [ret]. rewrite Hid. reflexivity.
Qed.

(** The tool calls of a batch run one after the other, each on the
    transcript and preferences the calls before it left. *)
Lemma run_tools_app (E : env) (tcs1 tcs2 : list pyval) (oai_messages : list pyval)
  (prefs : dict) (log : list request) :
  run_tools E (tcs1 ++ tcs2) oai_messages prefs log
  = bind (run_tools E tcs1 oai_messages prefs)
         (fun st => run_tools E tcs2 (fst st) (snd st)) log.
Proof.
  revert oai_messages prefs log.
  induction tcs1 as [|tc tcs1 IH]; intros ms prefs log; cbn [app run_tools].
  - reflexivity.
  - rewrite bind_assoc. apply bind_ext. intros st log1. apply IH.
Qed.

Lemma extends_refl {A} (m : M A) : extends m m.
Proof. now intros log _. Qed.

Lemma extends_bind {A B} (m : M A) (k k' : A -> M B) :
  (forall a, extends (k a) (k' a)) -> extends (bind m k) (bind m k').
Proof.
  intros Hk log. unfold bind.
  destruct (m log) as [[a|e|] log1]; [apply Hk | reflexivity..].
Qed.

(** A larger loop budget does not change the outcome of a turn that
    finished within a smaller one. *)
Lemma tool_loop_more_fuel (E : env) (fuel : nat) (oai_messages : list pyval)
  (prefs : dict) :
  extends (tool_loop E fuel oai_messages prefs) (tool_loop E (S fuel) oai_messages prefs).
Proof.
  revert oai_messages prefs. induction fuel as [|fuel IH]; intros ms prefs.
  - intros log H. now contradiction H.
  - change (tool_loop E (S (S fuel)) ms prefs) with
      (bind (post E chat_url (openai_headers E) (chat_payload ms) 60)
         (fun resp =>
            if 400 <=? status_code resp then
              ret {| assistant_message := PStr (diagnostic E resp); preferences := prefs |}
            else
              data <- resp_json E resp ;;
              choices <- lift (py_get data "choices" (PList [PDict []])) ;;
              choice <- lift (py_first choices) ;;
              message <- lift (py_get choice "message" (PDict [])) ;;
              tool_calls <- lift (py_get message "tool_calls" PNone) ;;
              if truthy tool_calls then
                tcs <- lift (py_iter tool_calls) ;;
                st <- run_tools E tcs ms prefs ;;
                tool_loop E (S fuel) (fst st ++ [updated_note E (snd st)])%list (snd st)
              else
                assistant_content <- lift (py_get message "content" (PStr "")) ;;
                ret {| assistant_message := assistant_content; preferences := prefs |})).
    cbn [tool_loop].
    apply extends_bind. intros resp.
    destruct (400 <=? status_code resp); [apply extends_refl|].
    do 5 (apply extends_bind; intros ?).
    destruct (truthy _); [|apply extends_refl].
    do 2 (apply extends_bind; intros ?).
    apply IH.
Qed.

(** ** Keys are never deleted *)

Lemma keeps_keys_refl (prefs : dict) : keeps_keys prefs prefs.
Proof. intros k v H. eauto. Qed.

Lemma keeps_keys_trans (a b c : dict) :
  keeps_keys a b -> keeps_keys b c -> keeps_keys a c.
Proof.
  intros Hab Hbc k v Ha.
  destruct (Hab k v Ha) as (v1 & Hb & Hv1).
  destruct (Hbc k v1 Hb) as (v2 & Hc & Hv2).
  exists v2. split; [exact Hc|]. intros Hk. rewrite (Hv2 Hk). auto.
Qed.

Lemma keeps_keys_set (k : string) (v : pyval) (prefs : dict) :
  In k recognized -> keeps_keys prefs (dict_set k v prefs).
Proof.
  intros Hin k0 v0 H0. destruct (String.eqb_spec k k0) as [->|Hne].
  - exists v. split; [apply dict_get_set_same | tauto].
  - exists v0. split; [|reflexivity]. now rewrite dict_get_set_other.
Qed.

Lemma save_key_keeps (fargs : pyval) (prefs prefs' : dict) (k : string) :
  In k recognized -> save_key fargs prefs k = Ok prefs' -> keeps_keys prefs prefs'.
Proof.
  intros Hin. unfold save_key.
  destruct (py_contains fargs k) as [[|]| |]; cbn [res_bind]; try discriminate.
  - destruct (py_getitem fargs k) as [v| |]; cbn [res_bind]; try discriminate.
    destruct v; try destruct (String.eqb k "topics");
      intros H; inversion H; subst;
      first [apply keeps_keys_refl | now apply keeps_keys_set].
  - intros H. inversion H; subst. apply keeps_keys_refl.
Qed.

Lemma save_keys_keeps (ks : list string) (fargs : pyval) (prefs prefs' : dict) :
  (forall k, In k ks -> In k recognized) ->
  save_keys ks fargs prefs = Ok prefs' -> keeps_keys prefs prefs'.
Proof.
  revert prefs. induction ks as [|k ks IH]; intros prefs Hks; cbn [save_keys].
  - intros H. inversion H; subst. apply keeps_keys_refl.
  - destruct (save_key fargs prefs k) as [p1| |] eqn:H1; cbn [res_bind]; try discriminate.
    intros H2. eapply keeps_keys_trans.
    + eapply save_key_keeps; [|exact H1]. apply Hks. now left.
    + apply (IH p1); [|exact H2]. intros k0 H0. apply Hks. now right.
Qed.

Lemma save_preferences_keeps (fargs : pyval) (prefs prefs' : dict) :
  save_preferences fargs prefs = Ok prefs' -> keeps_keys prefs prefs'.
Proof. apply save_keys_keeps. auto. Qed.

Lemma ensures_weaken {A} (m : M A) (P Q : A -> Prop) :
  ensures m P -> (forall a, P a -> Q a) -> ensures m Q.
Proof. intros Hm HPQ log a log' H. eauto. Qed.

Lemma dispatch_keeps (E : env) (fname fargs : pyval) (prefs : dict) :
  ensures (dispatch E fname fargs prefs) (fun out => keeps_keys prefs (snd out)).
Proof.
  unfold dispatch.
  destruct (is_name fname "exa_news_fetch").
  { do 2 (eapply ensures_bind; [apply ensures_any|]; intros ? _).
    apply ensures_ret. apply keeps_keys_refl. }
  destruct (is_name fname "summarize_news").
  { destruct fargs; try (intros log a log' H; discriminate).
    do 2 (eapply ensures_bind; [apply ensures_any|]; intros ? _).
    apply ensures_ret. apply keeps_keys_refl. }
  destruct (is_name fname "save_preferences").
  { eapply ensures_bind.
    - apply ensures_lift with (P := keeps_keys prefs).
      intros p. apply save_preferences_keeps.
    - intros p Hp. now apply ensures_ret. }
  apply ensures_ret. apply keeps_keys_refl.
Qed.

(** Only [save_preferences] writes to the preferences. *)
Lemma dispatch_writes_on_save_only (E : env) (fname fargs : pyval) (prefs : dict) :
  ensures (dispatch E fname fargs prefs)
          (fun out => snd out = prefs
                      \/ (is_name fname "save_preferences" = true
                          /\ save_preferences fargs prefs = Ok (snd out))).
Proof.
  unfold dispatch.
  destruct (is_name fname "exa_news_fetch").
  { do 2 (eapply ensures_bind; [apply ensures_any|]; intros ? _).
    apply ensures_ret. now left. }
  destruct (is_name fname "summarize_news").
  { destruct fargs; try (intros log a log' H; discriminate).
    do 2 (eapply ensures_bind; [apply ensures_any|]; intros ? _).
    apply ensures_ret. now left. }
  destruct (is_name fname "save_preferences").
  { eapply ensures_bind.
    - apply ensures_lift with (P := fun p => save_preferences fargs prefs = Ok p).
      auto.
    - intros p Hp. apply ensures_ret. right. now split. }
  apply ensures_ret. now left.
Qed.

Lemma run_tool_keeps (E : env) (tc : pyval) (oai_messages : list pyval) (prefs : dict) :
  ensures (run_tool E tc oai_messages prefs) (fun st => keeps_keys prefs (snd st)).
Proof.
  unfold run_tool.
  do 4 (eapply ensures_bind; [apply ensures_any|]; intros ? _).
  eapply ensures_bind; [apply dispatch_keeps|]. intros out Hout.
  eapply ensures_bind; [apply ensures_any|]. intros ? _.
  now apply ensures_ret.
Qed.

Lemma run_tools_keeps (E : env) (tcs : list pyval) (oai_messages : list pyval)
  (prefs : dict) :
  ensures (run_tools E tcs oai_messages prefs) (fun st => keeps_keys prefs (snd st)).
Proof.
  revert oai_messages prefs. induction tcs as [|tc tcs IH]; intros ms prefs; cbn [run_tools].
  - apply ensures_ret. apply keeps_keys_refl.
  - eapply ensures_bind; [apply run_tool_keeps|]. intros st Hst.
    eapply ensures_weaken; [apply IH|]. intros st' Hst'. cbv beta in *.
    eapply keeps_keys_trans; eassumption.
Qed.

Lemma tool_loop_keeps (E : env) (fuel : nat) (oai_messages : list pyval) (prefs : dict) :
  ensures (tool_loop E fuel oai_messages prefs)
          (fun result => keeps_keys prefs (preferences result)).
Proof.
  revert oai_messages prefs. induction fuel as [|fuel IH]; intros ms prefs; cbn [tool_loop].
  - intros log a log' H. discriminate.
  - eapply ensures_bind; [apply ensures_any|]. intros resp _.
    destruct (400 <=? status_code resp).
    { apply ensures_ret. apply keeps_keys_refl. }
    do 5 (eapply ensures_bind; [apply ensures_any|]; intros ? _).
    destruct (truthy _).
    + eapply ensures_bind; [apply ensures_any|]. intros tcs _.
      eapply ensures_bind; [apply run_tools_keeps|]. intros st Hst.
      eapply ensures_weaken; [apply IH|]. intros result Hres. cbv beta in *.
      eapply keeps_keys_trans; eassumption.
    + eapply ensures_bind; [apply ensures_any|]. intros ? _.
      apply ensures_ret. apply keeps_keys_refl.
Qed.

Lemma offline_bot_preferences (E : env) (prefs : dict) :
  ensures (offline_bot E prefs) (fun result => preferences result = prefs).
Proof.
  unfold offline_bot. destruct (first_question questions prefs).
  - now apply ensures_ret.
  - eapply ensures_bind; [apply ensures_any|]. intros ? _. now apply ensures_ret.
Qed.

(** ** Turns with a reasoning model *)

Lemma openai_key_set (E : env) :
  OPENAI_API_KEY E <> "" -> String.eqb (OPENAI_API_KEY E) "" = false.
Proof. intros H. now destruct (String.eqb_spec (OPENAI_API_KEY E) ""). Qed.

(** C6, as the code has it. A reasoning-model reply with status 400 or
    more ends the loop at once, whatever the loop has done so far: the turn's
    reply is one diagnostic message with the status code and the body, no
    tool call of that reply runs (no further call goes out) and the
    preferences accumulated so far are returned. *)
Theorem error_status_ends_turn
  (E : env) (fuel : nat) (oai_messages : list pyval) (prefs : dict)
  (log : list request) (r : response) :
  requests_post E log (chat_request E oai_messages) = Responded r ->
  400 <= status_code r ->
  tool_loop E (S fuel) oai_messages prefs log
  = (Ok {| assistant_message := PStr (diagnostic E r); preferences := prefs |},
     (log ++ [chat_request E oai_messages])%list)
  /\ forall msgs,
       OPENAI_API_KEY E <> "" ->
       oai_messages = initial_messages E msgs prefs ->
       chat E (S fuel) {| req_messages := msgs; req_preferences := Some prefs |} log
       = (Ok {| resp_messages :=
                  (msgs ++ [{| role := "assistant"; content := diagnostic E r |}])%list;
                updatedPreferences := prefs |},
          (log ++ [chat_request E oai_messages])%list).
Proof.
  intros Hnet Hst.
  pose proof (tool_loop_error E fuel oai_messages prefs log r Hnet Hst) as Hloop.
  split; [exact Hloop|].
  intros msgs Hkey ->. unfold chat, openai_chat_with_tools.
  cbn [req_preferences req_messages]. rewrite (openai_key_set E Hkey).
  unfold bind. rewrite Hloop. reflexivity.
Qed.

Lemma error_status_ends_turn_witness :
  tool_loop failing_env 1
    (initial_messages failing_env (req_messages hello) (request_preferences hello))
    (request_preferences hello) []
  = (Ok {| assistant_message :=
             PStr (diagnostic failing_env
                     {| status_code := 500; text := "Internal Server Error" |});
           preferences := request_preferences hello |},
     ([] ++ [chat_request failing_env
               (initial_messages failing_env (req_messages hello)
                  (request_preferences hello))])%list).
Proof.
  apply (error_status_ends_turn failing_env 0
           (initial_messages failing_env (req_messages hello) (request_preferences hello))
           (request_preferences hello) []
           {| status_code := 500; text := "Internal Server Error" |}).
  - reflexivity.
  - vm_compute. discriminate.
Defined.

(** C6, as the specification states it, fails: a reply with the status 300,
    which is not 2xx, does not end the loop. Its tool call runs (the tone
    changes from "casual" to "formal"), a second call goes out, and the reply
    is the model's text, not a diagnostic. *)
Lemma redirect_status_does_not_end_turn :
  requests_post redirect_env []
    (chat_request redirect_env
       (initial_messages redirect_env (req_messages hello) (request_preferences hello)))
  = Responded {| status_code := 300; text := demo_dumps one_save |}
  /\ fst (chat redirect_env 2 hello [])
     = Ok {| resp_messages :=
               [user_says "formal tone, tech and sports please";
                {| role := "assistant"; content := "Saved. Which language?" |}];
             updatedPreferences := [("theme", PStr "dark"); ("tone", PStr "formal")] |}
  /\ length (snd (chat redirect_env 2 hello [])) = 2%nat.
Proof. vm_compute. repeat split; reflexivity. Qed.

(** ** Every turn ends with one assistant message *)

Lemma first_question_none (prefs : dict) :
  first_question questions prefs = None -> is_complete prefs = true.
Proof.
  unfold questions, first_question, is_complete, recognized, forallb, is_set.
  destruct (truthy (dict_get_or "tone" prefs PNone)); [|discriminate].
  destruct (truthy (dict_get_or "format" prefs PNone)); [|discriminate].
  destruct (truthy (dict_get_or "language" prefs PNone)); [|discriminate].
  destruct (truthy (dict_get_or "interaction" prefs PNone)); [|discriminate].
  destruct (truthy (dict_get_or "topics" prefs PNone)); [reflexivity|discriminate].
Qed.

(** Without a reasoning model the orchestrator always returns a text. *)
Lemma offline_bot_total (E : env) (prefs : dict) (log : list request) :
  OPENAI_API_KEY E = "" ->
  exists reply log',
    offline_bot E prefs log
    = (Ok {| assistant_message := PStr reply; preferences := prefs |}, log').
Proof.
  intros Hkey. unfold offline_bot.
  destruct (first_question questions prefs) as [q|] eqn:Hq.
  - exists q, log. reflexivity.
  - destruct (topic_sections E prefs (topic_list prefs) log Hkey (first_question_none _ Hq))
      as (texts & log' & _ & Hrun).
    exists (join (newline ++ newline) texts), log'.
    unfold topic_list in Hrun. cbv zeta in Hrun |- *.
    unfold bind. rewrite Hrun. reflexivity.
Qed.

Lemma assistant_Message_ok (v : pyval) (msg : Message) :
  assistant_Message v = Ok msg ->
  exists reply, v = PStr reply /\ msg = {| role := "assistant"; content := reply |}.
Proof. destruct v; intros H; inversion H; eauto. Qed.

Lemma looping_never_answers (fuel : nat) (oai_messages : list pyval) (prefs : dict)
  (log : list request) :
  fst (tool_loop looping_env fuel oai_messages prefs log) = Fuel.
Proof.
  revert oai_messages prefs log. induction fuel as [|fuel IH]; intros ms prefs log.
  - reflexivity.
  - rewrite (tool_loop_calls looping_env fuel ms prefs log
               {| status_code := 200; text := demo_dumps unknown_call |}
               unknown_call
               [("role", PStr "assistant"); ("content", PNone);
                ("tool_calls", PList [call "call_1" "noop" (PDict [])])]
               (call "call_1" "noop" (PDict [])) []
               (ms ++ [tool_message looping_env
                         (PDict [("error", PStr "Unknown tool noop")]) (PStr "call_1")])%list
               prefs (log ++ [chat_request looping_env ms])%list).
    + apply IH.
    + reflexivity.
    + reflexivity.
    + vm_compute. reflexivity.
    + reflexivity.
    + reflexivity.
    + cbn [run_tools]. unfold bind.
      rewrite (run_tool_unknown looping_env _ "noop" (demo_dumps (PDict [])) (PStr "call_1")
                 (PDict [])).
      * reflexivity.
      * eexists _, _. repeat split; reflexivity.
      * vm_compute. reflexivity.
      * reflexivity.
      * reflexivity.
      * reflexivity.
Qed.

(** X22. Whenever a turn returns, its messages are the input messages
    followed by exactly one assistant message. Without a reasoning-model
    credential every turn returns such a response, with the snapshot as it
    was, also when retrieval fails. With one, when the provider answers
    the turn's first request with status 400 or more, the turn returns
    with the diagnostic as its message; when it answers that request with a
    text and no tool calls, the turn returns with that text. *)
Theorem turn_appends_one_assistant_message
  (E : env) (fuel : nat) (req : ChatRequest) (log : list request) :
  (forall resp log',
     chat E fuel req log = (Ok resp, log') ->
     exists reply,
       resp_messages resp
       = (req_messages req ++ [{| role := "assistant"; content := reply |}])%list)
  /\ (OPENAI_API_KEY E = "" ->
      exists reply log',
        chat E fuel req log
        = (Ok {| resp_messages :=
                   (req_messages req ++ [{| role := "assistant"; content := reply |}])%list;
                 updatedPreferences := request_preferences req |}, log'))
  /\ (forall r,
        OPENAI_API_KEY E <> "" ->
        requests_post E log
          (model_request E (opening E (req_messages req) (request_preferences req)))
        = Responded r ->
        400 <= status_code r ->
        exists log',
          chat E (S fuel) req log
          = (Ok {| resp_messages :=
                     (req_messages req
                      ++ [{| role := "assistant"; content := diagnostic E r |}])%list;
                   updatedPreferences := request_preferences req |}, log'))
  /\ (forall r body m reply,
        OPENAI_API_KEY E <> "" ->
        requests_post E log
          (model_request E (opening E (req_messages req) (request_preferences req)))
        = Responded r ->
        status_code r < 400 ->
        json_loads E (text r) = Some body ->
        first_message body = Some m ->
        truthy (dict_get_or "tool_calls" m PNone) = false ->
        dict_get_or "content" m (PStr "") = PStr reply ->
        exists log',
          chat E (S fuel) req log
          = (Ok {| resp_messages :=
                     (req_messages req ++ [{| role := "assistant"; content := reply |}])%list;
                   updatedPreferences := request_preferences req |}, log')).
Proof.
  split; [|split; [|split]].
  - intros resp log' H. unfold chat in H.
    apply bind_ok in H as (result & log1 & _ & H).
    apply bind_ok in H as (msg & log2 & Hmsg & H).
    inversion H; subst; clear H.
    inversion Hmsg as [Hm]. apply assistant_Message_ok in Hm as (reply & _ & ->).
    exists reply. reflexivity.
  - intros Hkey. unfold chat, openai_chat_with_tools. fold (request_preferences req).
    rewrite Hkey. cbn [String.eqb].
    destruct (offline_bot_total E (request_preferences req) log Hkey)
      as (reply & log' & Hrun).
    exists reply, log'. unfold bind. rewrite Hrun. reflexivity.
  - intros r Hkey Hnet Hst. unfold chat, openai_chat_with_tools.
    fold (request_preferences req). rewrite (openai_key_set E Hkey).
    eexists. unfold bind.
    rewrite (tool_loop_error E fuel _ _ log r Hnet Hst). reflexivity.
  - intros r body m reply Hkey Hnet Hst Hbody Hm Hnone Hreply.
    unfold chat, openai_chat_with_tools.
    fold (request_preferences req). rewrite (openai_key_set E Hkey).
    eexists. unfold bind.
    rewrite (tool_loop_text E fuel _ _ log r body m Hnet Hst Hbody Hm Hnone).
    cbn [assistant_message]. rewrite Hreply. reflexivity.
Qed.

Lemma turn_appends_one_assistant_message_witness :
  exists reply log',
    chat retrieval_env 0
      {| req_messages := [user_says "news"]; req_preferences := Some complete_prefs |} []
    = (Ok {| resp_messages :=
               ([user_says "news"] ++ [{| role := "assistant"; content := reply |}])%list;
             updatedPreferences := complete_prefs |}, log').
Proof.
  apply (proj1 (proj2 (turn_appends_one_assistant_message retrieval_env 0
                         {| req_messages := [user_says "news"];
                            req_preferences := Some complete_prefs |} []))).
  reflexivity.
Defined.

(** The loop has no bound on its iterations: when the model asks for a
    tool on every call, no number of loop iterations completes the turn. *)
Lemma endless_tool_calls_never_complete :
  ~ exists fuel, fst (chat looping_env fuel hello []) <> Fuel.
Proof.
  intros [fuel H]. apply H. unfold chat, openai_chat_with_tools.
  cbn [OPENAI_API_KEY looping_env model_env demo_env String.eqb Ascii.eqb Bool.eqb].
  unfold bind.
  pose proof (looping_never_answers fuel
                (initial_messages looping_env (req_messages hello)
                   (match req_preferences hello with Some p => p | None => [] end))
                (match req_preferences hello with Some p => p | None => [] end) [])
    as Hloop.
  destruct (tool_loop looping_env fuel _ _ []) as [[a|e|] l]; simpl in Hloop;
    try discriminate.
  reflexivity.
Qed.

(** ** Scenarios *)

(** The offline end-to-end scenario: retrieval succeeds for "ai" with one
    article and fails for "climate". *)
Example offline_two_topics :
  fst (chat retrieval_env 0
         {| req_messages := [user_says "news"]; req_preferences := Some complete_prefs |} [])
  = Ok {| resp_messages :=
            [user_says "news";
             {| role := "assistant";
                content := "Topic: ai" ++ newline ++ "- Chips: New chips ship."
                           ++ newline ++ newline
                           ++ "Topic: climate" ++ newline ++ "Exa error: Read timed out." |}];
          updatedPreferences := complete_prefs |}.
Proof. vm_compute. reflexivity. Qed.

(** With a reasoning model, a provider that cannot be reached makes the
    turn raise: the call of line 255 is not inside a [try]. *)
Example unreachable_provider_raises :
  fst (chat unreachable_env 1 hello []) = Raise (TransportError "Read timed out.").
Proof. vm_compute. reflexivity. Qed.

(** Without a reasoning model, an unreachable retrieval provider is
    reported inside the reply. *)
Example unreachable_retrieval_is_reported :
  fst (chat (demo_env "" "exa-key" [] no_network) 0
         {| req_messages := []; req_preferences := Some complete_prefs |} [])
  = Ok {| resp_messages :=
            [{| role := "assistant";
                content := "Topic: ai" ++ newline ++ "Exa error: Connection refused"
                           ++ newline ++ newline
                           ++ "Topic: climate" ++ newline ++ "Exa error: Connection refused" |}];
          updatedPreferences := complete_prefs |}.
Proof. vm_compute. reflexivity. Qed.

(** An article without a summary gets the default text; an article
    without a title prints [None]. *)
Example fallback_defaults :
  fst (summarize_news offline_env
         (PList [PDict [("title", PStr "A"); ("summary", PNone)];
                 PDict [("summary", PStr "B")]])
         (PStr "concise") (PStr "bullet points") (PStr "English") (PStr "neutral") [])
  = Ok [("summary", PStr ("- A: No summary available" ++ newline ++ "- None: B"))].
Proof. vm_compute. reflexivity. Qed.

(** A request without preferences is asked for the tone first. *)
Example first_turn_asks_tone :
  fst (chat offline_env 0 {| req_messages := [user_says "hi"]; req_preferences := None |} [])
  = Ok {| resp_messages :=
            [user_says "hi";
             {| role := "assistant";
                content := "Preferred Tone of Voice (e.g., formal, casual, enthusiastic)?" |}];
          updatedPreferences := [] |}.
Proof. vm_compute. reflexivity. Qed.

(** Within a batch, a save is visible to the calls after it: the second
    tool result of the two-save batch already shows the tone of the first. *)
Example second_result_sees_first_save :
  match snd (chat batch_env 2 hello []) with
  | [_; second] =>
      match payload second with
      | PDict (_ :: (_, PList transcript) :: _) => nth_error transcript 4
      | _ => None
      end
  | _ => None
  end
  = Some (tool_message batch_env
            (saved [("theme", PStr "dark"); ("tone", PStr "formal");
                    ("topics", PList [PStr "tech"; PStr "sports"])])
            (PStr "call_2")).
Proof. vm_compute. reflexivity. Qed.

(** * Further properties *)

(** ** Outbound calls *)

Lemma bind_ok_eq {A B} (m : M A) (k : A -> M B) (log log1 : list request) (a : A) :
  m log = (Ok a, log1) -> bind m k log = k a log1.
Proof. intros H. unfold bind. now rewrite H. Qed.

Lemma bind_raise_eq {A B} (m : M A) (k : A -> M B) (log log1 : list request) (e : exn) :
  m log = (Raise e, log1) -> bind m k log = (Raise e, log1).
Proof. intros H. unfold bind. now rewrite H. Qed.

Lemma quiet_ret {A} (a : A) : quiet (ret a).
Proof. now intros log. Qed.

Lemma quiet_lift {A} (r : res A) : quiet (lift r).
Proof. now intros log. Qed.

Lemma quiet_bind {A B} (m : M A) (k : A -> M B) :
  quiet m -> (forall a, quiet (k a)) -> quiet (bind m k).
Proof.
  intros Hm Hk log. unfold bind. specialize (Hm log).
  destruct (m log) as [[a|e|] log1]; simpl in Hm; subst; auto. apply Hk.
Qed.

Lemma quiet_for_each {A B} (l : list A) (body : A -> M B) :
  (forall a, quiet (body a)) -> quiet (for_each l body).
Proof.
  intros Hb. induction l as [|a l IH]; cbn [for_each].
  - apply quiet_ret.
  - apply quiet_bind; [apply Hb|]. intros b.
    apply quiet_bind; [apply IH|]. intros bs. apply quiet_ret.
Qed.

Lemma quiet_raise_for_status (r : response) : quiet (raise_for_status r).
Proof. unfold raise_for_status. destruct (_ && _); now intros log. Qed.

Ltac quiet_step :=
  first [ apply quiet_ret
        | apply quiet_lift
        | apply quiet_raise_for_status
        | apply quiet_bind; [|intros ?]
        | apply quiet_for_each; intros ? ].

Ltac quiet_auto := repeat quiet_step.

Lemma bind_quiet_snd {A B} (m : M A) (k : A -> M B) (log : list request) :
  (forall a, quiet (k a)) -> snd (bind m k log) = snd (m log).
Proof.
  intros Hk. unfold bind. destruct (m log) as [[a|e|] log1]; auto. apply Hk.
Qed.

Lemma try_except_quiet_snd {A} (m : M A) (h : exn -> M A) (log : list request) :
  (forall e, quiet (h e)) -> snd (try_except m h log) = snd (m log).
Proof.
  intros Hh. unfold try_except. destruct (m log) as [[a|e|] log1]; auto. apply Hh.
Qed.

Lemma post_snd (E : env) (u : string) (h : list (string * string)) (p : pyval) (t : Z)
  (log : list request) :
  snd (post E u h p t log)
  = (log ++ [{| url := u; headers := h; payload := p; timeout := t |}])%list.
Proof. unfold post. now destruct (requests_post E log _). Qed.

Lemma bullets_quiet (E : env) (items : pyval) : quiet (bullets E items).
Proof. unfold bullets. quiet_auto. Qed.

(** ** The retrieval adapter, case by case *)

Lemma exa_news_fetch_log (E : env) (topic n : pyval) (log : list request) :
  snd (exa_news_fetch E topic n log)
  = if String.eqb (EXA_API_KEY E) "" then log
    else (log ++ [exa_request E topic n])%list.
Proof.
  unfold exa_news_fetch. destruct (String.eqb _ _); [reflexivity|].
  rewrite try_except_quiet_snd by (intros e; apply quiet_ret).
  rewrite bind_quiet_snd by (intros r; unfold resp_json; quiet_auto).
  apply post_snd.
Qed.

(** X1. The retrieval adapter never raises and sends at most one request:
    none without a credential (the result is then the error "Missing
    EXA_API_KEY"), and otherwise exactly the search request for "latest
    news about {topic}" with the given count and a time-out of 20, whatever
    the provider does with it. The result is an error text or a list of
    article records. *)
Theorem exa_news_fetch_sends_one_request
  (E : env) (topic n : pyval) (log : list request) :
  exists fetched,
    exa_news_fetch E topic n log
    = (Ok fetched,
       if String.eqb (EXA_API_KEY E) "" then log
       else (log ++ [exa_request E topic n])%list)
    /\ fetch_shape fetched
    /\ (EXA_API_KEY E = "" -> fetched = [("error", PStr "Missing EXA_API_KEY")]).
Proof.
  destruct (exa_news_fetch_total E topic n log) as (fetched & log' & Hrun & Hshape).
  exists fetched. pose proof (exa_news_fetch_log E topic n log) as Hlog.
  rewrite Hrun in Hlog. cbn [snd] in Hlog. subst log'.
  repeat split; auto.
  intros Hkey. unfold exa_news_fetch in Hrun. rewrite Hkey in Hrun.
  cbn [String.eqb] in Hrun. now inversion Hrun.
Qed.

Lemma slice_to_map {A B} (f : A -> B) (n : Z) (l : list A) :
  slice_to n (map f l) = map f (slice_to n l).
Proof. unfold slice_to. rewrite length_map. now destruct (0 <=? n); rewrite firstn_map. Qed.

Lemma slice_to_length {A} (n : Z) (l : list A) :
  0 <= n -> (length (slice_to n l) <= Z.to_nat n)%nat.
Proof.
  intros Hn. unfold slice_to. apply Z.leb_le in Hn. rewrite Hn. apply firstn_le_length.
Qed.

Lemma key_set (k : string) : k <> "" -> String.eqb k "" = false.
Proof. intros H. now destruct (String.eqb_spec k ""). Qed.

Lemma status_passes (r : response) :
  status_code r < 400 \/ 600 <= status_code r ->
  (400 <=? status_code r) && (status_code r <? 600) = false.
Proof.
  intros [H|H].
  - apply Z.leb_gt in H. now rewrite H.
  - apply Z.ltb_ge in H. rewrite H. apply andb_false_r.
Qed.

(** X2. When the provider answers the search with a JSON object whose
    results are objects, the adapter keeps the first [n] of them in order
    (for a negative [n], all but the last [-n]), each reduced to its title,
    url, summary and publishedDate with [None] for a missing field; an
    object without results gives the empty list. For [n >= 0] at most [n]
    records come back. *)
Theorem exa_news_fetch_truncates_and_projects
  (E : env) (topic : pyval) (n : Z) (log : list request) (r : response)
  (d : dict) (items : list dict) :
  EXA_API_KEY E <> "" ->
  requests_post E log (exa_request E topic (PInt n)) = Responded r ->
  status_code r < 400 \/ 600 <= status_code r ->
  json_loads E (text r) = Some (PDict d) ->
  dict_get_or "results" d (PList []) = PList (map PDict items) ->
  exa_news_fetch E topic (PInt n) log
  = (Ok [("results", PList (map article (slice_to n items)))],
     (log ++ [exa_request E topic (PInt n)])%list)
  /\ (0 <= n -> (length (map article (slice_to n items)) <= Z.to_nat n)%nat).
Proof.
  intros Hkey Hnet Hst Hbody Hres. split.
  - unfold exa_news_fetch. rewrite (key_set _ Hkey).
    unfold try_except, post. fold (exa_request E topic (PInt n)).
    cbv [bind]. rewrite Hnet.
    unfold raise_for_status. rewrite (status_passes r Hst). cbv [ret].
    unfold resp_json, lift, loads. rewrite Hbody.
    cbn [py_get]. rewrite Hres. cbn [py_slice_to py_iter].
    rewrite slice_to_map.
    rewrite for_each_pure
      with (f := fun it => match it with PDict item => article item | _ => PNone end).
    + now rewrite map_map.
    + intros it lg Hin. apply in_map_iff in Hin as (item & <- & _). reflexivity.
  - intros Hn. rewrite length_map. now apply slice_to_length.
Qed.

Lemma exa_news_fetch_truncates_and_projects_witness :
  exa_news_fetch retrieval_env (PStr "ai") (PInt 5) []
  = (Ok [("results",
          PList (map article
                   (slice_to 5 [[("title", PStr "Chips");
                                 ("url", PStr "https://example.org/chips");
                                 ("summary", PStr "New chips ship.");
                                 ("publishedDate", PNone); ("score", PInt 1)]])))],
     ([] ++ [exa_request retrieval_env (PStr "ai") (PInt 5)])%list)
  /\ (0 <= 5 ->
      (length (map article
                 (slice_to 5 [[("title", PStr "Chips");
                               ("url", PStr "https://example.org/chips");
                               ("summary", PStr "New chips ship.");
                               ("publishedDate", PNone); ("score", PInt 1)]]))
       <= Z.to_nat 5)%nat).
Proof.
  apply (exa_news_fetch_truncates_and_projects retrieval_env (PStr "ai") 5 []
           {| status_code := 200; text := demo_dumps ai_results |}
           [("results",
             PList [PDict [("title", PStr "Chips"); ("url", PStr "https://example.org/chips");
                           ("summary", PStr "New chips ship."); ("publishedDate", PNone);
                           ("score", PInt 1)]])]).
  - discriminate.
  - reflexivity.
  - left. reflexivity.
  - vm_compute. reflexivity.
  - reflexivity.
Defined.

(** X3. With a credential, every failure of the search call becomes an
    error result that carries the text of the exception, after exactly one
    request: a transport failure, a status from 400 to 599, a body that is
    not JSON, and a JSON body that is not an object. *)
Theorem exa_news_fetch_reports_failures
  (E : env) (topic n : pyval) (log : list request) :
  EXA_API_KEY E <> "" ->
  (forall msg,
     requests_post E log (exa_request E topic n) = Failed msg ->
     exa_news_fetch E topic n log
     = (Ok [("error", PStr (exn_str E (TransportError msg)))],
        (log ++ [exa_request E topic n])%list))
  /\ (forall r,
        requests_post E log (exa_request E topic n) = Responded r ->
        400 <= status_code r < 600 ->
        exa_news_fetch E topic n log
        = (Ok [("error", PStr (exn_str E (HTTPError (status_code r))))],
           (log ++ [exa_request E topic n])%list))
  /\ (forall r,
        requests_post E log (exa_request E topic n) = Responded r ->
        status_code r < 400 \/ 600 <= status_code r ->
        json_loads E (text r) = None ->
        exa_news_fetch E topic n log
        = (Ok [("error", PStr (exn_str E (JSONDecodeError (text r))))],
           (log ++ [exa_request E topic n])%list))
  /\ (forall r body,
        requests_post E log (exa_request E topic n) = Responded r ->
        status_code r < 400 \/ 600 <= status_code r ->
        json_loads E (text r) = Some body ->
        is_dict body = false ->
        exa_news_fetch E topic n log
        = (Ok [("error", PStr (exn_str E (AttributeError (type_name body) "get")))],
           (log ++ [exa_request E topic n])%list)).
Proof.
  intros Hkey.
  repeat split.
  - intros msg Hnet. unfold exa_news_fetch. rewrite (key_set _ Hkey).
    unfold try_except, post. fold (exa_request E topic n).
    cbv [bind]. rewrite Hnet. reflexivity.
  - intros r Hnet [Hlo Hhi]. unfold exa_news_fetch. rewrite (key_set _ Hkey).
    unfold try_except, post. fold (exa_request E topic n).
    cbv [bind]. rewrite Hnet. unfold raise_for_status.
    apply Z.leb_le in Hlo. apply Z.ltb_lt in Hhi. rewrite Hlo, Hhi. reflexivity.
  - intros r Hnet Hst Hbody. unfold exa_news_fetch. rewrite (key_set _ Hkey).
    unfold try_except, post. fold (exa_request E topic n).
    cbv [bind]. rewrite Hnet. unfold raise_for_status.
    rewrite (status_passes r Hst). cbv [ret].
    unfold resp_json, lift, loads. rewrite Hbody. reflexivity.
  - intros r body Hnet Hst Hbody Hnot. unfold exa_news_fetch. rewrite (key_set _ Hkey).
    unfold try_except, post. fold (exa_request E topic n).
    cbv [bind]. rewrite Hnet. unfold raise_for_status.
    rewrite (status_passes r Hst). cbv [ret].
    unfold resp_json, lift, loads. rewrite Hbody.
    destruct body; try discriminate; reflexivity.
Qed.

Lemma exa_news_fetch_reports_failures_witness :
  exa_news_fetch retrieval_env (PStr "climate") (PInt 5) []
  = (Ok [("error", PStr (exn_str retrieval_env (TransportError "Read timed out.")))],
     ([] ++ [exa_request retrieval_env (PStr "climate") (PInt 5)])%list).
Proof.
  apply (proj1 (exa_news_fetch_reports_failures retrieval_env (PStr "climate") (PInt 5) []
                  ltac:(discriminate))).
  reflexivity.
Defined.

Lemma for_each_stops {A B} (l1 : list A) (x : A) (l2 : list A) (body : A -> M B)
  (f : A -> B) (e : exn) (log : list request) :
  (forall a lg, In a l1 -> body a lg = (Ok (f a), lg)) ->
  body x log = (Raise e, log) ->
  for_each (l1 ++ x :: l2) body log = (Raise e, log).
Proof.
  intros Hok Hbad. induction l1 as [|a l1 IH]; cbn [app for_each].
  - now rewrite (bind_raise_eq _ _ _ _ _ Hbad).
  - rewrite (bind_ok_eq _ _ _ _ _ (Hok a log (or_introl eq_refl))).
    rewrite (bind_raise_eq _ _ log log e); [reflexivity|].
    apply IH. intros a0 lg H. apply Hok. now right.
Qed.

(** X4. One result that is not an object among those kept spoils the
    whole fetch: the adapter returns an error result (the attribute error
    of that item) and none of the well-formed records before it. *)
Theorem exa_news_fetch_rejects_malformed_item
  (E : env) (topic : pyval) (n : Z) (log : list request) (r : response)
  (d : dict) (found : list pyval) (good : list dict) (bad : pyval) (rest : list pyval) :
  EXA_API_KEY E <> "" ->
  requests_post E log (exa_request E topic (PInt n)) = Responded r ->
  status_code r < 400 \/ 600 <= status_code r ->
  json_loads E (text r) = Some (PDict d) ->
  dict_get_or "results" d (PList []) = PList found ->
  slice_to n found = (map PDict good ++ bad :: rest)%list ->
  is_dict bad = false ->
  exa_news_fetch E topic (PInt n) log
  = (Ok [("error", PStr (exn_str E (AttributeError (type_name bad) "get")))],
     (log ++ [exa_request E topic (PInt n)])%list).
Proof.
  intros Hkey Hnet Hst Hbody Hres Hcut Hbad.
  unfold exa_news_fetch. rewrite (key_set _ Hkey).
  unfold try_except, post. fold (exa_request E topic (PInt n)).
  cbv [bind]. rewrite Hnet.
  unfold raise_for_status. rewrite (status_passes r Hst). cbv [ret].
  unfold resp_json, lift, loads. rewrite Hbody.
  cbn [py_get]. rewrite Hres. cbn [py_slice_to py_iter]. rewrite Hcut.
  rewrite for_each_stops
    with (f := fun it => match it with PDict item => article item | _ => PNone end)
         (e := AttributeError (type_name bad) "get").
  - reflexivity.
  - intros it lg Hin. apply in_map_iff in Hin as (item & <- & _). reflexivity.
  - destruct bad; try discriminate; reflexivity.
Qed.

Lemma exa_news_fetch_rejects_malformed_item_witness :
  exa_news_fetch mixed_env (PStr "ai") (PInt 5) []
  = (Ok [("error", PStr (exn_str mixed_env (AttributeError (type_name (PStr "oops")) "get")))],
     ([] ++ [exa_request mixed_env (PStr "ai") (PInt 5)])%list).
Proof.
  apply (exa_news_fetch_rejects_malformed_item mixed_env (PStr "ai") 5 []
           {| status_code := 200; text := demo_dumps mixed_results |}
           [("results", PList [PDict [("title", PStr "Chips")]; PStr "oops"])]
           [PDict [("title", PStr "Chips")]; PStr "oops"]
           [[("title", PStr "Chips")]] (PStr "oops") []).
  - discriminate.
  - reflexivity.
  - left. reflexivity.
  - vm_compute. reflexivity.
  - reflexivity.
  - reflexivity.
  - reflexivity.
Defined.

(** ** The summarization adapter with a credential *)

Lemma summarize_news_log (E : env) (items style format_ language tone : pyval)
  (log : list request) :
  OPENAI_API_KEY E <> "" ->
  snd (summarize_news E items style format_ language tone log)
  = (log ++ [summary_request E items style format_ language tone])%list.
Proof.
  intros Hkey. unfold summarize_news. rewrite (key_set _ Hkey). cbv zeta.
  rewrite try_except_quiet_snd
    by (intros e; apply quiet_bind; [apply bullets_quiet | intros; apply quiet_ret]).
  rewrite bind_quiet_snd.
  - apply post_snd.
  - intros resp. unfold resp_json.
    do 7 (apply quiet_bind; [quiet_auto | intros ?]).
    apply quiet_bind; [|intros; apply quiet_ret].
    destruct (truthy _); quiet_auto.
Qed.



Lemma primary_empty_path (d : dict) :
  primary_empty d ->
  exists o orest c crest,
    dict_get_or "output" d (PList [PDict []]) = PList (PDict o :: orest)
    /\ dict_get_or "content" o (PList [PDict []]) = PList (PDict c :: crest)
    /\ truthy (dict_get_or "text" c PNone) = false.
Proof.
  intros [Hout | (o & orest & Hout & [Hcontent | (c & crest & Hcontent & Htext)])].
  - exists [], [], [], []. unfold dict_get_or. rewrite Hout. now repeat split.
  - exists o, orest, [], []. unfold dict_get_or. rewrite Hout, Hcontent. now repeat split.
  - exists o, orest, c, crest. unfold dict_get_or at 1 2. rewrite Hout, Hcontent.
    now repeat split.
Qed.

Lemma secondary_holds_path (d : dict) (v : pyval) :
  secondary_holds d v ->
  exists c rest m,
    dict_get_or "choices" d (PList [PDict []]) = PList (PDict c :: rest)
    /\ dict_get_or "message" c (PDict []) = PDict m
    /\ dict_get_or "content" m PNone = v.
Proof.
  intros [[Hch ->] | (c & rest & Hch & [[Hmsg ->] | (m & Hmsg & ->)])].
  - exists [], [], []. unfold dict_get_or. rewrite Hch. now repeat split.
  - exists c, rest, []. unfold dict_get_or. rewrite Hch, Hmsg. now repeat split.
  - exists c, rest, m. unfold dict_get_or at 1 2. rewrite Hch, Hmsg. now repeat split.
Qed.

(** X6. The summary is read from the provider's reply in a fixed order.
    The first place is the text of the first content part of the first
    output: when it is there and not empty, it is the summary. Whenever the
    first place holds no text (no output, no content, no text, or an empty
    one), the summary is what the second place holds, the content of the
    first choice's message, or the empty text when that is missing, null or
    empty; a reply with neither output nor choices gives the empty text,
    without a warning. *)
Theorem summarize_news_reads_two_shapes
  (E : env) (items style format_ language tone : pyval) (log : list request)
  (r : response) (d : dict) :
  OPENAI_API_KEY E <> "" ->
  requests_post E log (summary_request E items style format_ language tone) = Responded r ->
  status_code r < 400 \/ 600 <= status_code r ->
  json_loads E (text r) = Some (PDict d) ->
  (forall o orest c crest t,
     dict_get "output" d = Some (PList (PDict o :: orest)) ->
     dict_get "content" o = Some (PList (PDict c :: crest)) ->
     dict_get "text" c = Some t ->
     truthy t = true ->
     summarize_news E items style format_ language tone log
     = (Ok [("summary", t)],
        (log ++ [summary_request E items style format_ language tone])%list))
  /\ (forall m,
        dict_get "output" d = None ->
        first_message (PDict d) = Some m ->
        summarize_news E items style format_ language tone log
        = (Ok [("summary", py_or (dict_get_or "content" m PNone) (PStr ""))],
           (log ++ [summary_request E items style format_ language tone])%list))
  /\ (dict_get "output" d = None ->
      dict_get "choices" d = None ->
      summarize_news E items style format_ language tone log
      = (Ok [("summary", PStr "")],
         (log ++ [summary_request E items style format_ language tone])%list))
  /\ (forall v,
        primary_empty d ->
        secondary_holds d v ->
        summarize_news E items style format_ language tone log
        = (Ok [("summary", py_or v (PStr ""))],
           (log ++ [summary_request E items style format_ language tone])%list)).
Proof.
  intros Hkey Hnet Hst Hbody. unfold summary_request in Hnet.
  assert (Hstart : forall (k : pyval -> M dict) (h : exn -> M dict),
            try_except
              (bind (post E responses_url (openai_headers E)
                       (payload (summary_request E items style format_ language tone)) 30)
                    (fun resp => bind (raise_for_status resp)
                                   (fun _ => bind (resp_json E resp) k))) h log
            = match k (PDict d) (log ++ [summary_request E items style format_ language tone])%list with
              | (Raise e, log') => h e log'
              | other => other
              end).
  { intros k h. unfold try_except, post, summary_request. cbn [payload].
    cbv [bind]. rewrite Hnet. unfold raise_for_status.
    rewrite (status_passes r Hst). cbv [ret].
    unfold resp_json, lift, loads. rewrite Hbody. reflexivity. }
  unfold summarize_news. rewrite (key_set _ Hkey). cbv zeta.
  split; [|split; [|split]].
  - intros o orest c crest t Hout Hcontent Htext Ht.
    rewrite Hstart. cbv [bind lift ret]. cbn [py_get py_first].
    unfold dict_get_or. rewrite Hout. cbn [py_first py_get].
    unfold dict_get_or. rewrite Hcontent. cbn [py_first py_get].
    unfold dict_get_or. rewrite Htext. rewrite Ht.
    unfold py_or. rewrite Ht. reflexivity.
  - intros m Hout Hm.
    apply first_message_path in Hm as (d' & c & rest & Hd & Hc & Hmsg).
    inversion Hd; subst d'; clear Hd.
    rewrite Hstart. cbv [bind lift ret]. cbn [py_get py_first].
    unfold dict_get_or at 1. rewrite Hout. cbn [py_first py_get dict_get_or dict_get truthy].
    rewrite Hc. cbn [py_first py_get]. rewrite Hmsg. reflexivity.
  - intros Hout Hchoices.
    rewrite Hstart. cbv [bind lift ret]. cbn [py_get py_first].
    unfold dict_get_or. rewrite Hout, Hchoices. reflexivity.
  - intros v Hp Hs.
    apply primary_empty_path in Hp as (o & orest & c & crest & Ho & Hc & Ht).
    apply secondary_holds_path in Hs as (ch & rest & m & Hch & Hm & Hv).
    rewrite Hstart. cbv [bind lift ret]. cbn [py_get py_first].
    rewrite Ho. cbn [py_first py_get]. rewrite Hc. cbn [py_first py_get].
    rewrite Ht. rewrite Hch. cbn [py_first py_get]. rewrite Hm. cbn [py_get].
    rewrite Hv. reflexivity.
Qed.

Lemma summarize_news_reads_two_shapes_witness :
  summarize_news (summarizer_env [answer 200 responses_reply])
    (PList []) (PStr "concise") (PStr "bullet points") (PStr "English") (PStr "neutral") []
  = (Ok [("summary", PStr "Chips are shipping.")],
     ([] ++ [summary_request (summarizer_env [answer 200 responses_reply])
               (PList []) (PStr "concise") (PStr "bullet points") (PStr "English")
               (PStr "neutral")])%list)
  /\ summarize_news empty_primary_env
       (PList []) (PStr "concise") (PStr "bullet points") (PStr "English") (PStr "neutral") []
     = (Ok [("summary", py_or (PStr "Alt text") (PStr ""))],
        ([] ++ [summary_request empty_primary_env
                  (PList []) (PStr "concise") (PStr "bullet points") (PStr "English")
                  (PStr "neutral")])%list).
Proof.
  split.
  - apply (proj1 (summarize_news_reads_two_shapes (summarizer_env [answer 200 responses_reply])
                    (PList []) (PStr "concise") (PStr "bullet points") (PStr "English")
                    (PStr "neutral") []
                    {| status_code := 200; text := demo_dumps responses_reply |}
                    [("output", PList [PDict [("content",
                                               PList [PDict [("type", PStr "output_text");
                                                             ("text", PStr "Chips are shipping.")]])]])]
                    ltac:(discriminate) eq_refl (or_introl eq_refl)
                    ltac:(vm_compute; reflexivity))
            [("content", PList [PDict [("type", PStr "output_text");
                                       ("text", PStr "Chips are shipping.")]])] []
            [("type", PStr "output_text"); ("text", PStr "Chips are shipping.")] []
            (PStr "Chips are shipping.")); reflexivity.
  - apply (proj2 (proj2 (proj2
             (summarize_news_reads_two_shapes empty_primary_env
                (PList []) (PStr "concise") (PStr "bullet points") (PStr "English")
                (PStr "neutral") []
                {| status_code := 200; text := demo_dumps empty_primary_reply |}
                [("output", PList [PDict [("content", PList [PDict [("text", PStr "")]])]]);
                 ("choices",
                  PList [PDict [("message", PDict [("content", PStr "Alt text")])]])]
                ltac:(discriminate) eq_refl (or_introl eq_refl)
                ltac:(vm_compute; reflexivity))))).
    + right. exists [("content", PList [PDict [("text", PStr "")]])], []. split; [reflexivity|].
      right. exists [("text", PStr "")], []. split; reflexivity.
    + right. exists [("message", PDict [("content", PStr "Alt text")])], [].
      split; [reflexivity|]. right. exists [("content", PStr "Alt text")]. split; reflexivity.
Defined.

Lemma bullets_stop (E : env) (good : list dict) (bad : pyval) (rest : list pyval)
  (log : list request) :
  is_dict bad = false ->
  bullets E (PList (map PDict good ++ bad :: rest)) log
  = (Raise (AttributeError (type_name bad) "get"), log).
Proof.
  intros Hbad. unfold bullets. unfold bind at 1. cbn [py_iter lift].
  apply for_each_stops
    with (f := fun it => match it with PDict d => bullet_line E d | _ => "" end).
  - intros it lg Hin. apply in_map_iff in Hin as (d & <- & _). reflexivity.
  - destruct bad; try discriminate; reflexivity.
Qed.

(** X7. The fallback bullet list reads every item as a dictionary. With
    an item that is not one, summarize raises an attribute error: at once
    when no credential is configured, and from inside its exception handler
    when the provider call fails. *)
Theorem summarize_news_raises_on_malformed_item
  (E : env) (good : list dict) (bad : pyval) (rest : list pyval)
  (style format_ language tone : pyval) (log : list request) :
  is_dict bad = false ->
  (OPENAI_API_KEY E = "" ->
   summarize_news E (PList (map PDict good ++ bad :: rest)) style format_ language tone log
   = (Raise (AttributeError (type_name bad) "get"), log))
  /\ (forall msg,
        OPENAI_API_KEY E <> "" ->
        requests_post E log
          (summary_request E (PList (map PDict good ++ bad :: rest))
             style format_ language tone)
        = Failed msg ->
        summarize_news E (PList (map PDict good ++ bad :: rest)) style format_ language tone log
        = (Raise (AttributeError (type_name bad) "get"),
           (log ++ [summary_request E (PList (map PDict good ++ bad :: rest))
                      style format_ language tone])%list)).
Proof.
  intros Hbad. split.
  - intros Hkey. unfold summarize_news. rewrite Hkey. cbn [String.eqb].
    now rewrite (bind_raise_eq _ _ _ _ _ (bullets_stop E good bad rest log Hbad)).
  - intros msg Hkey Hnet. unfold summary_request in Hnet.
    unfold summarize_news. rewrite (key_set _ Hkey). cbv zeta.
    unfold try_except, post, summary_request. unfold bind at 1. rewrite Hnet.
    now rewrite (bind_raise_eq _ _ _ _ _ (bullets_stop E good bad rest _ Hbad)).
Qed.

Lemma summarize_news_raises_on_malformed_item_witness :
  summarize_news offline_env (PList (map PDict [[("title", PStr "A")]] ++ PStr "oops" :: []))
    (PStr "concise") (PStr "bullet points") (PStr "English") (PStr "neutral") []
  = (Raise (AttributeError (type_name (PStr "oops")) "get"), []).
Proof.
  apply (proj1 (summarize_news_raises_on_malformed_item offline_env
                  [[("title", PStr "A")]] (PStr "oops") []
                  (PStr "concise") (PStr "bullet points") (PStr "English") (PStr "neutral")
                  [] eq_refl)).
  reflexivity.
Defined.

(** ** The preference store, key by key *)

Lemma store_apply_key_stored (updates prefs : dict) (k : string) :
  store_apply_key updates prefs k
  = match stored_value updates k with
    | Some v => dict_set k v prefs
    | None => prefs
    end.
Proof.
  unfold store_apply_key, stored_value.
  destruct (dict_get k updates) as [v|]; [|reflexivity].
  destruct v; try reflexivity.
  destruct (String.eqb k "topics"); [|reflexivity].
  now rewrite split_topics_trimmed.
Qed.

Lemma fold_store_get (updates : dict) (ks : list string) (prefs : dict) (k : string) :
  dict_get k (fold_left (store_apply_key updates) ks prefs)
  = if existsb (String.eqb k) ks
    then match stored_value updates k with
         | Some v => Some v
         | None => dict_get k prefs
         end
    else dict_get k prefs.
Proof.
  revert prefs. induction ks as [|a ks IH]; intros prefs; cbn [fold_left existsb].
  - reflexivity.
  - rewrite IH, store_apply_key_stored.
    destruct (String.eqb_spec k a) as [->|Hne]; cbn [orb].
    + destruct (stored_value updates a) as [v|].
      * rewrite dict_get_set_same. now destruct (existsb _ ks).
      * now destruct (existsb _ ks).
    + destruct (stored_value updates a) as [v|]; [|reflexivity].
      rewrite dict_get_set_other by congruence. reflexivity.
Qed.

(** X8. What a lookup finds after save_preferences: a key outside the
    five recognized ones is as before (an unrecognized key of the updates is
    not stored); a recognized key that the updates lack or give as null is
    as before; a recognized key given any other value holds that value,
    except a text for topics, which is stored split. *)
Theorem save_preferences_lookup (updates prefs : dict) (k : string) :
  exists prefs',
    save_preferences (PDict updates) prefs = Ok prefs'
    /\ (is_recognized k = false -> dict_get k prefs' = dict_get k prefs)
    /\ (dict_get k updates = None \/ dict_get k updates = Some PNone ->
        dict_get k prefs' = dict_get k prefs)
    /\ (forall v,
          is_recognized k = true ->
          dict_get k updates = Some v ->
          v <> PNone ->
          (k = "topics" -> is_text v = false) ->
          dict_get k prefs' = Some v).
Proof.
  exists (store_apply prefs updates). split; [apply save_preferences_apply|].
  unfold store_apply. rewrite fold_store_get. fold (is_recognized k).
  repeat split.
  - now intros ->.
  - intros H. unfold stored_value.
    destruct H as [-> | ->]; now destruct (is_recognized k).
  - intros v -> Hv Hnn Htopics. unfold stored_value. rewrite Hv.
    destruct v; try reflexivity; try congruence.
    destruct (String.eqb_spec k "topics") as [->|_]; [|reflexivity].
    now specialize (Htopics eq_refl).
Qed.

Lemma dict_set_same_value (k : string) (v : pyval) (d : dict) :
  dict_get k d = Some v -> dict_set k v d = d.
Proof.
  induction d as [|[k' v'] d IH]; cbn [dict_get dict_set]; [discriminate|].
  destruct (String.eqb_spec k k') as [->|Hne].
  - intros H. now inversion H.
  - intros H. now rewrite IH.
Qed.

Lemma fold_store_fixed (updates : dict) (ks : list string) (prefs : dict) :
  (forall k v, In k ks -> stored_value updates k = Some v -> dict_get k prefs = Some v) ->
  fold_left (store_apply_key updates) ks prefs = prefs.
Proof.
  induction ks as [|a ks IH]; intros H; cbn [fold_left]; [reflexivity|].
  rewrite store_apply_key_stored.
  destruct (stored_value updates a) as [v|] eqn:Hv.
  - rewrite (dict_set_same_value a v prefs) by (apply H; [now left | assumption]).
    apply IH. intros k v0 Hin. apply H. now right.
  - apply IH. intros k v0 Hin. apply H. now right.
Qed.

(** X9. Saving is idempotent: applying the same updates to the
    preferences they produced changes nothing, not even the order of the
    keys. *)
Theorem save_preferences_idempotent (updates prefs prefs' : dict) :
  save_preferences (PDict updates) prefs = Ok prefs' ->
  save_preferences (PDict updates) prefs' = Ok prefs'.
Proof.
  rewrite !save_preferences_apply. intros H. inversion H as [Heq]. f_equal.
  unfold store_apply at 1. apply fold_store_fixed.
  intros k v Hin Hv. unfold store_apply. rewrite fold_store_get, Hv.
  destruct (existsb (String.eqb k) recognized) eqn:Hk; [reflexivity|].
  exfalso. assert (Ht : existsb (String.eqb k) recognized = true).
  { apply existsb_exists. exists k. split; [assumption | apply String.eqb_refl]. }
  congruence.
Qed.

Lemma save_preferences_idempotent_witness :
  save_preferences (PDict [("topics", PStr "tech, sports"); ("tone", PStr "formal")])
    [("tone", PStr "formal"); ("topics", PList [PStr "tech"; PStr "sports"])]
  = Ok [("tone", PStr "formal"); ("topics", PList [PStr "tech"; PStr "sports"])].
Proof.
  apply (save_preferences_idempotent
           [("topics", PStr "tech, sports"); ("tone", PStr "formal")]
           [("tone", PStr "casual")]).
  reflexivity.
Defined.

(** X10. Arguments that are not a JSON object: a null, a boolean or a
    number makes save_preferences raise a type error; a list is searched
    for the key names as elements, so a list without any of the five names
    changes nothing, and a list with one of them raises. *)
Theorem save_preferences_on_non_objects (fargs : pyval) (prefs : dict) :
  (is_scalar fargs = true ->
   save_preferences fargs prefs = Raise (TypeError "argument is not iterable"))
  /\ (forall l,
        fargs = PList l ->
        forallb (fun k => negb (has_name l k)) recognized = true ->
        save_preferences fargs prefs = Ok prefs)
  /\ (forall l k,
        fargs = PList l ->
        In k recognized ->
        has_name l k = true ->
        exists e, save_preferences fargs prefs = Raise e).
Proof.
  repeat split.
  - intros Hs. destruct fargs; try discriminate; reflexivity.
  - intros l -> H. unfold save_preferences.
    assert (Hgen : forall ks p,
               forallb (fun k => negb (has_name l k)) ks = true ->
               save_keys ks (PList l) p = Ok p).
    { induction ks as [|a ks IH]; intros p Hks; cbn [save_keys]; [reflexivity|].
      cbn [forallb] in Hks. apply andb_true_iff in Hks as [Ha Hks].
      unfold save_key at 1. cbn [py_contains res_bind]. fold (has_name l a).
      apply negb_true_iff in Ha. rewrite Ha. cbn [res_bind]. now apply IH. }
    now apply Hgen.
  - intros l k -> Hin Hl. unfold save_preferences.
    assert (Hgen : forall ks p, In k ks -> exists e, save_keys ks (PList l) p = Raise e).
    { induction ks as [|a ks IH]; intros p Hk; [contradiction|].
      cbn [save_keys]. unfold save_key at 1. cbn [py_contains res_bind].
      fold (has_name l a).
      destruct (has_name l a) eqn:Ha; cbn [res_bind py_getitem].
      - eauto.
      - destruct Hk as [->|Hk]; [congruence | now apply IH]. }
    now apply Hgen.
Qed.

(** ** Stored topics *)

Lemma split_comma_nonempty (s : string) : split_comma s <> [].
Proof.
  destruct s as [|c s]; cbn [split_comma]; [discriminate|].
  destruct (Ascii.eqb c ","); [discriminate|].
  destruct (split_comma s); discriminate.
Qed.

Lemma split_comma_no_commas (s : string) :
  Forall (fun t => no_comma t = true) (split_comma s).
Proof.
  induction s as [|c s IH]; cbn [split_comma].
  - repeat constructor.
  - destruct (Ascii.eqb c ",") eqn:Hc.
    + constructor; [reflexivity | exact IH].
    + destruct (split_comma s) as [|tok toks]; [repeat constructor|].
      * unfold no_comma. cbn [list_ascii_of_string existsb].
        now rewrite Ascii.eqb_sym, Hc.
      * inversion IH as [|? ? Htok Htoks]; subst. constructor; [|exact Htoks].
        unfold no_comma in *. cbn [list_ascii_of_string existsb].
        now rewrite Ascii.eqb_sym, Hc.
Qed.

Lemma split_comma_length (s : string) : length (split_comma s) = S (commas s).
Proof.
  unfold commas. induction s as [|c s IH]; cbn [split_comma list_ascii_of_string filter].
  - reflexivity.
  - rewrite (Ascii.eqb_sym "," c). destruct (Ascii.eqb c ",").
    + cbn [length]. now rewrite IH.
    + destruct (split_comma s); cbn [length] in *; [discriminate | exact IH].
Qed.

Lemma concat_empty_cons (x : string) (xs : list string) :
  String.concat "" (x :: xs) = x ++ String.concat "" xs.
Proof.
  destruct xs as [|y ys]; cbn [String.concat]; [|reflexivity].
  induction x as [|c x IH]; cbn [append]; [reflexivity | now rewrite <- IH].
Qed.

(** The characters of a text, put together again, are the text. *)
Lemma concat_utf8_chars (s : string) : String.concat "" (utf8_chars s) = s.
Proof.
  induction s as [|c s IH]; cbn [utf8_chars]; [reflexivity|].
  destruct (starts_with_continuation s).
  - destruct (utf8_chars s) as [|ch chs].
    + cbn [String.concat] in *. now rewrite <- IH.
    + rewrite concat_empty_cons in IH. rewrite concat_empty_cons.
      cbn [append]. now rewrite IH.
  - rewrite concat_empty_cons. cbn [append]. now rewrite IH.
Qed.

Lemma list_ascii_app (a b : string) :
  list_ascii_of_string (a ++ b) = (list_ascii_of_string a ++ list_ascii_of_string b)%list.
Proof. induction a as [|c a IH]; cbn [append list_ascii_of_string app]; congruence. Qed.

Lemma in_concat_bytes (c : ascii) (l : list string) :
  In c (list_ascii_of_string (String.concat "" l)) ->
  exists ch, In ch l /\ In c (list_ascii_of_string ch).
Proof.
  induction l as [|x xs IH].
  - intros [].
  - rewrite concat_empty_cons, list_ascii_app, in_app_iff. intros [H|H].
    + exists x. split; [now left | assumption].
    + destruct (IH H) as (ch & Hin & Hc). exists ch. split; [now right | assumption].
Qed.

Lemma bytes_in_concat (c : ascii) (ch : string) (l : list string) :
  In ch l -> In c (list_ascii_of_string ch) ->
  In c (list_ascii_of_string (String.concat "" l)).
Proof.
  induction l as [|x xs IH]; intros Hin Hc; [contradiction|].
  rewrite concat_empty_cons, list_ascii_app, in_app_iff.
  destruct Hin as [->|Hin]; [now left | right; now apply IH].
Qed.

Lemma drop_spaces_incl (chs : list string) (ch : string) :
  In ch (drop_spaces chs) -> In ch chs.
Proof.
  induction chs as [|x xs IH]; cbn [drop_spaces]; [auto|].
  destruct (is_space x); [intros H; right; now apply IH | auto].
Qed.

(** Trimming only removes bytes. *)
Lemma strip_bytes (t : string) (c : ascii) :
  In c (list_ascii_of_string (strip t)) -> In c (list_ascii_of_string t).
Proof.
  unfold strip. intros H. apply in_concat_bytes in H as (ch & Hin & Hc).
  rewrite <- (concat_utf8_chars t). apply (bytes_in_concat c ch); [|exact Hc].
  apply in_rev in Hin. apply drop_spaces_incl in Hin.
  apply in_rev in Hin. now apply drop_spaces_incl in Hin.
Qed.

Lemma strip_no_comma (t : string) : no_comma t = true -> no_comma (strip t) = true.
Proof.
  unfold no_comma. intros H. apply negb_true_iff in H. apply negb_true_iff.
  destruct (existsb (Ascii.eqb ",") (list_ascii_of_string (strip t))) eqn:Hs; [|reflexivity].
  apply existsb_exists in Hs as (c & Hin & Hc).
  assert (Ht : existsb (Ascii.eqb ",") (list_ascii_of_string t) = true).
  { apply existsb_exists. exists c. split; [now apply strip_bytes | exact Hc]. }
  congruence.
Qed.

(** X11. The topics stored for a text are clean: each is a text that is
    not empty and holds no comma, there are at most one more of them than
    the text has commas, and they keep the order of the text. *)
Theorem stored_topics_are_clean (s : string) (updates prefs : dict) :
  dict_get "topics" updates = Some (PStr s) ->
  exists prefs' topics,
    save_preferences (PDict updates) prefs = Ok prefs'
    /\ dict_get "topics" prefs' = Some (PList (map PStr topics))
    /\ Forall (fun t => t <> "" /\ no_comma t = true) topics
    /\ (length topics <= S (commas s))%nat.
Proof.
  intros H.
  exists (store_apply prefs updates),
         (filter (fun tok => negb (String.eqb tok "")) (map strip (split_comma s))).
  split; [apply save_preferences_apply|].
  split; [now apply store_apply_topics_text|].
  split.
  - apply Forall_forall. intros t Hin. apply filter_In in Hin as [Hin Hne].
    split.
    + intros ->. discriminate.
    + apply in_map_iff in Hin as (tok & <- & Htok).
      apply strip_no_comma.
      exact (proj1 (Forall_forall _ _) (split_comma_no_commas s) tok Htok).
  - rewrite <- split_comma_length, <- (length_map strip (split_comma s)).
    apply filter_length_le.
Qed.

Lemma stored_topics_are_clean_witness :
  exists prefs' topics,
    save_preferences (PDict [("topics", PStr " ai ,, climate change ,")]) [] = Ok prefs'
    /\ dict_get "topics" prefs' = Some (PList (map PStr topics))
    /\ Forall (fun t => t <> "" /\ no_comma t = true) topics
    /\ (length topics <= S (commas " ai ,, climate change ,"))%nat.
Proof.
  apply (stored_topics_are_clean " ai ,, climate change ," [("topics", PStr " ai ,, climate change ,")]).
  reflexivity.
Defined.

(** ** Onboarding, answer by answer *)

Lemma is_set_dict_set (k k' : string) (v : pyval) (prefs : dict) :
  is_set (dict_set k v prefs) k' = if String.eqb k k' then truthy v else is_set prefs k'.
Proof.
  unfold is_set, dict_get_or. destruct (String.eqb_spec k k') as [->|Hne].
  - now rewrite dict_get_set_same.
  - now rewrite dict_get_set_other.
Qed.

Lemma first_question_at (qs1 : list (string * string)) (k q : string)
  (qs2 : list (string * string)) (prefs : dict) :
  (forall k', In k' (map fst qs1) -> is_set prefs k' = true) ->
  is_set prefs k = false ->
  first_question (qs1 ++ (k, q) :: qs2) prefs = Some q.
Proof.
  intros Hset Hk. induction qs1 as [|[k1 q1] qs1 IH]; cbn [app first_question].
  - fold (is_set prefs k). now rewrite Hk.
  - fold (is_set prefs k1). rewrite (Hset k1) by now left. cbn [negb].
    apply IH. intros k' Hin. apply Hset. now right.
Qed.

Lemma first_question_all_set (qs : list (string * string)) (prefs : dict) :
  (forall k', In k' (map fst qs) -> is_set prefs k' = true) ->
  first_question qs prefs = None.
Proof.
  induction qs as [|[k1 q1] qs IH]; intros Hset; cbn [first_question]; [reflexivity|].
  fold (is_set prefs k1). rewrite (Hset k1) by now left. cbn [negb].
  apply IH. intros k' Hin. apply Hset. now right.
Qed.

Lemma assoc_at (qs1 : list (string * string)) (k q : string) (qs2 : list (string * string)) :
  ~ In k (map fst qs1) -> assoc k (qs1 ++ (k, q) :: qs2) = Some q.
Proof.
  induction qs1 as [|[k1 q1] qs1 IH]; intros Hnot; cbn [app assoc].
  - now rewrite String.eqb_refl.
  - destruct (String.eqb_spec k k1) as [->|Hne].
    + exfalso. apply Hnot. now left.
    + apply IH. intros Hin. apply Hnot. now right.
Qed.

Lemma recognized_nodup : NoDup recognized.
Proof.
  unfold recognized.
  repeat (constructor; [cbn [In]; intuition discriminate|]). constructor.
Qed.

Lemma questions_keys : map fst questions = recognized.
Proof. reflexivity. Qed.

(** X12. Onboarding moves forward. After the first unset key is given a
    value that is not empty, the next turn without a reasoning model asks
    the next unset key after it in the canonical order, never that key or
    an earlier one again; and when no later key is unset, the preferences
    are complete. *)
Theorem answering_moves_onboarding_forward
  (E : env) (fuel : nat) (msgs : list Message) (prefs : dict) (log : list request)
  (before after : list string) (k : string) (v : pyval) :
  OPENAI_API_KEY E = "" ->
  recognized = (before ++ k :: after)%list ->
  (forall k', In k' before -> is_set prefs k' = true) ->
  is_set prefs k = false ->
  truthy v = true ->
  (forall mid k2 after2,
     after = (mid ++ k2 :: after2)%list ->
     (forall k', In k' mid -> is_set prefs k' = true) ->
     is_set prefs k2 = false ->
     exists q2,
       question_for k2 = Some q2
       /\ openai_chat_with_tools E fuel msgs (dict_set k v prefs) log
          = (Ok {| assistant_message := PStr q2; preferences := dict_set k v prefs |}, log))
  /\ ((forall k', In k' after -> is_set prefs k' = true) ->
      is_complete (dict_set k v prefs) = true).
Proof.
  intros Hkey Hsplit Hbefore Hk Hv. split.
  - intros mid k2 after2 -> Hmid Hk2.
    pose proof recognized_nodup as Hnd. rewrite Hsplit in Hnd.
    replace (before ++ k :: mid ++ k2 :: after2)%list
      with ((before ++ k :: mid) ++ k2 :: after2)%list in Hnd, Hsplit
      by (rewrite <- app_assoc; reflexivity).
    apply NoDup_remove_2 in Hnd.
    pose proof questions_keys as Hq. rewrite Hsplit in Hq.
    apply map_eq_app in Hq as (qs1 & qs' & Hqs & Hqs1 & Hqs').
    apply map_eq_cons in Hqs' as ([k2' q2] & qs2 & -> & Hfst & Hqs2).
    cbn [fst] in Hfst. subst k2'.
    assert (Hne : k <> k2).
    { intros ->. apply Hnd. rewrite in_app_iff. left. rewrite in_app_iff. right. now left. }
    exists q2. split.
    + unfold question_for. rewrite Hqs. apply assoc_at. rewrite Hqs1.
      intros Hin. apply Hnd. rewrite in_app_iff. now left.
    + unfold openai_chat_with_tools, offline_bot. rewrite Hkey. cbn [String.eqb].
      rewrite Hqs. rewrite first_question_at; [reflexivity| |].
      * rewrite Hqs1. intros k' Hin. rewrite is_set_dict_set.
        destruct (String.eqb_spec k k') as [->|Hne']; [exact Hv|].
        apply in_app_iff in Hin as [Hin|[Heq|Hin]]; auto; congruence.
      * rewrite is_set_dict_set. now destruct (String.eqb_spec k k2).
  - intros Hafter. unfold is_complete. apply forallb_forall. intros k' Hin.
    rewrite is_set_dict_set. destruct (String.eqb_spec k k') as [->|Hne]; [exact Hv|].
    rewrite Hsplit in Hin. apply in_app_iff in Hin as [Hin|[Heq|Hin]]; auto; congruence.
Qed.

Lemma answering_moves_onboarding_forward_witness :
  exists q2,
    question_for "interaction" = Some q2
    /\ openai_chat_with_tools offline_env 0 []
         (dict_set "format" (PStr "bullet points")
            [("tone", PStr "formal"); ("language", PStr "English")]) []
       = (Ok {| assistant_message := PStr q2;
                preferences := dict_set "format" (PStr "bullet points")
                                 [("tone", PStr "formal"); ("language", PStr "English")] |},
          []).
Proof.
  apply (proj1 (answering_moves_onboarding_forward offline_env 0 []
                  [("tone", PStr "formal"); ("language", PStr "English")] []
                  ["tone"] ["language"; "interaction"; "topics"] "format"
                  (PStr "bullet points") eq_refl eq_refl
                  ltac:(intros k' [<-|[]]; reflexivity) eq_refl eq_refl)
          ["language"] "interaction" ["topics"]).
  - reflexivity.
  - intros k' [<-|[]]. reflexivity.
  - reflexivity.
Defined.

(** ** Turns without a reasoning model, call by call *)

Lemma exa_news_fetch_run (E : env) (topic n : pyval) (log : list request) :
  exists fetched,
    exa_news_fetch E topic n log
    = (Ok fetched,
       if String.eqb (EXA_API_KEY E) "" then log
       else (log ++ [exa_request E topic n])%list)
    /\ fetch_shape fetched.
Proof.
  destruct (exa_news_fetch_total E topic n log) as (fetched & log' & Hrun & Hshape).
  exists fetched. pose proof (exa_news_fetch_log E topic n log) as Hlog.
  rewrite Hrun in Hlog. cbn [snd] in Hlog. now subst log'.
Qed.

Lemma topic_section_run (E : env) (prefs : dict) (topic : pyval) (log : list request) :
  OPENAI_API_KEY E = "" ->
  exists text,
    topic_section E prefs topic log
    = (Ok text,
       (log ++ (if String.eqb (EXA_API_KEY E) "" then []
                else [exa_request E topic (PInt 5)]))%list).
Proof.
  intros Hkey. unfold topic_section.
  destruct (exa_news_fetch_run E topic (PInt 5) log) as (fetched & Hrun & Hshape).
  assert (Hlog : (if String.eqb (EXA_API_KEY E) "" then log
                  else (log ++ [exa_request E topic (PInt 5)])%list)
                 = (log ++ (if String.eqb (EXA_API_KEY E) "" then []
                            else [exa_request E topic (PInt 5)]))%list)
    by (destruct (String.eqb _ _); [now rewrite app_nil_r | reflexivity]).
  rewrite Hlog in Hrun. rewrite (bind_ok_eq _ _ _ _ _ Hrun).
  destruct Hshape as [[msg ->] | [records ->]]; cbn [dict_get String.eqb Ascii.eqb Bool.eqb].
  - unfold ret. eauto.
  - match goal with
    | |- context [summarize_news E ?i ?a ?b ?c ?d] =>
        destruct (summarize_news_total E records a b c d
                    (log ++ (if String.eqb (EXA_API_KEY E) "" then []
                             else [exa_request E topic (PInt 5)]))%list Hkey)
          as [summ Hsum]
    end.
    rewrite (bind_ok_eq _ _ _ _ _ Hsum). unfold ret. eauto.
Qed.

Lemma for_each_log {A B} (l : list A) (body : A -> M B) (g : A -> list request)
  (log : list request) :
  (forall a lg, exists b, body a lg = (Ok b, (lg ++ g a)%list)) ->
  exists bs, for_each l body log = (Ok bs, (log ++ flat_map g l)%list).
Proof.
  intros Hb. revert log. induction l as [|a l IH]; intros log; cbn [for_each flat_map].
  - exists []. now rewrite app_nil_r.
  - destruct (Hb a log) as [b Hrun]. destruct (IH (log ++ g a)%list) as [bs Hrest].
    exists (b :: bs). rewrite (bind_ok_eq _ _ _ _ _ Hrun), (bind_ok_eq _ _ _ _ _ Hrest).
    now rewrite app_assoc.
Qed.

Lemma flat_map_none {A B} (l : list A) : flat_map (fun _ : A => @nil B) l = [].
Proof. induction l as [|a l IH]; [reflexivity | exact IH]. Qed.

Lemma flat_map_one {A B} (f : A -> B) (l : list A) : flat_map (fun a => [f a]) l = map f l.
Proof. induction l as [|a l IH]; cbn [flat_map map app]; congruence. Qed.

Lemma incomplete_asks (prefs : dict) :
  is_complete prefs = false -> exists q, first_question questions prefs = Some q.
Proof.
  intros H. destruct (first_question questions prefs) as [q|] eqn:Hq; [eauto|].
  apply first_question_none in Hq. congruence.
Qed.

(** X13. Without any credential and with complete preferences the reply
    is fully determined: one section "Topic: {topic}" followed by the line
    "Exa error: Missing EXA_API_KEY" per topic, in order, joined by a blank
    line; no outbound call is made. *)
Theorem offline_reply_without_credentials
  (E : env) (fuel : nat) (msgs : list Message) (prefs : dict) (log : list request) :
  OPENAI_API_KEY E = "" ->
  EXA_API_KEY E = "" ->
  is_complete prefs = true ->
  openai_chat_with_tools E fuel msgs prefs log
  = (Ok {| assistant_message :=
             PStr (join (newline ++ newline) (map (unfetched E) (topic_list prefs)));
           preferences := prefs |}, log).
Proof.
  intros Hkey Hexa Hfull.
  unfold openai_chat_with_tools, offline_bot. rewrite Hkey. cbn [String.eqb].
  rewrite (first_question_complete prefs Hfull).
  unfold topic_list. cbv zeta.
  erewrite bind_ok_eq; [reflexivity|].
  apply for_each_pure. intros topic lg _.
  unfold topic_section, exa_news_fetch. rewrite Hexa. reflexivity.
Qed.

Lemma offline_reply_without_credentials_witness :
  openai_chat_with_tools offline_env 0 [] complete_prefs []
  = (Ok {| assistant_message :=
             PStr (join (newline ++ newline)
                     (map (unfetched offline_env) (topic_list complete_prefs)));
           preferences := complete_prefs |}, []).
Proof.
  apply (offline_reply_without_credentials offline_env 0 [] complete_prefs []);
    reflexivity.
Defined.

(** X14. Without a reasoning-model credential a turn never contacts the
    language-model provider. It sends nothing while a preference is unset
    or when no retrieval credential is configured, and otherwise exactly one
    search request per topic, in the order of the topics, each with count 5.
    This holds whatever the retrieval provider answers. *)
Theorem offline_turn_calls
  (E : env) (fuel : nat) (req : ChatRequest) (log : list request) :
  OPENAI_API_KEY E = "" ->
  snd (chat E fuel req log)
  = (log ++ (if is_complete (request_preferences req)
                && negb (String.eqb (EXA_API_KEY E) "")
             then map (fun topic => exa_request E topic (PInt 5))
                      (topic_list (request_preferences req))
             else []))%list.
Proof.
  intros Hkey. unfold chat. fold (request_preferences req).
  rewrite bind_quiet_snd by (intros result; quiet_auto).
  unfold openai_chat_with_tools, offline_bot. rewrite Hkey. cbn [String.eqb].
  destruct (is_complete (request_preferences req)) eqn:Hfull; cbn [andb].
  - rewrite (first_question_complete _ Hfull).
    rewrite bind_quiet_snd by (intros texts; apply quiet_ret).
    fold (topic_list (request_preferences req)).
    destruct (for_each_log (topic_list (request_preferences req))
                (topic_section E (request_preferences req))
                (fun topic => if String.eqb (EXA_API_KEY E) "" then []
                              else [exa_request E topic (PInt 5)])
                log (fun a lg => topic_section_run E _ a lg Hkey)) as [texts Hrun].
    unfold topic_list in Hrun |- *. cbv zeta in Hrun |- *.
    rewrite Hrun. cbn [snd]. f_equal.
    destruct (String.eqb (EXA_API_KEY E) ""); cbn [negb].
    + apply flat_map_none.
    + apply flat_map_one.
  - destruct (incomplete_asks _ Hfull) as [q ->]. cbn [snd ret]. now rewrite app_nil_r.
Qed.

Lemma offline_turn_calls_witness :
  snd (chat retrieval_env 0
         {| req_messages := [user_says "news"]; req_preferences := Some complete_prefs |} [])
  = ([] ++ (if is_complete complete_prefs
               && negb (String.eqb (EXA_API_KEY retrieval_env) "")
            then map (fun topic => exa_request retrieval_env topic (PInt 5))
                     (topic_list complete_prefs)
            else []))%list.
Proof.
  apply (offline_turn_calls retrieval_env 0
           {| req_messages := [user_says "news"]; req_preferences := Some complete_prefs |} []).
  reflexivity.
Defined.

(** ** Turns with a reasoning model: transcript and calls *)

Lemma py_getitem_dict (o : pyval) (k : string) (v : pyval) :
  py_getitem o k = Ok v -> exists d, o = PDict d.
Proof. destruct o; try discriminate. eauto. Qed.

Lemma run_tool_appends (E : env) (tc : pyval) (oai_messages : list pyval) (prefs : dict) :
  ensures (run_tool E tc oai_messages prefs)
          (fun st => exists entry,
                       fst st = (oai_messages ++ [entry])%list /\ answers_call tc entry).
Proof.
  unfold run_tool.
  eapply ensures_bind.
  { apply ensures_lift with (P := fun _ => exists t, tc = PDict t).
    intros fn. apply py_getitem_dict. }
  intros fn [t ->].
  do 4 (eapply ensures_bind; [apply ensures_any|]; intros ? _).
  eapply ensures_bind.
  { apply ensures_lift with (P := fun id => id = dict_get_or "id" t (PStr "")).
    intros id H. now inversion H. }
  intros id ->. apply ensures_ret. cbn [fst].
  eexists. split; [reflexivity|]. exists t. eexists. split; reflexivity.
Qed.

Lemma run_tools_appends (E : env) (tcs : list pyval) (oai_messages : list pyval)
  (prefs : dict) :
  ensures (run_tools E tcs oai_messages prefs)
          (fun st => exists new,
                       fst st = (oai_messages ++ new)%list /\ Forall2 answers_call tcs new).
Proof.
  revert oai_messages prefs. induction tcs as [|tc tcs IH]; intros ms prefs; cbn [run_tools].
  - apply ensures_ret. exists []. split; [now rewrite app_nil_r | constructor].
  - eapply ensures_bind; [apply run_tool_appends|]. intros st (entry & Hst & Hentry).
    eapply ensures_weaken; [apply IH|]. intros st' (new & Hst' & Hnew). cbv beta.
    exists (entry :: new). split; [|now constructor].
    rewrite Hst', Hst, <- app_assoc. reflexivity.
Qed.

(** X15. A batch of tool calls that completes extends the transcript by
    exactly one entry per call, in the order of the calls: each has the role
    "tool" and carries the token of its call (the empty text when the call
    has none); the entries before them are untouched. *)
Theorem batch_appends_one_entry_per_call
  (E : env) (tcs : list pyval) (oai_messages : list pyval) (prefs : dict)
  (log log' : list request) (st : list pyval * dict) :
  run_tools E tcs oai_messages prefs log = (Ok st, log') ->
  exists new,
    fst st = (oai_messages ++ new)%list
    /\ Forall2 answers_call tcs new
    /\ length new = length tcs.
Proof.
  intros H. destruct (run_tools_appends E tcs oai_messages prefs _ _ _ H)
    as (new & Hst & Hnew).
  exists new. repeat split; auto. symmetry. exact (Forall2_length Hnew).
Qed.

Lemma batch_appends_one_entry_per_call_witness :
  exists new,
    fst ([PDict [("role", PStr "user"); ("content", PStr "hi")];
          tool_message batch_env (saved [("tone", PStr "formal")]) (PStr "call_1");
          tool_message batch_env (PDict [("error", PStr "Unknown tool noop")]) (PStr "")],
         [("tone", PStr "formal")])
    = ([PDict [("role", PStr "user"); ("content", PStr "hi")]] ++ new)%list
    /\ Forall2 answers_call
         [call "call_1" "save_preferences" tone_update;
          PDict [("function", PDict [("name", PStr "noop");
                                     ("arguments", PStr (demo_dumps (PDict [])))])]]
         new
    /\ length new
       = length [call "call_1" "save_preferences" tone_update;
                 PDict [("function", PDict [("name", PStr "noop");
                                            ("arguments", PStr (demo_dumps (PDict [])))])]].
Proof.
  apply (batch_appends_one_entry_per_call batch_env
           [call "call_1" "save_preferences" tone_update;
            PDict [("function", PDict [("name", PStr "noop");
                                       ("arguments", PStr (demo_dumps (PDict [])))])]]
           [PDict [("role", PStr "user"); ("content", PStr "hi")]] [] [] []).
  vm_compute. reflexivity.
Defined.

Lemma logs_quiet {A} (m : M A) (P : request -> Prop) : quiet m -> logs m P.
Proof. intros H log. exists []. rewrite H, app_nil_r. now split. Qed.

Lemma logs_weaken {A} (m : M A) (P Q : request -> Prop) :
  logs m P -> (forall r, P r -> Q r) -> logs m Q.
Proof.
  intros H HPQ log. destruct (H log) as (new & Hlog & Hnew).
  exists new. split; [exact Hlog|]. eapply Forall_impl; eauto.
Qed.

Lemma logs_bind {A B} (m : M A) (k : A -> M B) (P : request -> Prop) (Q : A -> Prop) :
  logs m P -> ensures m Q -> (forall a, Q a -> logs (k a) P) -> logs (bind m k) P.
Proof.
  intros Hm Hq Hk log. destruct (Hm log) as (new1 & Hlog1 & Hnew1).
  unfold bind. destruct (m log) as [[a|e|] log1] eqn:Hrun; cbn [snd] in Hlog1; subst log1.
  - destruct (Hk a (Hq _ _ _ Hrun) (log ++ new1)%list) as (new2 & Hlog2 & Hnew2).
    exists (new1 ++ new2)%list. rewrite Hlog2, app_assoc. split; [reflexivity|].
    apply Forall_app. now split.
  - now exists new1.
  - now exists new1.
Qed.

Lemma logs_then {A B} (m : M A) (k : A -> M B) (P : request -> Prop) :
  logs m P -> (forall a, logs (k a) P) -> logs (bind m k) P.
Proof.
  intros Hm Hk. apply logs_bind with (Q := fun _ => True); auto. apply ensures_any.
Qed.

Lemma exa_news_fetch_logs (E : env) (topic n : pyval) :
  logs (exa_news_fetch E topic n) adapter_request.
Proof.
  intros log. rewrite exa_news_fetch_log. destruct (String.eqb _ _).
  - exists []. rewrite app_nil_r. now split.
  - eexists. split; [reflexivity|]. repeat constructor.
Qed.

Lemma summarize_news_logs (E : env) (items style format_ language tone : pyval) :
  logs (summarize_news E items style format_ language tone) adapter_request.
Proof.
  destruct (String.eqb_spec (OPENAI_API_KEY E) "") as [Hkey|Hkey].
  - apply logs_quiet. unfold summarize_news. rewrite Hkey. cbn [String.eqb].
    apply quiet_bind; [apply bullets_quiet | intros; apply quiet_ret].
  - intros log. rewrite (summarize_news_log E _ _ _ _ _ log Hkey).
    eexists. split; [reflexivity|]. constructor; [|constructor]. now right.
Qed.

Lemma dispatch_logs (E : env) (fname fargs : pyval) (prefs : dict) :
  logs (dispatch E fname fargs prefs) adapter_request.
Proof.
  unfold dispatch.
  destruct (is_name fname "exa_news_fetch").
  { apply logs_then; [apply logs_quiet, quiet_lift|]. intros kw.
    apply logs_then; [apply exa_news_fetch_logs|]. intros result.
    apply logs_quiet, quiet_ret. }
  destruct (is_name fname "summarize_news").
  { destruct fargs; try (apply logs_quiet, quiet_lift).
    apply logs_then; [apply logs_quiet, quiet_lift|]. intros kw.
    apply logs_then; [apply summarize_news_logs|]. intros result.
    apply logs_quiet, quiet_ret. }
  destruct (is_name fname "save_preferences").
  { apply logs_quiet. quiet_auto. }
  apply logs_quiet, quiet_ret.
Qed.

Lemma run_tool_logs (E : env) (tc : pyval) (oai_messages : list pyval) (prefs : dict) :
  logs (run_tool E tc oai_messages prefs) adapter_request.
Proof.
  unfold run_tool.
  do 4 (apply logs_then; [apply logs_quiet, quiet_lift | intros ?]).
  apply logs_then; [apply dispatch_logs|]. intros out.
  apply logs_quiet. quiet_auto.
Qed.

Lemma run_tools_logs (E : env) (tcs : list pyval) (oai_messages : list pyval)
  (prefs : dict) :
  logs (run_tools E tcs oai_messages prefs) adapter_request.
Proof.
  revert oai_messages prefs. induction tcs as [|tc tcs IH]; intros ms prefs; cbn [run_tools].
  - apply logs_quiet, quiet_ret.
  - apply logs_then; [apply run_tool_logs|]. intros st. apply IH.
Qed.

Lemma turn_request_longer (history more : list pyval) (r : request) :
  turn_request (history ++ more) r -> turn_request history r.
Proof.
  intros [[Hurl [rest Hrest]] | H]; [left | now right].
  split; [exact Hurl|]. exists (more ++ rest)%list. now rewrite app_assoc.
Qed.

Lemma tool_loop_logs (E : env) (fuel : nat) (oai_messages : list pyval) (prefs : dict) :
  logs (tool_loop E fuel oai_messages prefs) (turn_request oai_messages).
Proof.
  revert oai_messages prefs. induction fuel as [|fuel IH]; intros ms prefs; cbn [tool_loop].
  - apply logs_quiet, quiet_lift.
  - apply logs_then.
    { intros log. rewrite post_snd. eexists. split; [reflexivity|].
      constructor; [|constructor]. left. split; [reflexivity|].
      exists []. now rewrite app_nil_r. }
    intros resp. destruct (400 <=? status_code resp); [apply logs_quiet, quiet_ret|].
    unfold resp_json.
    do 5 (apply logs_then; [apply logs_quiet, quiet_lift | intros ?]).
    destruct (truthy _); [|apply logs_quiet; quiet_auto].
    apply logs_then; [apply logs_quiet, quiet_lift | intros tcs].
    eapply logs_bind.
    + eapply logs_weaken; [apply run_tools_logs|]. intros r Hr. now right.
    + apply run_tools_appends.
    + intros st (new & Hst & _). eapply logs_weaken; [apply IH|].
      intros r Hr. rewrite Hst, <- app_assoc in Hr.
      exact (turn_request_longer _ _ _ Hr).
Qed.

(** ** Turns with a reasoning model: what is not caught *)

Lemma chat_raises (E : env) (fuel : nat) (req : ChatRequest) (log log' : list request)
  (e : exn) :
  OPENAI_API_KEY E <> "" ->
  tool_loop E fuel (initial_messages E (req_messages req) (request_preferences req))
    (request_preferences req) log = (Raise e, log') ->
  chat E fuel req log = (Raise e, log').
Proof.
  intros Hkey Hloop. unfold chat, openai_chat_with_tools. fold (request_preferences req).
  rewrite (key_set _ Hkey). now rewrite (bind_raise_eq _ _ _ _ _ Hloop).
Qed.

(** X17. With a reasoning model, a failure of the provider call is not
    caught: a transport failure makes the turn raise the transport error,
    and a reply with a status below 400 whose body is not JSON makes it
    raise the decoding error, each after the one request. No response is
    produced. *)
Theorem provider_faults_escape
  (E : env) (fuel : nat) (req : ChatRequest) (log : list request) :
  OPENAI_API_KEY E <> "" ->
  (forall msg,
     requests_post E log
       (chat_request E (initial_messages E (req_messages req) (request_preferences req)))
     = Failed msg ->
     chat E (S fuel) req log
     = (Raise (TransportError msg),
        (log ++ [chat_request E (initial_messages E (req_messages req)
                                   (request_preferences req))])%list))
  /\ (forall r,
        requests_post E log
          (chat_request E (initial_messages E (req_messages req) (request_preferences req)))
        = Responded r ->
        status_code r < 400 ->
        json_loads E (text r) = None ->
        chat E (S fuel) req log
        = (Raise (JSONDecodeError (text r)),
           (log ++ [chat_request E (initial_messages E (req_messages req)
                                      (request_preferences req))])%list)).
Proof.
  intros Hkey. split.
  - intros msg Hnet. apply chat_raises; [exact Hkey|].
    cbn [tool_loop]. unfold post. unfold chat_request in Hnet.
    unfold bind at 1. now rewrite Hnet.
  - intros r Hnet Hst Hbody. apply chat_raises; [exact Hkey|].
    cbn [tool_loop]. unfold bind at 1. rewrite (post_responded _ _ _ _ Hnet).
    apply Z.leb_gt in Hst. rewrite Hst.
    unfold bind at 1. unfold resp_json, lift, loads. now rewrite Hbody.
Qed.

Lemma provider_faults_escape_witness :
  chat unreachable_env 1 hello []
  = (Raise (TransportError "Read timed out."),
     ([] ++ [chat_request unreachable_env
               (initial_messages unreachable_env (req_messages hello)
                  (request_preferences hello))])%list).
Proof.
  apply (proj1 (provider_faults_escape unreachable_env 0 hello [] ltac:(discriminate))).
  reflexivity.
Defined.

Lemma tool_loop_reply (E : env) (fuel : nat) (oai_messages : list pyval) (prefs : dict)
  (log : list request) (r : response) (body : pyval) :
  requests_post E log (chat_request E oai_messages) = Responded r ->
  status_code r < 400 ->
  json_loads E (text r) = Some body ->
  tool_loop E (S fuel) oai_messages prefs log
  = bind (lift (py_get body "choices" (PList [PDict []])))
      (fun choices =>
         choice <- lift (py_first choices) ;;
         message <- lift (py_get choice "message" (PDict [])) ;;
         tool_calls <- lift (py_get message "tool_calls" PNone) ;;
         if truthy tool_calls then
           tcs <- lift (py_iter tool_calls) ;;
           st <- run_tools E tcs oai_messages prefs ;;
           tool_loop E fuel (fst st ++ [updated_note E (snd st)])%list (snd st)
         else
           assistant_content <- lift (py_get message "content" (PStr "")) ;;
           ret {| assistant_message := assistant_content; preferences := prefs |})
      (log ++ [chat_request E oai_messages])%list.
Proof.
  intros Hnet Hst Hbody. cbn [tool_loop].
  unfold bind at 1. rewrite (post_responded _ _ _ _ Hnet).
  apply Z.leb_gt in Hst. rewrite Hst.
  unfold bind at 1. unfold resp_json, lift at 1, loads. rewrite Hbody. reflexivity.
Qed.

(** X18. With a reasoning model, a reply the orchestrator cannot use makes
    the turn raise instead of answering: a reply without tool calls whose
    content is null fails the validation of the assistant message; a reply
    whose list of choices is empty raises an index error; a tool call whose
    arguments are not JSON raises the decoding error before any tool runs. *)
Theorem unusable_replies_escape
  (E : env) (fuel : nat) (req : ChatRequest) (log : list request)
  (r : response) (body : pyval) :
  OPENAI_API_KEY E <> "" ->
  requests_post E log
    (chat_request E (initial_messages E (req_messages req) (request_preferences req)))
  = Responded r ->
  status_code r < 400 ->
  json_loads E (text r) = Some body ->
  (forall m,
     first_message body = Some m ->
     truthy (dict_get_or "tool_calls" m PNone) = false ->
     dict_get "content" m = Some PNone ->
     chat E (S fuel) req log
     = (Raise (ValidationError "content"),
        (log ++ [chat_request E (initial_messages E (req_messages req)
                                   (request_preferences req))])%list))
  /\ (forall d,
        body = PDict d ->
        dict_get "choices" d = Some (PList []) ->
        chat E (S fuel) req log
        = (Raise IndexError,
           (log ++ [chat_request E (initial_messages E (req_messages req)
                                      (request_preferences req))])%list))
  /\ (forall m tc tcs name args id,
        first_message body = Some m ->
        dict_get "tool_calls" m = Some (PList (tc :: tcs)) ->
        is_call tc name args id ->
        json_loads E args = None ->
        chat E (S fuel) req log
        = (Raise (JSONDecodeError args),
           (log ++ [chat_request E (initial_messages E (req_messages req)
                                      (request_preferences req))])%list)).
Proof.
  intros Hkey Hnet Hst Hbody. repeat split.
  - intros m Hm Hnone Hcontent.
    unfold chat, openai_chat_with_tools. fold (request_preferences req).
    rewrite (key_set _ Hkey).
    erewrite bind_ok_eq
      by (apply (tool_loop_text E fuel _ _ log r body m Hnet Hst Hbody Hm Hnone)).
    cbn [assistant_message]. unfold dict_get_or. rewrite Hcontent. reflexivity.
  - intros d -> Hchoices. apply chat_raises; [exact Hkey|].
    rewrite (tool_loop_reply E fuel _ _ log r _ Hnet Hst Hbody).
    cbv [bind lift]. cbn [py_get]. unfold dict_get_or. rewrite Hchoices. reflexivity.
  - intros m tc tcs name args id Hm Hcalls (t & f & -> & Hf & Hname & Hargs & Hid) Hloads.
    apply chat_raises; [exact Hkey|].
    rewrite (tool_loop_reply E fuel _ _ log r _ Hnet Hst Hbody).
    apply first_message_path in Hm as (d & c & rest & -> & Hc & Hmsg).
    assert (Htc : dict_get_or "tool_calls" m PNone = PList (PDict t :: tcs))
      by (unfold dict_get_or; now rewrite Hcalls).
    assert (Hraw : dict_get_or "arguments" f (PStr "{}") = PStr args)
      by (unfold dict_get_or; now rewrite Hargs).
    cbv [bind lift]. cbn [py_get]. rewrite Hc. cbn [py_first py_get]. rewrite Hmsg.
    cbn [py_get]. rewrite Htc. cbn [truthy py_iter run_tools].
    unfold run_tool. cbv [bind lift]. cbn [py_getitem]. rewrite Hf.
    cbn [py_getitem]. rewrite Hname. cbn [py_get]. rewrite Hraw.
    unfold loads. rewrite Hloads. reflexivity.
Qed.

Lemma unusable_replies_escape_witness :
  chat null_env 1 hello []
  = (Raise (ValidationError "content"),
     ([] ++ [chat_request null_env
               (initial_messages null_env (req_messages hello)
                  (request_preferences hello))])%list).
Proof.
  apply (proj1 (unusable_replies_escape null_env 0 hello []
                  {| status_code := 200; text := demo_dumps null_reply |} null_reply
                  ltac:(discriminate) eq_refl eq_refl ltac:(vm_compute; reflexivity))
          [("role", PStr "assistant"); ("content", PNone)]);
    reflexivity.
Defined.

(** ** The summarize_news tool *)

Lemma dict_get_setdefault (k k' : string) (v : pyval) (d : dict) :
  dict_get k (dict_setdefault k' v d)
  = if String.eqb k k'
    then match dict_get k d with Some x => Some x | None => Some v end
    else dict_get k d.
Proof.
  unfold dict_setdefault, dict_mem.
  destruct (String.eqb_spec k k') as [->|Hne].
  - destruct (dict_get k' d) eqn:Hk; [now rewrite Hk | apply dict_get_set_same].
  - destruct (dict_get k' d); [reflexivity|].
    apply dict_get_set_other. congruence.
Qed.

Lemma keys_dict_set (p : string -> bool) (k : string) (v : pyval) (d : dict) :
  forallb (fun kv => p (fst kv)) d = true -> p k = true ->
  forallb (fun kv => p (fst kv)) (dict_set k v d) = true.
Proof.
  intros Hd Hk. induction d as [|[k0 v0] d IH]; cbn [dict_set forallb fst].
  - now rewrite Hk.
  - cbn [forallb fst] in Hd. apply andb_true_iff in Hd as [H0 Hd].
    destruct (String.eqb k k0); cbn [forallb fst]; rewrite H0; [exact Hd | now apply IH].
Qed.

Lemma keys_setdefault (p : string -> bool) (k : string) (v : pyval) (d : dict) :
  forallb (fun kv => p (fst kv)) d = true -> p k = true ->
  forallb (fun kv => p (fst kv)) (dict_setdefault k v d) = true.
Proof.
  intros Hd Hk. unfold dict_setdefault.
  destruct (dict_mem k d); [exact Hd | now apply keys_dict_set].
Qed.

Lemma mem_setdefault (k k' : string) (v : pyval) (d : dict) :
  dict_mem k d = true -> dict_mem k (dict_setdefault k' v d) = true.
Proof.
  unfold dict_mem. rewrite dict_get_setdefault.
  destruct (String.eqb k k'); destruct (dict_get k d); congruence.
Qed.

(** X19. A summarize_news tool call with well-formed arguments runs the
    summarization adapter on its items, and each style argument is the one
    the call gives (also a null), else the stored preference (interaction
    for style, format for format_, language, tone), else the default
    "concise", "bullet points", "English", "neutral". The preferences are
    not changed. *)
Theorem summarize_tool_fills_style (E : env) (fargs prefs : dict) (log : list request) :
  forallb (fun kv => existsb (String.eqb (fst kv))
                       ["items"; "style"; "format_"; "language"; "tone"]) fargs = true ->
  dict_mem "items" fargs = true ->
  dispatch E (PStr "summarize_news") (PDict fargs) prefs log
  = bind (summarize_news E (dict_get_or "items" fargs PNone)
            (style_argument fargs prefs "style" "interaction" "concise")
            (style_argument fargs prefs "format_" "format" "bullet points")
            (style_argument fargs prefs "language" "language" "English")
            (style_argument fargs prefs "tone" "tone" "neutral"))
         (fun result => ret (PDict result, prefs)) log.
Proof.
  intros Hkeys Hitems. unfold dispatch.
  cbn [is_name String.eqb Ascii.eqb Bool.eqb]. cbv zeta.
  set (d4 := dict_setdefault "tone" _ (dict_setdefault "language" _
               (dict_setdefault "format_" _ (dict_setdefault "style" _ fargs)))).
  assert (Hbind : bind_kwargs ["items"; "style"; "format_"; "language"; "tone"] ["items"]
                    (PDict d4) = Ok d4).
  { unfold bind_kwargs.
    replace (forallb (fun kv => existsb (String.eqb (fst kv))
                                  ["items"; "style"; "format_"; "language"; "tone"]) d4)
      with true.
    - cbn [forallb].
      replace (dict_mem "items" d4) with true; [reflexivity|].
      symmetry. unfold d4. repeat apply mem_setdefault. exact Hitems.
    - symmetry. unfold d4.
      repeat apply (keys_setdefault
                      (fun k => existsb (String.eqb k)
                                  ["items"; "style"; "format_"; "language"; "tone"]));
        try reflexivity. exact Hkeys. }
  unfold bind at 1. unfold lift. rewrite Hbind.
  assert (Hi : dict_get_or "items" d4 PNone = dict_get_or "items" fargs PNone)
    by (unfold dict_get_or, d4; rewrite !dict_get_setdefault; reflexivity).
  assert (Hs : dict_get_or "style" d4 (PStr "concise")
               = style_argument fargs prefs "style" "interaction" "concise")
    by (unfold dict_get_or at 1; unfold style_argument, d4; rewrite !dict_get_setdefault;
        cbn [String.eqb Ascii.eqb Bool.eqb]; now destruct (dict_get "style" fargs)).
  assert (Hf : dict_get_or "format_" d4 (PStr "bullet points")
               = style_argument fargs prefs "format_" "format" "bullet points")
    by (unfold dict_get_or at 1; unfold style_argument, d4; rewrite !dict_get_setdefault;
        cbn [String.eqb Ascii.eqb Bool.eqb]; now destruct (dict_get "format_" fargs)).
  assert (Hl : dict_get_or "language" d4 (PStr "English")
               = style_argument fargs prefs "language" "language" "English")
    by (unfold dict_get_or at 1; unfold style_argument, d4; rewrite !dict_get_setdefault;
        cbn [String.eqb Ascii.eqb Bool.eqb]; now destruct (dict_get "language" fargs)).
  assert (Ht : dict_get_or "tone" d4 (PStr "neutral")
               = style_argument fargs prefs "tone" "tone" "neutral")
    by (unfold dict_get_or at 1; unfold style_argument, d4; rewrite !dict_get_setdefault;
        cbn [String.eqb Ascii.eqb Bool.eqb]; now destruct (dict_get "tone" fargs)).
  rewrite Hi, Hs, Hf, Hl, Ht. reflexivity.
Qed.

Lemma summarize_tool_fills_style_witness :
  dispatch offline_env (PStr "summarize_news")
    (PDict [("items", PList []); ("tone", PNone)]) four_styles []
  = bind (summarize_news offline_env
            (dict_get_or "items" [("items", PList []); ("tone", PNone)] PNone)
            (style_argument [("items", PList []); ("tone", PNone)] four_styles
               "style" "interaction" "concise")
            (style_argument [("items", PList []); ("tone", PNone)] four_styles
               "format_" "format" "bullet points")
            (style_argument [("items", PList []); ("tone", PNone)] four_styles
               "language" "language" "English")
            (style_argument [("items", PList []); ("tone", PNone)] four_styles
               "tone" "tone" "neutral"))
         (fun result => ret (PDict result, four_styles)) [].
Proof.
  apply (summarize_tool_fills_style offline_env [("items", PList []); ("tone", PNone)]
           four_styles []); reflexivity.
Defined.

(** ** The fetch tool and batches without a save *)

(** X20. An exa_news_fetch tool call with a topic never raises: it runs
    the retrieval adapter with the count the model gives, or 5 when it gives
    none, and the count goes into the search request as it is, whatever its
    value; the preferences are not changed. A call without a topic, or
    with any other argument name, raises a type error before any request is
    sent. *)
Theorem fetch_tool_passes_count (E : env) (fargs prefs : dict) (log : list request) :
  (forallb (fun kv => existsb (String.eqb (fst kv)) ["topic"; "num_results"]) fargs = true ->
   dict_mem "topic" fargs = true ->
   exists fetched,
     dispatch E (PStr "exa_news_fetch") (PDict fargs) prefs log
     = (Ok (PDict fetched, prefs),
        if String.eqb (EXA_API_KEY E) "" then log
        else (log ++ [exa_request E (dict_get_or "topic" fargs PNone)
                        (dict_get_or "num_results" fargs (PInt 5))])%list)
     /\ fetch_shape fetched)
  /\ (forallb (fun kv => existsb (String.eqb (fst kv)) ["topic"; "num_results"]) fargs
      && dict_mem "topic" fargs = false ->
      dispatch E (PStr "exa_news_fetch") (PDict fargs) prefs log
      = (Raise (TypeError "unexpected or missing keyword argument"), log)).
Proof.
  unfold dispatch. cbn [is_name String.eqb Ascii.eqb Bool.eqb].
  unfold bind at 1 3. unfold lift, bind_kwargs. cbn [forallb]. split.
  - intros Hkeys Htopic. rewrite Hkeys, Htopic. cbn [andb].
    destruct (exa_news_fetch_run E (dict_get_or "topic" fargs PNone)
                (dict_get_or "num_results" fargs (PInt 5)) log) as (fetched & Hrun & Hshape).
    exists fetched. split; [|exact Hshape].
    now rewrite (bind_ok_eq _ _ _ _ _ Hrun).
  - intros H. rewrite andb_true_r. now rewrite H.
Qed.

Lemma run_tool_without_save (E : env) (tc : pyval) (oai_messages : list pyval)
  (prefs : dict) :
  asks_save tc = false ->
  ensures (run_tool E tc oai_messages prefs) (fun st => snd st = prefs).
Proof.
  intros Hno. unfold run_tool, asks_save in *.
  eapply ensures_bind.
  { apply ensures_lift with (P := fun fn => py_getitem tc "function" = Ok fn). auto. }
  intros fn Hfn. rewrite Hfn in Hno.
  eapply ensures_bind.
  { apply ensures_lift with (P := fun fname => py_getitem fn "name" = Ok fname). auto. }
  intros fname Hname. rewrite Hname in Hno.
  do 2 (eapply ensures_bind; [apply ensures_any|]; intros ? _).
  eapply ensures_bind; [apply dispatch_writes_on_save_only|].
  intros out [Hout | [Hsave _]]; [|congruence].
  eapply ensures_bind; [apply ensures_any|]. intros ? _.
  now apply ensures_ret.
Qed.

(** X21. Only save_preferences writes: a batch of tool calls none of
    which names save_preferences (fetches, summaries, unknown tools) leaves
    the preferences exactly as they were, whatever the tools return. *)
Theorem batch_without_save_keeps_preferences
  (E : env) (tcs : list pyval) (oai_messages : list pyval) (prefs : dict)
  (log log' : list request) (st : list pyval * dict) :
  forallb (fun tc => negb (asks_save tc)) tcs = true ->
  run_tools E tcs oai_messages prefs log = (Ok st, log') ->
  snd st = prefs.
Proof.
  intros Hno. revert oai_messages log st. induction tcs as [|tc tcs IH]; intros ms log st.
  - cbn [run_tools]. intros H. now inversion H.
  - cbn [forallb] in Hno. apply andb_true_iff in Hno as [Htc Hrest].
    apply negb_true_iff in Htc.
    cbn [run_tools]. intros H. apply bind_ok in H as (st1 & log1 & Hrun1 & Hrun).
    rewrite (run_tool_without_save E tc ms prefs Htc _ _ _ Hrun1) in Hrun.
    exact (IH Hrest _ _ _ Hrun).
Qed.

Lemma batch_without_save_keeps_preferences_witness :
  snd ([tool_message tools_env (PDict [("error", PStr "Unknown tool noop")]) (PStr "call_1");
        tool_message tools_env (PDict [("error", PStr "Missing EXA_API_KEY")]) (PStr "call_2")],
       four_styles)
  = four_styles.
Proof.
  apply (batch_without_save_keeps_preferences tools_env
           [call "call_1" "noop" (PDict []); call "call_2" "exa_news_fetch" fetch_args]
           [] four_styles [] []).
  - reflexivity.
  - vm_compute. reflexivity.
Defined.

Lemma fetch_tool_passes_count_witness :
  exists fetched,
    dispatch retrieval_env (PStr "exa_news_fetch")
      (PDict [("topic", PStr "ai"); ("num_results", PInt 50)]) four_styles []
    = (Ok (PDict fetched, four_styles),
       if String.eqb (EXA_API_KEY retrieval_env) "" then []
       else ([] ++ [exa_request retrieval_env
                      (dict_get_or "topic" [("topic", PStr "ai"); ("num_results", PInt 50)]
                         PNone)
                      (dict_get_or "num_results"
                         [("topic", PStr "ai"); ("num_results", PInt 50)] (PInt 5))])%list)
    /\ fetch_shape fetched.
Proof.
  apply (proj1 (fetch_tool_passes_count retrieval_env
                  [("topic", PStr "ai"); ("num_results", PInt 50)] four_styles []));
    reflexivity.
Defined.

Lemma save_preferences_on_non_objects_witness :
  save_preferences (PInt 5) four_styles = Raise (TypeError "argument is not iterable").
Proof.
  apply (proj1 (save_preferences_on_non_objects (PInt 5) four_styles)). reflexivity.
Defined.

(** ** Requests to the reasoning model, spelled out *)

Lemma chat_request_spelled (E : env) (transcript : list pyval) :
  chat_request E transcript = model_request E transcript.
Proof. reflexivity. Qed.

Lemma initial_messages_spelled (E : env) (msgs : list Message) (prefs : dict) :
  initial_messages E msgs prefs = opening E msgs prefs.
Proof. reflexivity. Qed.

Lemma updated_note_spelled (E : env) (prefs : dict) :
  updated_note E prefs = system_note E prefs.
Proof. reflexivity. Qed.

(** ** The requests of a turn, one after the other *)

Lemma grows_adapters (E : env) (last : list pyval) (new rest : list request) :
  Forall adapter_request new -> grows E last rest -> grows E last (new ++ rest)%list.
Proof.
  induction 1 as [|r new Hr _ IH]; intros Hrest; cbn [app]; [exact Hrest|].
  apply grows_adapter; auto.
Qed.

Lemma traces_quiet {A} (m : M A) (T : list request -> Prop) :
  quiet m -> T [] -> traces m T.
Proof. intros Hq HT log. exists []. rewrite Hq, app_nil_r. now split. Qed.

Lemma traces_after_quiet {A B} (m : M A) (k : A -> M B) (T : list request -> Prop) :
  quiet m -> T [] -> (forall a, traces (k a) T) -> traces (bind m k) T.
Proof.
  intros Hq HT Hk log. unfold bind. specialize (Hq log).
  destruct (m log) as [[a|e|] log1]; cbn [snd] in Hq; subst log1.
  - apply Hk.
  - exists []. rewrite app_nil_r. now split.
  - exists []. rewrite app_nil_r. now split.
Qed.

Lemma traces_bind {A B} (m : M A) (k : A -> M B) (P : request -> Prop) (Q : A -> Prop)
  (T2 : A -> list request -> Prop) (T : list request -> Prop) :
  logs m P ->
  ensures m Q ->
  (forall a, Q a -> traces (k a) (T2 a)) ->
  (forall new, Forall P new -> T new) ->
  (forall a new1 new2, Q a -> Forall P new1 -> T2 a new2 -> T (new1 ++ new2)%list) ->
  traces (bind m k) T.
Proof.
  intros Hm Hq Hk Hstop Hjoin log. destruct (Hm log) as (new1 & Hlog1 & Hnew1).
  unfold bind. destruct (m log) as [[a|e|] log1] eqn:Hrun; cbn [snd] in Hlog1; subst log1.
  - destruct (Hk a (Hq _ _ _ Hrun) (log ++ new1)%list) as (new2 & Hlog2 & Hnew2).
    exists (new1 ++ new2)%list. rewrite Hlog2, app_assoc. split; [reflexivity|].
    eapply Hjoin; eauto.
  - exists new1. split; [reflexivity | auto].
  - exists new1. split; [reflexivity | auto].
Qed.

(** What the loop sends with a budget of [fuel] calls to the model. *)
Lemma tool_loop_trace (E : env) (fuel : nat) (oai_messages : list pyval) (prefs : dict) :
  traces (tool_loop E fuel oai_messages prefs)
         (fun new => match fuel with
                     | O => new = []
                     | S _ => opened E oai_messages new
                     end).
Proof.
  revert oai_messages prefs. induction fuel as [|fuel IH]; intros ms prefs.
  - apply traces_quiet; [apply quiet_lift | reflexivity].
  - cbn [tool_loop].
    assert (Hrest : forall resp,
               traces
                 (if 400 <=? status_code resp then
                    ret {| assistant_message := PStr (diagnostic E resp); preferences := prefs |}
                  else
                    data <- resp_json E resp ;;
                    choices <- lift (py_get data "choices" (PList [PDict []])) ;;
                    choice <- lift (py_first choices) ;;
                    message <- lift (py_get choice "message" (PDict [])) ;;
                    tool_calls <- lift (py_get message "tool_calls" PNone) ;;
                    if truthy tool_calls then
                      tcs <- lift (py_iter tool_calls) ;;
                      st <- run_tools E tcs ms prefs ;;
                      tool_loop E fuel (fst st ++ [updated_note E (snd st)])%list (snd st)
                    else
                      assistant_content <- lift (py_get message "content" (PStr "")) ;;
                      ret {| assistant_message := assistant_content; preferences := prefs |})
                 (grows E ms)).
    { intros resp.
      destruct (400 <=? status_code resp);
        [apply traces_quiet; [apply quiet_ret | constructor]|].
      unfold resp_json.
      do 5 (apply traces_after_quiet; [apply quiet_lift | constructor | intros ?]).
      destruct (truthy _); [|apply traces_quiet; [quiet_auto | constructor]].
      apply traces_after_quiet; [apply quiet_lift | constructor | intros tcs].
      eapply traces_bind with
        (P := adapter_request)
        (Q := fun st => exists new, fst st = (ms ++ new)%list /\ Forall2 answers_call tcs new)
        (T2 := fun st new =>
                 match fuel with
                 | O => new = []
                 | S _ => opened E (fst st ++ [updated_note E (snd st)])%list new
                 end).
      - apply run_tools_logs.
      - apply run_tools_appends.
      - intros st _. apply IH.
      - intros new Hnew. rewrite <- (app_nil_r new).
        apply grows_adapters; [exact Hnew | constructor].
      - intros st new1 new2 (entries & Hst & _) Hnew1 Hnew2.
        apply grows_adapters; [exact Hnew1|].
        destruct fuel as [|fuel']; [subst new2; constructor|].
        destruct Hnew2 as (rest & -> & Hgrows).
        rewrite Hst, <- app_assoc in Hgrows |- *.
        apply grows_model; [|exact Hgrows].
        destruct entries; discriminate. }
    intros log. unfold bind.
    pose proof (post_snd E chat_url (openai_headers E) (chat_payload ms) 60 log) as Hpost.
    destruct (post E chat_url (openai_headers E) (chat_payload ms) 60 log)
      as [[resp|e|] log1]; cbn [snd] in Hpost; subst log1.
    + destruct (Hrest resp (log ++ [model_request E ms])%list) as (rest & Hlog & Hgrows).
      exists (model_request E ms :: rest). split.
      * etransitivity; [exact Hlog|]. now rewrite <- app_assoc.
      * exists rest. now split.
    + exists [model_request E ms]. split; [reflexivity|].
      exists []. split; [reflexivity | constructor].
    + exists [model_request E ms]. split; [reflexivity|].
      exists []. split; [reflexivity | constructor].
Qed.

(** X16. With a reasoning model, whatever the outcome of the turn, the
    requests of a turn come in this order. The first goes to the chat
    completions endpoint with the credential, the model gpt-4o, the schema
    of the three tools, a time-out of 60 and the transcript made of the
    instruction, the caller's messages in order and the note on the
    caller's preferences. Every later request either goes to one of the two
    adapters' endpoints, or is again a request to the model whose transcript
    is the transcript of the previous request to the model followed by at
    least one more entry: the model always sees the whole history, and
    earlier calls stay in the log. *)
Theorem model_always_sees_history
  (E : env) (fuel : nat) (req : ChatRequest) (log : list request) :
  OPENAI_API_KEY E <> "" ->
  exists rest,
    snd (chat E (S fuel) req log)
    = (log ++ model_request E (opening E (req_messages req) (request_preferences req))
           :: rest)%list
    /\ grows E (opening E (req_messages req) (request_preferences req)) rest.
Proof.
  intros Hkey. unfold chat. fold (request_preferences req).
  rewrite bind_quiet_snd by (intros result; quiet_auto).
  unfold openai_chat_with_tools. rewrite (key_set _ Hkey).
  destruct (tool_loop_trace E (S fuel)
              (initial_messages E (req_messages req) (request_preferences req))
              (request_preferences req) log) as (new & Hlog & rest & -> & Hgrows).
  exists rest. split; [exact Hlog | exact Hgrows].
Qed.

Lemma model_always_sees_history_witness :
  exists rest,
    snd (chat batch_env 2 hello [])
    = ([] ++ model_request batch_env
               (opening batch_env (req_messages hello) (request_preferences hello))
          :: rest)%list
    /\ grows batch_env (opening batch_env (req_messages hello) (request_preferences hello))
         rest.
Proof.
  apply (model_always_sees_history batch_env 1 hello []). discriminate.
Defined.

(** ** Batches of tool calls, call by call *)

(** One well-formed call: its tool runs on the decoded arguments, and the
    result is appended under the call's token. *)
Lemma run_tool_call (E : env) (tc : pyval) (name args : string) (id fargs result : pyval)
  (oai_messages : list pyval) (prefs prefs1 : dict) (log log1 : list request) :
  is_call tc name args id ->
  json_loads E args = Some fargs ->
  dispatch E (PStr name) fargs prefs log = (Ok (result, prefs1), log1) ->
  run_tool E tc oai_messages prefs log
  = (Ok ((oai_messages ++ [tool_message E result id])%list, prefs1), log1).
Proof.
  intros (t & f & -> & Hf & Hname & Hargs & Hid) Hloads Hrun.
  assert (Hraw : dict_get_or "arguments" f (PStr "{}") = PStr args)
    by (unfold dict_get_or; now rewrite Hargs).
  unfold run_tool. cbv [bind lift ret]. cbn [py_getitem]. rewrite Hf.
  cbn [py_getitem]. rewrite Hname. cbn [py_get]. rewrite Hraw.
  unfold loads. rewrite Hloads, Hrun. cbn [fst snd]. rewrite Hid. reflexivity.
Qed.

Lemma in_order_run_tools (E : env) (tcs : list pyval) (ms : list pyval) (prefs : dict)
  (log : list request) (ms' : list pyval) (prefs' : dict) (log' : list request) :
  in_order E tcs ms prefs log ms' prefs' log' ->
  run_tools E tcs ms prefs log = (Ok (ms', prefs'), log').
Proof.
  induction 1 as [ms prefs log
                 |tc tcs name args id fargs result ms prefs log prefs1 log1 ms' prefs' log'
                    Hcall Hloads Hrun _ IH]; cbn [run_tools].
  - reflexivity.
  - unfold bind. rewrite (run_tool_call E tc name args id fargs result ms prefs prefs1
                            log log1 Hcall Hloads Hrun).
    exact IH.
Qed.

Lemma dispatch_save (E : env) (updates prefs : dict) (log : list request) :
  dispatch E (PStr "save_preferences") (PDict updates) prefs log
  = (Ok (saved (store_apply prefs updates), store_apply prefs updates), log).
Proof.
  unfold dispatch. cbn [is_name String.eqb Ascii.eqb Bool.eqb].
  cbv [bind lift ret]. now rewrite save_preferences_apply.
Qed.

Lemma saves_in_order (E : env) (tcs : list pyval) (batch : list (pyval * dict))
  (ms : list pyval) (prefs : dict) (log : list request) :
  Forall2 (is_save E) tcs batch ->
  in_order E tcs ms prefs log
    (ms ++ fst (saves E prefs batch))%list (snd (saves E prefs batch)) log.
Proof.
  intros H. revert ms prefs.
  induction H as [|tc [id updates] tcs batch (args & Hcall & Hloads) _ IH];
    intros ms prefs; cbn [saves fst snd].
  - rewrite app_nil_r. constructor.
  - cbn [fst snd] in Hcall, Hloads.
    eapply in_order_call; [exact Hcall | exact Hloads | apply dispatch_save |].
    replace (ms ++ tool_message E (saved (store_apply prefs updates)) id
                :: fst (saves E (store_apply prefs updates) batch))%list
      with ((ms ++ [tool_message E (saved (store_apply prefs updates)) id])
            ++ fst (saves E (store_apply prefs updates) batch))%list
      by (now rewrite <- app_assoc).
    apply IH.
Qed.

(** C5. Tool calls of one reply run in the order received, whatever their
    number. (1) A batch is taken call by call in the order given: each call
    runs its tool on the transcript, preferences and call log the calls
    before it left, and appends its result under its token. (2) After the
    batch the transcript gets one system entry with the updated
    preferences, and the orchestrator calls the model again with that
    transcript before it can produce a text. (3) A batch of saves, of any
    length, applies the updates one after the other, each tool result
    showing the preferences merged so far. (4) When the model asks for
    save_preferences(tone="formal") and then, in the same batch,
    save_preferences(topics="tech,sports"), the first tool result reports
    the preferences with the new tone, the second reports them with the
    topics ["tech", "sports"] as well, the second request to the model
    carries both results and the system entry, and the turn returns the
    model's text with tone "formal" and topics ["tech", "sports"] stored. *)
Theorem tool_calls_run_in_order_received (E : env) :
  (forall tcs ms prefs log ms' prefs' log',
     in_order E tcs ms prefs log ms' prefs' log' ->
     run_tools E tcs ms prefs log = (Ok (ms', prefs'), log'))
  /\ (forall fuel ms prefs log r body m tc tcs ms' prefs' log',
        requests_post E log (model_request E ms) = Responded r ->
        status_code r < 400 ->
        json_loads E (text r) = Some body ->
        first_message body = Some m ->
        dict_get "tool_calls" m = Some (PList (tc :: tcs)) ->
        in_order E (tc :: tcs) ms prefs (log ++ [model_request E ms])%list ms' prefs' log' ->
        tool_loop E (S (S fuel)) ms prefs log
        = tool_loop E (S fuel) (ms' ++ [system_note E prefs'])%list prefs' log'
        /\ exists rest,
             snd (tool_loop E (S (S fuel)) ms prefs log)
             = (log' ++ model_request E (ms' ++ [system_note E prefs'])%list :: rest)%list)
  /\ (forall tcs batch ms prefs log,
        Forall2 (is_save E) tcs batch ->
        run_tools E tcs ms prefs log
        = (Ok ((ms ++ fst (saves E prefs batch))%list, snd (saves E prefs batch)), log))
  /\ (forall fuel msgs prefs log r1 r2 body1 body2 m1 m2 tc1 tc2 id1 id2 args1 args2,
        let first := opening E msgs prefs in
        let prefs1 := dict_set "tone" (PStr "formal") prefs in
        let prefs2 := dict_set "topics" (PList [PStr "tech"; PStr "sports"]) prefs1 in
        let second :=
          (first ++ [tool_message E (saved prefs1) id1; tool_message E (saved prefs2) id2;
                     system_note E prefs2])%list in
        OPENAI_API_KEY E <> "" ->
        requests_post E log (model_request E first) = Responded r1 ->
        status_code r1 < 400 ->
        json_loads E (text r1) = Some body1 ->
        first_message body1 = Some m1 ->
        dict_get "tool_calls" m1 = Some (PList [tc1; tc2]) ->
        is_call tc1 "save_preferences" args1 id1 ->
        json_loads E args1 = Some (PDict [("tone", PStr "formal")]) ->
        is_call tc2 "save_preferences" args2 id2 ->
        json_loads E args2 = Some (PDict [("topics", PStr "tech,sports")]) ->
        requests_post E (log ++ [model_request E first])%list (model_request E second)
        = Responded r2 ->
        status_code r2 < 400 ->
        json_loads E (text r2) = Some body2 ->
        first_message body2 = Some m2 ->
        truthy (dict_get_or "tool_calls" m2 PNone) = false ->
        openai_chat_with_tools E (S (S fuel)) msgs prefs log
        = (Ok {| assistant_message := dict_get_or "content" m2 (PStr "");
                 preferences := prefs2 |},
           (log ++ [model_request E first; model_request E second])%list)
        /\ dict_get "tone" prefs2 = Some (PStr "formal")
        /\ dict_get "topics" prefs2 = Some (PList [PStr "tech"; PStr "sports"])).
Proof.
  split; [|split; [|split]].
  - apply in_order_run_tools.
  - intros fuel ms prefs log r body m tc tcs ms' prefs' log' Hnet Hst Hbody Hm Hcalls Hrun.
    apply in_order_run_tools in Hrun.
    pose proof (tool_loop_calls E (S fuel) ms prefs log r body m tc tcs ms' prefs' log'
                  Hnet Hst Hbody Hm Hcalls Hrun) as Hstep.
    split; [exact Hstep|]. rewrite Hstep.
    destruct (tool_loop_trace E (S fuel) (ms' ++ [system_note E prefs'])%list prefs' log')
      as (new & Hlog & rest & -> & _).
    exists rest. exact Hlog.
  - intros tcs batch ms prefs log H. apply in_order_run_tools. now apply saves_in_order.
  - intros fuel msgs prefs log r1 r2 body1 body2 m1 m2 tc1 tc2 id1 id2 args1 args2
           first prefs1 prefs2 second Hkey Hnet1 Hst1 Hbody1 Hm1 Hcalls Hc1 Ha1 Hc2 Ha2
           Hnet2 Hst2 Hbody2 Hm2 Hnone.
    split.
    + unfold openai_chat_with_tools. rewrite (openai_key_set E Hkey).
      change (initial_messages E msgs prefs) with first.
      rewrite (tool_loop_calls E (S fuel) first prefs log r1 body1 m1 tc1 [tc2]
                 (first ++ [tool_message E (saved prefs1) id1;
                            tool_message E (saved prefs2) id2])%list
                 prefs2 (log ++ [model_request E first])%list Hnet1 Hst1 Hbody1 Hm1 Hcalls).
      * rewrite <- app_assoc. cbn [app].
        change (first ++ [tool_message E (saved prefs1) id1;
                          tool_message E (saved prefs2) id2; updated_note E prefs2])%list
          with second.
        rewrite (tool_loop_text E fuel second prefs2 (log ++ [model_request E first])%list
                   r2 body2 m2 Hnet2 Hst2 Hbody2 Hm2 Hnone).
        rewrite <- app_assoc. reflexivity.
      * cbn [run_tools app]. unfold bind.
        rewrite (run_tool_save E tc1 args1 id1 _ _ _ _ Hc1 Ha1). cbn [fst snd].
        rewrite (run_tool_save E tc2 args2 id2 _ _ _ _ Hc2 Ha2). cbn [fst snd].
        rewrite <- app_assoc. reflexivity.
    + split.
      * unfold prefs2. rewrite dict_get_set_other by discriminate.
        apply dict_get_set_same.
      * apply dict_get_set_same.
Qed.

Lemma tool_calls_run_in_order_received_witness :
  (let prefs := [("theme", PStr "dark"); ("tone", PStr "casual")] in
   let first := opening batch_env (req_messages hello) prefs in
   let prefs1 := dict_set "tone" (PStr "formal") prefs in
   let prefs2 := dict_set "topics" (PList [PStr "tech"; PStr "sports"]) prefs1 in
   let second :=
     (first ++ [tool_message batch_env (saved prefs1) (PStr "call_1");
                tool_message batch_env (saved prefs2) (PStr "call_2");
                system_note batch_env prefs2])%list in
   openai_chat_with_tools batch_env 2 (req_messages hello) prefs []
   = (Ok {| assistant_message := PStr "Saved. Which language?"; preferences := prefs2 |},
      ([] ++ [model_request batch_env first; model_request batch_env second])%list)
   /\ dict_get "tone" prefs2 = Some (PStr "formal")
   /\ dict_get "topics" prefs2 = Some (PList [PStr "tech"; PStr "sports"]))
  /\ run_tools batch_env
       [call "call_1" "save_preferences" topics_update;
        call "call_2" "save_preferences" tone_update;
        call "call_3" "save_preferences" topics_update]
       [] [("tone", PStr "casual")] []
     = (Ok (([] ++ fst (saves batch_env [("tone", PStr "casual")]
                          [(PStr "call_1", [("topics", PStr "tech,sports")]);
                           (PStr "call_2", [("tone", PStr "formal")]);
                           (PStr "call_3", [("topics", PStr "tech,sports")])]))%list,
            snd (saves batch_env [("tone", PStr "casual")]
                   [(PStr "call_1", [("topics", PStr "tech,sports")]);
                    (PStr "call_2", [("tone", PStr "formal")]);
                    (PStr "call_3", [("topics", PStr "tech,sports")])])), []).
Proof.
  split.
  - apply (proj2 (proj2 (proj2 (tool_calls_run_in_order_received batch_env)))
             0%nat (req_messages hello)
             [("theme", PStr "dark"); ("tone", PStr "casual")] []
             {| status_code := 200; text := demo_dumps two_saves |}
             {| status_code := 200; text := demo_dumps final_text |}
             two_saves final_text
             [("role", PStr "assistant"); ("content", PNone);
              ("tool_calls", PList [call "call_1" "save_preferences" tone_update;
                                    call "call_2" "save_preferences" topics_update])]
             [("role", PStr "assistant"); ("content", PStr "Saved. Which language?")]
             (call "call_1" "save_preferences" tone_update)
             (call "call_2" "save_preferences" topics_update)
             (PStr "call_1") (PStr "call_2")
             (demo_dumps tone_update) (demo_dumps topics_update));
      try (vm_compute; reflexivity);
      try (vm_compute; discriminate);
      try (eexists _, _; repeat split; reflexivity).
  - apply (proj1 (proj2 (proj2 (tool_calls_run_in_order_received batch_env)))).
    repeat constructor;
      (eexists; split;
       [eexists _, _; repeat split; reflexivity | vm_compute; reflexivity]).
Defined.

(** ** Writes to the preferences during a turn *)

Lemma lift_ok {A} (r : res A) (log log' : list request) (a : A) :
  lift r log = (Ok a, log') -> r = Ok a /\ log' = log.
Proof. unfold lift. intros H. now inversion H. Qed.

Lemma py_getitem_ok (o : pyval) (k : string) (v : pyval) :
  py_getitem o k = Ok v -> exists d, o = PDict d /\ dict_get k d = Some v.
Proof.
  destruct o as [| | | | | |d]; try discriminate. cbn [py_getitem].
  destruct (dict_get k d) as [v'|] eqn:Hget; intros H; inversion H; subst. eauto.
Qed.

Lemma py_get_ok (o : pyval) (k : string) (dflt v : pyval) :
  py_get o k dflt = Ok v -> exists d, o = PDict d /\ v = dict_get_or k d dflt.
Proof. destruct o as [| | | | | |d]; intros H; inversion H. eauto. Qed.

(** Arguments that are not an object store nothing. *)
Lemma save_keys_non_dict (ks : list string) (fargs : pyval) (prefs prefs' : dict) :
  is_dict fargs = false -> save_keys ks fargs prefs = Ok prefs' -> prefs' = prefs.
Proof.
  intros Hd. revert prefs. induction ks as [|k ks IH]; intros prefs; cbn [save_keys].
  - intros H. now inversion H.
  - unfold save_key at 1.
    destruct fargs as [| | | |s|l|d]; cbn [py_contains res_bind]; try discriminate.
    + destruct (contains k s); cbn [res_bind py_getitem]; [discriminate | apply IH].
    + destruct (existsb _ l); cbn [res_bind py_getitem]; [discriminate | apply IH].
Qed.

Lemma save_preferences_effect (fargs : pyval) (prefs prefs' : dict) (k : string) :
  save_preferences fargs prefs = Ok prefs' ->
  dict_get k prefs' = dict_get k prefs
  \/ (In k recognized
      /\ exists updates v,
           fargs = PDict updates
           /\ stored_value updates k = Some v
           /\ dict_get k prefs' = Some v).
Proof.
  intros H. destruct (is_dict fargs) eqn:Hd.
  - destruct fargs as [| | | | | |updates]; try discriminate.
    rewrite save_preferences_apply in H. inversion H; subst prefs'; clear H.
    unfold store_apply. rewrite fold_store_get.
    destruct (existsb (String.eqb k) recognized) eqn:Hk; [|now left].
    destruct (stored_value updates k) as [v|] eqn:Hv; [|now left].
    right. split.
    + apply existsb_exists in Hk as (k' & Hin & Heq).
      apply String.eqb_eq in Heq. now subst k'.
    + exists updates, v. auto.
  - left. now rewrite (save_keys_non_dict _ _ _ _ Hd H).
Qed.

Lemma run_tool_effect (E : env) (tc : pyval) (oai_messages : list pyval) (prefs : dict)
  (log log' : list request) (st : list pyval * dict) (k : string) :
  run_tool E tc oai_messages prefs log = (Ok st, log') ->
  dict_get k (snd st) = dict_get k prefs
  \/ (In k recognized
      /\ exists updates v,
           save_call E tc updates
           /\ stored_value updates k = Some v
           /\ dict_get k (snd st) = Some v).
Proof.
  unfold run_tool. intros H.
  apply bind_ok in H as (fn & l1 & Hfn & H). apply lift_ok in Hfn as [Hfn ->].
  apply bind_ok in H as (fname & l1 & Hname & H). apply lift_ok in Hname as [Hname ->].
  apply bind_ok in H as (raw & l1 & Hraw & H). apply lift_ok in Hraw as [Hraw ->].
  apply bind_ok in H as (fargs & l1 & Hargs & H). apply lift_ok in Hargs as [Hargs ->].
  apply bind_ok in H as (out & l1 & Hout & H).
  apply bind_ok in H as (call_id & l2 & _ & H).
  unfold ret in H. inversion H; subst st log'; clear H. cbn [snd].
  apply py_getitem_ok in Hfn as (t & -> & Hf).
  apply py_getitem_ok in Hname as (f & -> & Hn).
  apply py_get_ok in Hraw as (f' & Hf' & ->). inversion Hf'; subst f'; clear Hf'.
  destruct (dispatch_writes_on_save_only E fname fargs prefs _ _ _ Hout)
    as [-> | [Hsave Hstore]]; [now left|].
  destruct (save_preferences_effect fargs prefs (snd out) k Hstore)
    as [Hsame | (Hin & updates & v & -> & Hv & Hget)]; [now left|].
  right. split; [exact Hin|]. exists updates, v. split; [|now split].
  destruct fname as [| | | |name| |]; try discriminate. cbn [is_name] in Hsave.
  apply String.eqb_eq in Hsave. subst name.
  destruct (dict_get_or "arguments" f (PStr "{}")) as [| | | |args| |] eqn:Hraw;
    try discriminate.
  unfold loads in Hargs.
  destruct (json_loads E args) as [parsed|] eqn:Hloads; inversion Hargs; subst parsed.
  exists t, f, args. now repeat split.
Qed.

Lemma run_tools_effect (E : env) (tcs : list pyval) (oai_messages : list pyval)
  (prefs : dict) (log log' : list request) (st : list pyval * dict) (k : string) :
  run_tools E tcs oai_messages prefs log = (Ok st, log') ->
  dict_get k (snd st) = dict_get k prefs
  \/ (In k recognized
      /\ exists tc updates v,
           In tc tcs
           /\ save_call E tc updates
           /\ stored_value updates k = Some v
           /\ dict_get k (snd st) = Some v).
Proof.
  revert oai_messages prefs log.
  induction tcs as [|tc tcs IH]; intros ms prefs log; cbn [run_tools].
  - unfold ret. intros H. inversion H. now left.
  - intros H. apply bind_ok in H as (st1 & log1 & Hone & Hrest).
    destruct (IH _ _ _ Hrest) as [Hsame | (Hin & tc' & updates & v & Htc & Hs & Hv & Hget)].
    + rewrite Hsame.
      destruct (run_tool_effect E tc ms prefs log log1 st1 k Hone)
        as [Hone' | (Hin & updates & v & Hs & Hv & Hget)]; [now left|].
      right. split; [exact Hin|]. exists tc, updates, v. repeat split; auto. now left.
    + right. split; [exact Hin|]. exists tc', updates, v. repeat split; auto. now right.
Qed.

(** From the values the loop reads off a reply that asks for tools back
    to the reply's shape. *)
Lemma reply_path (body choices choice message tool_calls : pyval) :
  py_get body "choices" (PList [PDict []]) = Ok choices ->
  py_first choices = Ok choice ->
  py_get choice "message" (PDict []) = Ok message ->
  py_get message "tool_calls" PNone = Ok tool_calls ->
  truthy tool_calls = true ->
  exists m, first_message body = Some m /\ dict_get "tool_calls" m = Some tool_calls.
Proof.
  intros Hch Hfirst Hmsg Htc Htruthy.
  apply py_get_ok in Hch as (d & -> & ->).
  apply py_get_ok in Hmsg as (c & -> & ->).
  apply py_get_ok in Htc as (m & Hm & ->).
  assert (Hcalls : dict_get "tool_calls" m = Some (dict_get_or "tool_calls" m PNone)).
  { unfold dict_get_or in Htruthy |- *.
    destruct (dict_get "tool_calls" m); [reflexivity | discriminate]. }
  assert (Hmessage : dict_get "message" c = Some (PDict m)).
  { unfold dict_get_or in Hm. destruct (dict_get "message" c); [now subst|].
    inversion Hm; subst m. discriminate. }
  exists m. split; [|exact Hcalls].
  unfold first_message. unfold dict_get_or in Hfirst.
  destruct (dict_get "choices" d) as [choices|].
  - destruct choices as [| | | |s|l|]; try discriminate.
    + cbn [py_first] in Hfirst. destruct (utf8_chars s); discriminate.
    + destruct l as [|x l]; [discriminate|]. inversion Hfirst; subst x.
      now rewrite Hmessage.
  - inversion Hfirst; subst c. discriminate.
Qed.

(** Only a list of tool calls holds tool calls that are objects. *)
Lemma py_iter_object (tool_calls : pyval) (tcs : list pyval) (t : dict) :
  py_iter tool_calls = Ok tcs -> In (PDict t) tcs -> tool_calls = PList tcs.
Proof.
  destruct tool_calls as [| | | |s|l|d]; intros H Hin; inversion H; subst tcs;
    [|reflexivity|]; apply in_map_iff in Hin as (x & Hx & _); discriminate.
Qed.

Lemma saved_during_earlier (E : env) (log pre log' : list request) (k : string)
  (v : pyval) :
  saved_during E (log ++ pre)%list log' k v -> saved_during E log log' k v.
Proof.
  intros (earlier & later & transcript & r & body & m & tcs & tc & updates
          & Hlog & Hnet & Hrest).
  exists (pre ++ earlier)%list, later, transcript, r, body, m, tcs, tc, updates.
  split; [rewrite Hlog; now rewrite <- !app_assoc|].
  split; [now rewrite app_assoc | exact Hrest].
Qed.

Lemma logs_extends {A} (m : M A) (P : request -> Prop) (log log' : list request)
  (r : res A) :
  logs m P -> m log = (r, log') -> exists new, log' = (log ++ new)%list.
Proof.
  intros Hm Hrun. destruct (Hm log) as (new & Hlog & _).
  rewrite Hrun in Hlog. now exists new.
Qed.

(** Every key the loop returns holds what it held at the start, or a
    value that a save of one of the model's batches stored under it. *)
Lemma tool_loop_effect (E : env) (fuel : nat) (oai_messages : list pyval) (prefs : dict)
  (log log' : list request) (result : turn_result) (k : string) :
  tool_loop E fuel oai_messages prefs log = (Ok result, log') ->
  kept_or_saved E log log' prefs (preferences result) k.
Proof.
  revert oai_messages prefs log.
  induction fuel as [|fuel IH]; intros ms prefs log H; [discriminate|].
  cbn [tool_loop] in H.
  apply bind_ok in H as (resp & log1 & Hpost & H).
  assert (Hnet : requests_post E log (model_request E ms) = Responded resp
                 /\ log1 = (log ++ [model_request E ms])%list).
  { unfold post in Hpost.
    change {| url := chat_url; headers := openai_headers E;
              payload := chat_payload ms; timeout := 60 |}
      with (model_request E ms) in Hpost.
    destruct (requests_post E log (model_request E ms)); inversion Hpost. now split. }
  destruct Hnet as [Hnet ->]. clear Hpost.
  destruct (400 <=? status_code resp) eqn:Hst.
  { unfold ret in H. inversion H. now left. }
  apply Z.leb_gt in Hst.
  apply bind_ok in H as (data & l & Hdata & H). apply lift_ok in Hdata as [Hdata ->].
  apply bind_ok in H as (choices & l & Hch & H). apply lift_ok in Hch as [Hch ->].
  apply bind_ok in H as (choice & l & Hfirst & H). apply lift_ok in Hfirst as [Hfirst ->].
  apply bind_ok in H as (message & l & Hmsg & H). apply lift_ok in Hmsg as [Hmsg ->].
  apply bind_ok in H as (tool_calls & l & Htc & H). apply lift_ok in Htc as [Htc ->].
  destruct (truthy tool_calls) eqn:Htruthy.
  - apply bind_ok in H as (tcs & l & Hiter & H). apply lift_ok in Hiter as [Hiter ->].
    apply bind_ok in H as (st & log2 & Hrun & Hloop).
    destruct (logs_extends _ _ _ _ _ (run_tools_logs E tcs ms prefs) Hrun) as (new2 & ->).
    destruct (logs_extends _ _ _ _ _ (tool_loop_logs E fuel _ _) Hloop) as (new3 & Hlog').
    destruct (IH _ _ _ Hloop) as [Hsame | (Hin & v & Hv & Hsaved)].
    + unfold kept_or_saved. rewrite Hsame.
      destruct (run_tools_effect E tcs ms prefs _ _ st k Hrun)
        as [Hkept | (Hin & tc & updates & v & Hmem & Hsave & Hstored & Hget)];
        [now left|].
      right. split; [exact Hin|]. exists v. split; [exact Hget|].
      unfold loads in Hdata.
      destruct (json_loads E (text resp)) as [body|] eqn:Hbody;
        inversion Hdata; subst data; clear Hdata.
      destruct (reply_path body choices choice message tool_calls Hch Hfirst Hmsg Htc Htruthy)
        as (m & Hm & Hcalls).
      pose proof Hsave as (t & _ & _ & -> & _).
      rewrite (py_iter_object tool_calls tcs t Hiter Hmem) in Hcalls.
      exists [], (new2 ++ new3)%list, ms, resp, body, m, tcs, (PDict t), updates.
      rewrite app_nil_r. cbn [app].
      split; [rewrite Hlog'; now rewrite <- !app_assoc|].
      now repeat split.
    + right. split; [exact Hin|]. exists v. split; [exact Hv|].
      apply saved_during_earlier with (pre := ([model_request E ms] ++ new2)%list).
      now rewrite app_assoc.
  - apply bind_ok in H as (assistant_content & l & _ & H).
    unfold ret in H. inversion H. now left.
Qed.

Lemma kept_or_saved_keeps (E : env) (log log' : list request) (before after : dict) :
  (forall k, kept_or_saved E log log' before after k) -> keeps_keys before after.
Proof.
  intros H k v Hk. destruct (H k) as [Hsame | (Hin & v' & Hv' & _)].
  - exists v. rewrite Hsame. now split.
  - exists v'. split; [exact Hv' | tauto].
Qed.

(** C10. No turn deletes a preference key, and only a save writes.
    Whenever a turn returns, every key holds in the returned preferences
    what it held in the caller's snapshot, unless it is one of the five
    recognized keys and holds a value that a save_preferences call stored
    under it during the turn: a call of a batch with which the model
    answered one of the turn's requests, whose updates give the key that
    value (a text for topics split into its list). So every key of the
    snapshot is still a key, an unrecognized key keeps its value, and
    without a reasoning-model credential the snapshot comes back as it
    was. *)
Theorem turn_keeps_preference_keys
  (E : env) (fuel : nat) (req : ChatRequest) (log log' : list request)
  (resp : ChatResponse) :
  chat E fuel req log = (Ok resp, log') ->
  (forall k,
     kept_or_saved E log log' (request_preferences req) (updatedPreferences resp) k)
  /\ keeps_keys (request_preferences req) (updatedPreferences resp)
  /\ (OPENAI_API_KEY E = "" -> updatedPreferences resp = request_preferences req).
Proof.
  unfold chat. fold (request_preferences req). intros H.
  apply bind_ok in H as (result & log1 & Hrun & H).
  apply bind_ok in H as (msg & log2 & Hmsg & H).
  apply lift_ok in Hmsg as [_ ->].
  unfold ret in H. inversion H; subst; clear H. cbn [updatedPreferences].
  unfold openai_chat_with_tools in Hrun.
  assert (Hall : forall k,
             kept_or_saved E log log' (request_preferences req) (preferences result) k).
  { intros k. destruct (String.eqb (OPENAI_API_KEY E) "").
    - left. now rewrite (offline_bot_preferences E _ _ _ _ Hrun).
    - exact (tool_loop_effect E fuel _ _ _ _ _ k Hrun). }
  split; [exact Hall|]. split; [exact (kept_or_saved_keeps _ _ _ _ _ Hall)|].
  intros Hkey. rewrite Hkey in Hrun. cbn [String.eqb] in Hrun.
  exact (offline_bot_preferences E _ _ _ _ Hrun).
Qed.

Lemma turn_keeps_preference_keys_witness :
  (forall k,
     kept_or_saved batch_env [] (snd (chat batch_env 2 hello []))
       [("theme", PStr "dark"); ("tone", PStr "casual")]
       [("theme", PStr "dark"); ("tone", PStr "formal");
        ("topics", PList [PStr "tech"; PStr "sports"])] k)
  /\ keeps_keys [("theme", PStr "dark"); ("tone", PStr "casual")]
                [("theme", PStr "dark"); ("tone", PStr "formal");
                 ("topics", PList [PStr "tech"; PStr "sports"])]
  /\ (OPENAI_API_KEY batch_env = "" ->
      [("theme", PStr "dark"); ("tone", PStr "formal");
       ("topics", PList [PStr "tech"; PStr "sports"])]
      = [("theme", PStr "dark"); ("tone", PStr "casual")]).
Proof.
  apply (turn_keeps_preference_keys batch_env 2 hello []
           (snd (chat batch_env 2 hello []))
           {| resp_messages := (req_messages hello
                                ++ [{| role := "assistant";
                                       content := "Saved. Which language?" |}])%list;
              updatedPreferences := [("theme", PStr "dark"); ("tone", PStr "formal");
                                     ("topics", PList [PStr "tech"; PStr "sports"])] |}).
  vm_compute. reflexivity.
Defined.


(** ** A provider failure with a reasoning model *)

(** C3. The turn does not always complete with a message. With a
    reasoning-model credential, when the call to the model's provider
    fails in transport (a time-out, a refused connection), the turn raises
    that failure after the one request, for every budget of the loop, and no
    budget yields a response; the same holds when the provider answers
    with a status below 400 and a body that is not JSON. The call of line
    255 and the decoding of line 265 are outside any [try]. *)
Theorem provider_failure_faults_the_turn
  (E : env) (req : ChatRequest) (log : list request) :
  OPENAI_API_KEY E <> "" ->
  (forall msg,
     requests_post E log
       (model_request E (opening E (req_messages req) (request_preferences req)))
     = Failed msg ->
     (forall fuel,
        chat E (S fuel) req log
        = (Raise (TransportError msg),
           (log ++ [model_request E
                      (opening E (req_messages req) (request_preferences req))])%list))
     /\ (forall fuel resp log', chat E fuel req log <> (Ok resp, log')))
  /\ (forall r,
        requests_post E log
          (model_request E (opening E (req_messages req) (request_preferences req)))
        = Responded r ->
        status_code r < 400 ->
        json_loads E (text r) = None ->
        (forall fuel,
           chat E (S fuel) req log
           = (Raise (JSONDecodeError (text r)),
              (log ++ [model_request E
                         (opening E (req_messages req) (request_preferences req))])%list))
        /\ (forall fuel resp log', chat E fuel req log <> (Ok resp, log'))).
Proof.
  intros Hkey.
  assert (Hzero : forall resp log', chat E 0 req log <> (Ok resp, log')).
  { intros resp log'. unfold chat, openai_chat_with_tools. rewrite (key_set _ Hkey).
    cbn [tool_loop]. unfold bind, lift. discriminate. }
  assert (Hnever : forall e l,
             (forall fuel, chat E (S fuel) req log = (Raise e, l)) ->
             forall fuel resp log', chat E fuel req log <> (Ok resp, log')).
  { intros e l Hraise [|fuel] resp log'; [apply Hzero|]. rewrite Hraise. discriminate. }
  split.
  - intros msg Hnet.
    assert (Hraise : forall fuel,
               chat E (S fuel) req log
               = (Raise (TransportError msg),
                  (log ++ [model_request E
                             (opening E (req_messages req)
                                (request_preferences req))])%list)).
    { intros fuel. apply chat_raises; [exact Hkey|].
      cbn [tool_loop]. unfold post.
      change {| url := chat_url; headers := openai_headers E;
                payload := chat_payload
                             (initial_messages E (req_messages req)
                                (request_preferences req));
                timeout := 60 |}
        with (model_request E (opening E (req_messages req) (request_preferences req))).
      unfold bind at 1. now rewrite Hnet. }
    split; [exact Hraise | exact (Hnever _ _ Hraise)].
  - intros r Hnet Hst Hbody.
    assert (Hraise : forall fuel,
               chat E (S fuel) req log
               = (Raise (JSONDecodeError (text r)),
                  (log ++ [model_request E
                             (opening E (req_messages req)
                                (request_preferences req))])%list)).
    { intros fuel. apply chat_raises; [exact Hkey|].
      cbn [tool_loop]. unfold bind at 1.
      rewrite (post_responded E
                 (initial_messages E (req_messages req) (request_preferences req))
                 log r Hnet).
      apply Z.leb_gt in Hst. rewrite Hst.
      unfold bind at 1. unfold resp_json, lift, loads. now rewrite Hbody. }
    split; [exact Hraise | exact (Hnever _ _ Hraise)].
Qed.

Lemma provider_failure_faults_the_turn_witness :
  (forall fuel,
     chat unreachable_env (S fuel) hello []
     = (Raise (TransportError "Read timed out."),
        ([] ++ [model_request unreachable_env
                  (opening unreachable_env (req_messages hello)
                     (request_preferences hello))])%list))
  /\ (forall fuel resp log', chat unreachable_env fuel hello [] <> (Ok resp, log')).
Proof.
  apply (proj1 (provider_failure_faults_the_turn unreachable_env hello []
                  ltac:(discriminate))).
  reflexivity.
Defined.
